(** * DLR survey analysis: socio-demographic queries and BN evidence

    A shallow embedding of [src/socios.py] (identity, question and answer
    queries, feature assembly) and [src/bn_evidence.py] (evidence encoding),
    with the properties of the written specification stated over it.

    Conventions of the embedding.
    - A Python call either returns or raises, and may print or write a file
      on the way: [Py.M A] pairs the trace of such events with the outcome.
    - A pandas float cell is [NaN] or [Num q] with [q] rational: every finite
      binary float is a rational, and the operations used here (comparison
      with bin edges, subtraction, rounding to an integer for printing) are
      then exact.  Infinities and the negative zero are not represented.
    - Text is [string] over bytes.  Within ASCII a byte is a character and
      lower-casing is that of the letters A to Z; what depends on the
      characters of a text is stated for ASCII text. *)

From Stdlib Require Import ZArith QArith List String Ascii Bool Lia.
From Stdlib Require Import DecimalString Sorted.
From Stdlib Require DecimalZ DecimalPos.
Import ListNotations.
Open Scope string_scope.
Open Scope list_scope.
Open Scope Z_scope.

(** Python's [+] on strings. *)
Infix "+++" := String.append (right associativity, at level 60).

(* ================================================================= *)
(** ** The Python run time: outcomes, events, printing *)

Module Py.

Inductive exn : Type :=
| ImportError
| KeyError
| TypeError
| IndexError
| ValueError
| OSError         (* FileNotFoundError, PermissionError and the like *)
| ReError.        (* re.error, or a pattern outside the modelled syntax *)

Inductive outcome (A : Type) : Type :=
| Returned (a : A)
| Raised (e : exn).
Arguments Returned {A} a.
Arguments Raised {A} e.

Inductive event : Type :=
| Print (line : string)
| WriteFile (path content : string).

(** A computation: the events it performed, in order, and how it ended. *)
Definition M (A : Type) : Type := (list event * outcome A)%type.

Definition ret {A} (a : A) : M A := ([], Returned a).
Definition raise {A} (e : exn) : M A := ([], Raised e).
Definition bind {A B} (m : M A) (k : A -> M B) : M B :=
  match m with
  | (tr, Returned a) => let (tr', r) := k a in (tr ++ tr', r)
  | (tr, Raised e) => (tr, Raised e)
  end.
Definition emit (e : event) : M unit := ([e], Returned tt).

Declare Scope py_scope.
Delimit Scope py_scope with py.
Notation "x <- m ;; k" := (bind m (fun x => k))
  (at level 61, m at next level, right associativity) : py_scope.
Notation "' pat <- m ;; k" := (bind m (fun x => match x with pat => k end))
  (at level 61, pat pattern, m at next level, right associativity) : py_scope.
Notation "m ;;; k" := (bind m (fun _ => k))
  (at level 61, right associativity) : py_scope.

(** [str(n)] for an integer. *)
Definition str_int (n : Z) : string := NilZero.string_of_int (Z.to_int n).

Fixpoint join (sep : string) (l : list string) : string :=
  match l with
  | [] => EmptyString
  | [s] => s
  | s :: rest => s +++ sep +++ join sep rest
  end.

(** [str(l)] for a list of integers: [[1, 2, 3]]. *)
Definition str_int_list (l : list Z) : string :=
  "[" +++ join ", " (map str_int l) +++ "]".

(** [print(a, b)]: the arguments separated by one space. *)
Definition print (args : list string) : M unit := emit (Print (join " " args)).

(** Text within ASCII: every byte is a character below 128. *)
Definition ascii_char (c : ascii) : bool := (nat_of_ascii c <? 128)%nat.

Fixpoint ascii_text (s : string) : bool :=
  match s with
  | EmptyString => true
  | String c r => ascii_char c && ascii_text r
  end.

(** [str.lower()] on ASCII text: the letters A to Z.  Beyond ASCII Python
    lower-cases by the Unicode tables, which are not modelled. *)
Definition lower_ascii (c : ascii) : ascii :=
  let n := nat_of_ascii c in
  if (65 <=? n)%nat && (n <=? 90)%nat then ascii_of_nat (n + 32) else c.

Fixpoint lower (s : string) : string :=
  match s with
  | EmptyString => EmptyString
  | String c r => String (lower_ascii c) (lower r)
  end.

(** [os.path.join(a, b)] on a POSIX system. *)
Fixpoint ends_with_slash (s : string) : bool :=
  match s with
  | EmptyString => false
  | String c EmptyString => Ascii.eqb c "/"
  | String _ r => ends_with_slash r
  end.

Definition os_path_join (a b : string) : string :=
  match b with
  | String "/" _ => b
  | _ => if (a =? EmptyString)%string || ends_with_slash a then a +++ b
         else a +++ "/" +++ b
  end.

(** Text made of decimal digits only. *)
Definition is_digit (c : ascii) : bool :=
  let n := nat_of_ascii c in (48 <=? n)%nat && (n <=? 57)%nat.

Fixpoint all_digits (s : string) : bool :=
  match s with
  | EmptyString => true
  | String c r => is_digit c && all_digits r
  end.

(** No event happened. *)
Definition silent {A} (m : M A) : Prop := fst m = [].

(** [x in l] for integers. *)
Definition mem (x : Z) (l : list Z) : bool := existsb (Z.eqb x) l.

Definition mem_str (x : string) (l : list string) : bool :=
  existsb (String.eqb x) l.

End Py.

(* ================================================================= *)
(** ** The pandas operations the two modules use *)

Module Pandas.
Import Py.
Local Open Scope py_scope.

(** A cell of a frame: a missing value, a number, or text (a label of a
    categorical column, or the result of formatting). *)
Inductive cell : Type :=
| NaN
| Num (q : Q)
| Str (s : string).

(** A frame whose column 0 is the integer column [AnswerID]: [columns]
    holds the labels of the columns after it, a row is the identifier and
    the cells of those columns.  Every frame of [socios.py] that reaches
    [featureFrame] has this shape. *)
Record Frame : Type := mkFrame {
  columns : list string;
  rows : list (Z * list cell)
}.

Definition keys (f : Frame) : list Z := map fst (rows f).

(** [Series.unique()]: the values in order of first appearance. *)
Fixpoint unique_from (seen l : list Z) : list Z :=
  match l with
  | [] => []
  | x :: r => if mem x seen then unique_from seen r
              else x :: unique_from (x :: seen) r
  end.
Definition unique (l : list Z) : list Z := unique_from [] l.

(** A Python dict with string keys, in insertion order: setting a key that
    is present replaces its value in place. *)
Fixpoint dict_set {V} (k : string) (v : V) (d : list (string * V))
  : list (string * V) :=
  match d with
  | [] => [(k, v)]
  | (k', v') :: r => if (k =? k')%string then (k, v) :: r
                     else (k', v') :: dict_set k v r
  end.
Definition dict_of {V} (items : list (string * V)) : list (string * V) :=
  fold_left (fun d kv => dict_set (fst kv) (snd kv) d) items [].

Fixpoint dict_get {V} (k : string) (d : list (string * V)) : option V :=
  match d with
  | [] => None
  | (k', v) :: r => if (k =? k')%string then Some v else dict_get k r
  end.

(** *** Columns by label *)

Fixpoint positions_of (name : string) (cols : list string) (i : nat)
  : list nat :=
  match cols with
  | [] => []
  | c :: r => if (name =? c)%string then i :: positions_of name r (S i)
              else positions_of name r (S i)
  end.

(** [frame[name]]: KeyError when there is no such column.  With the label
    repeated pandas hands back a sub-frame, on which the arithmetic and the
    assignments of the callers fail; the model raises at the lookup. *)
Definition get_col (name : string) (f : Frame) : M (list cell) :=
  match positions_of name (columns f) 0 with
  | [] => raise KeyError
  | [i] => ret (map (fun r => nth i (snd r) NaN) (rows f))
  | _ => raise ValueError
  end.

Fixpoint set_nth {A} (i : nat) (v : A) (l : list A) : list A :=
  match l, i with
  | [], _ => []
  | _ :: r, O => v :: r
  | x :: r, S j => x :: set_nth j v r
  end.

(** [frame[name] = values]: replaces the column, or appends it as the last
    one.  [values] comes from columns of the same frame, so it is aligned
    with the rows by position. *)
Definition set_col (name : string) (values : list cell) (f : Frame) : Frame :=
  match positions_of name (columns f) 0 with
  | i :: _ =>
      mkFrame (columns f)
        (map (fun rv => (fst (fst rv), set_nth i (snd rv) (snd (fst rv))))
             (combine (rows f) values))
  | [] =>
      mkFrame (columns f ++ [name])
        (map (fun rv => (fst (fst rv), snd (fst rv) ++ [snd rv]))
             (combine (rows f) values))
  end.

Fixpoint remove_nth {A} (i : nat) (l : list A) : list A :=
  match l, i with
  | [], _ => []
  | _ :: r, O => r
  | x :: r, S j => x :: remove_nth j r
  end.

(** [frame.drop(names, axis=1)], one label at a time; a label that is not a
    column is an error. *)
Definition drop1 (name : string) (f : Frame) : M Frame :=
  match positions_of name (columns f) 0 with
  | [] => raise KeyError
  | [i] => ret (mkFrame (remove_nth i (columns f))
                        (map (fun r => (fst r, remove_nth i (snd r))) (rows f)))
  | _ => raise ValueError
  end.

Fixpoint drop (names : list string) (f : Frame) : M Frame :=
  match names with
  | [] => ret f
  | n :: r => f' <- drop1 n f ;; drop r f'
  end.

(** [frame.columns = labels]: [labels] names column 0 too, and its length
    has to be the number of columns. *)
Definition set_columns (labels : list string) (f : Frame) : M Frame :=
  match labels with
  | key :: rest =>
      if (List.length rest =? List.length (columns f))%nat
      then ret (mkFrame rest (rows f))
      else raise ValueError
  | [] => raise ValueError
  end.

(** The label of column 0 of every frame. *)
Definition key_label : string := "AnswerID".

(** [frame.iloc[:, [0] + positions]]: the key column and the columns at
    the given positions, in that order.  A position outside the frame is an
    IndexError.  Position 0 is the key column once more: a column that
    repeats the identifier under the label of the key. *)
Definition iloc_label (cols : list string) (p : nat) : string :=
  match p with
  | O => key_label
  | S j => nth j cols EmptyString
  end.

Definition iloc_cell (r : Z * list cell) (p : nat) : cell :=
  match p with
  | O => Num (inject_Z (fst r))
  | S j => nth j (snd r) NaN
  end.

Definition iloc_key_and (positions : list nat) (f : Frame) : M Frame :=
  if existsb (fun p => (List.length (columns f) <? p)%nat) positions
  then raise IndexError
  else ret (mkFrame (map (iloc_label (columns f)) positions)
                    (map (fun r => (fst r, map (iloc_cell r) positions))
                         (rows f))).

(** *** Outer merge on the key column

    [pd.merge(L, R, how='outer', on='AnswerID')]: the keys of both sides in
    order of first appearance (the left frame's first); for each key every
    pairing of a left row with a right row, and a side without a row for
    the key filled with [NaN].  A label that both sides use for a column
    gets the suffix [_x] on the left and [_y] on the right. *)

Definition rows_with (k : Z) (rs : list (Z * list cell)) : list (list cell) :=
  map snd (filter (fun r => fst r =? k) rs).

Definition nan_row (n : nat) : list cell := repeat NaN n.

Definition merge_group (nl nr : nat) (k : Z)
  (ls rs : list (list cell)) : list (Z * list cell) :=
  match ls, rs with
  | [], _ => map (fun r => (k, nan_row nl ++ r)) rs
  | _, [] => map (fun l => (k, l ++ nan_row nr)) ls
  | _, _ => flat_map (fun l => map (fun r => (k, l ++ r)) rs) ls
  end.

Definition merge_columns (cl cr : list string) : list string :=
  map (fun c => if mem_str c cr then c +++ "_x" else c) cl ++
  map (fun c => if mem_str c cl then c +++ "_y" else c) cr.

Definition merge_outer (L R : Frame) : Frame :=
  let nl := List.length (columns L) in
  let nr := List.length (columns R) in
  mkFrame
    (merge_columns (columns L) (columns R))
    (flat_map (fun k => merge_group nl nr k (rows_with k (rows L))
                                            (rows_with k (rows R)))
              (unique (keys L ++ keys R))).

(** *** Binning: [pd.cut] *)

(** [np.searchsorted(bins, x, side)] on increasing [bins]: the number of
    edges [<= x] (side right), or [< x] (side left). *)
Definition searchsorted (bins : list Q) (x : Q) (side_right : bool) : nat :=
  List.length (filter (fun b => if side_right then Qle_bool b x
                           else negb (Qle_bool x b)) bins).

Fixpoint increasing (bins : list Q) : bool :=
  match bins with
  | a :: ((b :: _) as r) => negb (Qle_bool b a) && increasing r
  | _ => true
  end.

(** One value: the index of the bin is found by [searchsorted] on the side
    opposite to the closed one, the lowest edge is put into the first bin
    under [include_lowest], and index 0 or [len(bins)] is outside. *)
Definition cut_value (bins : list Q) (labels : list string)
  (right include_lowest : bool) (x : cell) : M cell :=
  match x with
  | NaN => ret NaN
  | Str _ => raise TypeError
  | Num v =>
      let ids := searchsorted bins v (negb right) in
      let ids := if include_lowest && Qeq_bool v (hd 0%Q bins) then 1%nat
                 else ids in
      if (ids =? List.length bins)%nat || (ids =? 0)%nat then ret NaN
      else match nth_error labels (ids - 1) with
           | Some l => ret (Str l)
           | None => raise ValueError
           end
  end.

Fixpoint mapM {A B} (f : A -> M B) (l : list A) : M (list B) :=
  match l with
  | [] => ret []
  | x :: r => y <- f x ;; ys <- mapM f r ;; ret (y :: ys)
  end.

Definition cut (xs : list cell) (bins : list Q) (labels : list string)
  (right include_lowest : bool) : M (list cell) :=
  if negb (increasing bins) then raise ValueError
  else if negb (List.length labels =? List.length bins - 1)%nat
  then raise ValueError
  else mapM (cut_value bins labels right include_lowest) xs.

(** *** Formatting: ['{:.0f}'.format] *)

(** The integer nearest to [q >= 0], a tie going to the even one. *)
Definition round_half_even (q : Q) : Z :=
  let n := Qnum q in
  let d := Zpos (Qden q) in
  let fl := n / d in
  let r2 := 2 * (n mod d) in
  if r2 <? d then fl
  else if d <? r2 then fl + 1
  else if Z.even fl then fl else fl + 1.

(** [float(k)] for an integer, as an integer: exact up to 53 bits, and
    beyond them the multiple of the power of two that is nearest, a tie
    going to the even one.  An identifier of a frame is a 64-bit integer,
    far inside the range of a float. *)
Definition float_of_int (k : Z) : Z :=
  let a := Z.abs k in
  let e := Z.log2 a - 52 in
  if e <=? 0 then k
  else Z.sgn k * (round_half_even (Qmake a (Z.to_pos (2 ^ e))) * 2 ^ e).

(** The sign is printed from the value, the digits from the rounded
    magnitude. *)
Definition format_0f_text (q : Q) : string :=
  if Qnum q <? 0 then "-" +++ str_int (round_half_even (Qopp q))
  else str_int (round_half_even q).

(** A missing value is a float too, and prints as [nan]; text does not
    take the format. *)
Definition format_0f (x : cell) : M cell :=
  match x with
  | NaN => ret (Str "nan")
  | Num q => ret (Str (format_0f_text q))
  | Str _ => raise ValueError
  end.

(** [Series.map(f, na_action)]: with [na_action=None] (the default) [f] is
    called on every cell, the missing ones too; with ['ignore'] those are
    passed over. *)
Inductive na_action : Type := NaNone | NaIgnore.

Definition series_map (f : cell -> M cell) (na : na_action) (xs : list cell)
  : M (list cell) :=
  mapM (fun x => match na, x with
                 | NaIgnore, NaN => ret NaN
                 | _, _ => f x
                 end) xs.

(** [frame.replace(np.nan, v)]: every missing cell becomes [v]. *)
Definition replace_nan (v : cell) (x : cell) : cell :=
  match x with NaN => v | _ => x end.

(** Cell arithmetic: a missing operand gives a missing result. *)
Definition cell_sub (a b : cell) : M cell :=
  match a, b with
  | Str _, _ | _, Str _ => raise TypeError
  | Num x, Num y => ret (Num (x - y))
  | _, _ => ret NaN
  end.

Fixpoint series_sub (xs ys : list cell) : M (list cell) :=
  match xs, ys with
  | x :: xr, y :: yr =>
      z <- cell_sub x y ;; zr <- series_sub xr yr ;; ret (z :: zr)
  | _, _ => ret []
  end.

End Pandas.

(* ================================================================= *)
(** ** Regular expressions, as far as search terms need them *)

Module Re.
Import Py.

(** [Series.str.contains(pat)] searches for the regular expression [pat].
    The model covers alternatives separated by [|], each a sequence of
    literal characters and [.] (any character but a newline); a pattern
    with any other special character is outside it and ends in [ReError]. *)
Inductive atom : Type :=
| Lit (c : ascii)
| AnyChar.

Definition newline : ascii := "010"%char.

Definition special : list ascii :=
  ["\"; "^"; "$"; "*"; "+"; "?"; "{"; "}"; "["; "]"; "("; ")"]%char.

Definition is_special (c : ascii) : bool := existsb (Ascii.eqb c) special.

Fixpoint split_on (sep : ascii) (s : string) : list string :=
  match s with
  | EmptyString => [EmptyString]
  | String c r =>
      if Ascii.eqb c sep then EmptyString :: split_on sep r
      else match split_on sep r with
           | h :: t => String c h :: t
           | [] => [String c EmptyString]
           end
  end.

Fixpoint parse_branch (s : string) : option (list atom) :=
  match s with
  | EmptyString => Some []
  | String c r =>
      if is_special c then None
      else match parse_branch r with
           | Some p => Some ((if Ascii.eqb c "." then AnyChar else Lit c) :: p)
           | None => None
           end
  end.

Fixpoint parse_branches (l : list string) : option (list (list atom)) :=
  match l with
  | [] => Some []
  | b :: r => match parse_branch b, parse_branches r with
              | Some p, Some ps => Some (p :: ps)
              | _, _ => None
              end
  end.

Definition compile (pat : string) : option (list (list atom)) :=
  parse_branches (split_on "|" pat).

(** The branch matches a prefix of [s]. *)
Fixpoint match_here (p : list atom) (s : string) : bool :=
  match p, s with
  | [], _ => true
  | _ :: _, EmptyString => false
  | Lit c :: p', String d s' => Ascii.eqb c d && match_here p' s'
  | AnyChar :: p', String d s' => negb (Ascii.eqb d newline) && match_here p' s'
  end.

(** The branch matches somewhere in [s]. *)
Fixpoint search_branch (p : list atom) (s : string) : bool :=
  match_here p s ||
  match s with
  | EmptyString => false
  | String _ s' => search_branch p s'
  end.

(** A search term without any character that is special in a pattern. *)
Definition plain_char (c : ascii) : bool :=
  negb (is_special c) && negb (Ascii.eqb c ".") && negb (Ascii.eqb c "|").

Fixpoint plain (s : string) : bool :=
  match s with
  | EmptyString => true
  | String c r => plain_char c && plain r
  end.

(** What the specification says of a match: [t] occurs in [s] as a
    substring; and Python's [t in s], which decides it. *)
Definition substring_of (t s : string) : Prop :=
  exists pre post, s = pre +++ t +++ post.

Fixpoint starts_with (t s : string) : bool :=
  match t, s with
  | EmptyString, _ => true
  | String c t', String d s' => Ascii.eqb c d && starts_with t' s'
  | String _ _, EmptyString => false
  end.

Fixpoint contains (t s : string) : bool :=
  starts_with t s ||
  match s with
  | EmptyString => false
  | String _ s' => contains t s'
  end.

(** The pattern of a plain term: its characters, as literals. *)
Definition literals (t : string) : list atom :=
  map Lit (list_ascii_of_string t).

(** [re.search(rx, s) is not None] for a compiled pattern. *)
Definition search (rx : list (list atom)) (s : string) : bool :=
  existsb (fun b => search_branch b s) rx.

End Re.

(* ================================================================= *)
(** ** [socios.py] *)

Module Socios.
Import Py Pandas.
Local Open Scope py_scope.

(** The categories of [questions.Datatype] after [loadQuestions] has named
    them [['blob','char','num']]. *)
Inductive dtype : Type := blob | char | num.

Definition dtype_eqb (a b : dtype) : bool :=
  match a, b with
  | blob, blob | char, char | num, num => true
  | _, _ => false
  end.

(** Rows of the tables of the store ([loadTables]), with the [lock] column
    that every reader drops left out. *)
Record Group : Type := mkGroup {
  g_GroupID : Z; g_Year : string; g_Location : string }.

Record Link : Type := mkLink {
  l_GroupID : Z; l_AnswerID : Z; l_ProfileID : Z }.

Record Question : Type := mkQuestion {
  q_QuestionID : Z;
  q_Question : string;
  q_Datatype : dtype;
  q_QuestionaireID : Z;
  q_ColumnNo : nat }.

Record QConstraint : Type := mkQConstraint {
  c_Lower : cell; c_Upper : cell }.

Record Answer : Type := mkAnswer {
  a_AnswerID : Z; a_QuestionaireID : Z }.

Record Tables : Type := mkTables {
  groups : list Group;
  links : list Link;
  questions : list Question;
  qconstraints : list QConstraint;
  questionaires : list Z;            (* the QuestionaireID column *)
  answers : list Answer;
  answers_blob_anon : Frame;
  answers_char_anon : Frame;
  answers_num : Frame }.

(** A year as the callers pass it: a number or a string. *)
Inductive pyyear : Type :=
| YInt (y : Z)
| YStr (s : string).

(** [str(year)], applied only to what is not a string already. *)
Definition year_str (year : pyyear) : string :=
  match year with
  | YStr s => s
  | YInt y => str_int y
  end.

Section WithTables.
Variable T : Tables.

(** [links[id_name]]: the columns of the links table. *)
Definition link_col (id_name : string) : option (Link -> Z) :=
  if (id_name =? "AnswerID")%string then Some l_AnswerID
  else if (id_name =? "ProfileID")%string then Some l_ProfileID
  else if (id_name =? "GroupID")%string then Some l_GroupID
  else None.

Definition loadID (year : option pyyear) (id_name : string) : M (list Z) :=
  match link_col id_name with
  | None => raise KeyError
  | Some col =>
      let all_ids :=
        filter (fun l => negb (l_GroupID l =? 0) && negb (col l =? 0))
               (links T) in
      match year with
      | None => ret (unique (map col all_ids))
      | Some y =>
          let year := year_str y in
          let id_select :=
            map g_GroupID
                (filter (fun g => (g_Year g =? year)%string) (groups T)) in
          ret (unique (map col
                 (filter (fun l => mem (l_GroupID l) id_select) all_ids)))
      end
  end.

Definition loadQuestions (dt : option dtype) : list Question :=
  match dt with
  | None => questions T
  | Some d => filter (fun q => dtype_eqb (q_Datatype q) d) (questions T)
  end.

(** [loadAnswers()] without a data type: who answered which questionaire. *)
Definition loadAnswers_all : list Answer := answers T.

(** [loadAnswers(dtype)]: the answer table of the data type. *)
Definition loadAnswers (dt : dtype) : Frame :=
  match dt with
  | blob => answers_blob_anon T
  | char => answers_char_anon T
  | num => answers_num T
  end.

(** The search term argument: one string, or a list of strings. *)
Inductive searchterm : Type :=
| One (s : string)
| Many (l : list string).

(** A row of the result of [searchQuestions]. *)
Record QRow : Type := mkQRow {
  r_Question : string;
  r_Datatype : dtype;
  r_QuestionaireID : Z;
  r_ColumnNo : nat;
  r_Lower : cell;
  r_Upper : cell }.

(** [qu.join(qcons, 'QuestionID', rsuffix='_c')]: a left join of the value
    of [QuestionID] with the row index of the constraints table. *)
Definition join_qcons (q : Question) : Question * option QConstraint :=
  (q, if q_QuestionID q <? 0 then None
      else nth_error (qconstraints T) (Z.to_nat (q_QuestionID q))).

Definition select_result (r : Question * option QConstraint) : QRow :=
  let (q, c) := r in
  mkQRow (q_Question q) (q_Datatype q) (q_QuestionaireID q) (q_ColumnNo q)
         (match c with Some c => c_Lower c | None => NaN end)
         (match c with Some c => c_Upper c | None => NaN end).

(** A single search term is wrapped into a list. *)
Definition as_list (term : searchterm) : list string :=
  match term with
  | Many l => l
  | One s => [s]
  end.

Definition searchQuestions (term : searchterm) (qnairid : option Z)
  (dt : option dtype) : M (option (list QRow)) :=
  let searchterm := as_list term in
  let searchterm := map lower searchterm in
  let qu := loadQuestions dt in
  let qdf := map join_qcons qu in
  let qnairids := questionaires T in
  let select qdf :=
    match Re.compile (join "|" searchterm) with
    | None => raise ReError
    | Some rx =>
        ret (Some (map select_result
                     (filter (fun r =>
                                Re.search rx (lower (q_Question (fst r))))
                             qdf)))
    end in
  match qnairid with
  | None => select qdf
  | Some i =>
      if mem i qnairids
      then select (filter (fun r => q_QuestionaireID (fst r) =? i) qdf)
      else print ["Please select a valid QuestionaireID";
                  str_int_list qnairids] ;;;
           ret None
  end.

(** Not a function of the source: the three conditions that
    [searchQuestions] puts on a question when the terms are plain text,
    in one test, to state its result with. *)
Definition keeps (term : searchterm) (qnairid : option Z) (dt : option dtype)
  (q : Question) : bool :=
  match dt with Some d => dtype_eqb (q_Datatype q) d | None => true end &&
  match qnairid with Some i => q_QuestionaireID q =? i | None => true end &&
  existsb (fun t => Re.contains t (lower (q_Question q)))
          (map lower (as_list term)).

(** [searchAnswers]: the answer columns of the questions found, for those
    who answered the questionaire, and the questions' column and text. *)
Definition searchAnswers (term : searchterm) (qnairid : Z) (dt : dtype)
  : M (Frame * list (nat * string)) :=
  let allans := loadAnswers_all in
  let ans := loadAnswers dt in
  found <- searchQuestions term (Some qnairid) (Some dt) ;;
  let result :=
    mkFrame (columns ans)
      (filter (fun r =>
                 mem (fst r)
                     (map a_AnswerID
                        (filter (fun a => a_QuestionaireID a =? qnairid)
                                allans)))
              (rows ans)) in
  match found with
  | None => raise TypeError          (* [None['ColumnNo']] *)
  | Some qs =>
      result <- iloc_key_and (map r_ColumnNo qs) result ;;
      ret (result, map (fun q => (r_ColumnNo q, r_Question q)) qs)
  end.

(** A row of the feature questions: column, text, and the feature. *)
Record FeatureQ : Type := mkFeatureQ {
  fq_ColumnNo : nat; fq_Question : string; fq_feature : string }.

(** [year <= 1999]: an order between a string and a number is a TypeError. *)
Definition year_le_1999 (year : pyyear) : M bool :=
  match year with
  | YInt y => ret (y <=? 1999)
  | YStr _ => raise TypeError
  end.

(** The body of the loop of [featureFrame], over the remaining features.
    When the answers come with the key column repeated (a question at
    column 0), [d.AnswerID] is a frame of two columns and not a column:
    the selection with it and the merge on that label end in a
    ValueError. *)
Fixpoint featureFrame_loop (features : list string) (year : pyyear)
  (data : Frame) (featureqs : list FeatureQ) : M (Frame * list FeatureQ) :=
  match features with
  | [] => ret (data, featureqs)
  | f :: rest =>
      old <- year_le_1999 year ;;
      ans <- searchAnswers (One f) (if old then 6 else 3) num ;;
      let d := fst ans in
      let q := map (fun cq => mkFeatureQ (fst cq) (snd cq) f) (snd ans) in
      if mem_str key_label (columns d) then raise ValueError
      else
        let newdata :=
          mkFrame (columns d)
                  (filter (fun r => mem (fst r) (keys data)) (rows d)) in
        let data := merge_outer data newdata in
        featureFrame_loop rest year data (featureqs ++ q)
  end.

Definition featureFrame (features : list string) (year : pyyear)
  : M (Frame * list FeatureQ) :=
  ids <- loadID (Some year) "AnswerID" ;;
  let data := mkFrame [] (map (fun i => (i, [])) ids) in
  featureFrame_loop features year data [].

End WithTables.

(** Not in the source: what the store has to satisfy for [featureFrame]
    to get the answers of numeric questions, namely that they point at
    columns of the numeric answer table after the key (offset 0 is the
    key itself). *)
Definition offsets_ok (T : Tables) : Prop :=
  forall q, In q (questions T) -> q_Datatype q = num ->
            (1 <= q_ColumnNo q <= List.length (columns (answers_num T)))%nat.

(** The names bound at the top level of the module [socios]: its imports,
    its three path constants and its twelve functions. *)
Definition namespace : list string :=
  ["np"; "pd"; "feather"; "glob"; "os"; "Path";
   "src_dir"; "dlrdb_dir"; "data_dir";
   "loadTables"; "loadID"; "loadQuestions"; "loadAnswers";
   "searchQuestions"; "typeSplitQuestions"; "searchAnswers";
   "featureFrame"; "checkAnswer"; "Locations"; "Lang"; "AltE"].

End Socios.

(* ================================================================= *)
(** ** [json.dump] of a dict of dicts *)

Module Json.
Import Py Pandas.
Local Open Scope py_scope.

Definition dquote : ascii := "034"%char.
Definition backslash : ascii := "092"%char.

(** The escapes that printable ASCII text needs. *)
Fixpoint escape (s : string) : string :=
  match s with
  | EmptyString => EmptyString
  | String c r =>
      if Ascii.eqb c dquote || Ascii.eqb c backslash
      then String backslash (String c (escape r))
      else String c (escape r)
  end.

Definition dump_str (s : string) : string :=
  String dquote (escape s +++ String dquote EmptyString).

(** A value of a record.  The text of a float ([repr]) is not modelled:
    every cell that [evidence2000] serializes has been formatted or binned
    into text before. *)
Definition dump_cell (x : cell) : M string :=
  match x with
  | Str s => ret (dump_str s)
  | NaN => ret "NaN"
  | Num _ => raise ValueError
  end.

Definition dump_object (items : list (string * string)) : string :=
  "{" +++
  join ", " (map (fun kv => dump_str (fst kv) +++ ": " +++ snd kv) items) +++
  "}".

Definition dump_record (d : list (string * cell)) : M string :=
  vs <- mapM (fun kv => v <- dump_cell (snd kv) ;; ret (fst kv, v)) d ;;
  ret (dump_object vs).

Definition dumps (e : list (string * list (string * cell))) : M string :=
  vs <- mapM (fun kv => v <- dump_record (snd kv) ;; ret (fst kv, v)) e ;;
  ret (dump_object vs).

End Json.

(* ================================================================= *)
(** ** [bn_evidence.py] *)

Module BnEvidence.
Import Py Pandas Socios.
Local Open Scope py_scope.

(** Line 11, [from socios import buildFeatureFrame]: the name has to be
    bound in the module [socios]. *)
Definition from_socios_import (name : string) : M unit :=
  if mem_str name Socios.namespace then ret tt else raise ImportError.

Definition module_imports : M unit := from_socios_import "buildFeatureFrame".

(** List of random variables in the Bayesian network. *)
Definition bn_n : list string :=
  ["monthly_income"; "water_access"; "roof_material"; "wall_material";
   "cb_size"; "floor_area"; "geyser_nr"].

Definition searchlist : list string :=
  ["earn per month"; "watersource"; "GeyserNumber"; "GeyserBroken";
   "roof"; "wall"; "main switch"; "floor area"].

Definition income_bins : list Q :=
  map inject_Z [0; 1800; 3200; 7800; 11600; 19116; 24500; 65600; 500000].
Definition income_labels : list string :=
  ["R0-R1799"; "R1800-R3199"; "R3200-R7799"; "R7800-R11599";
   "R11600-R19115"; "R19116-R24499"; "R24500-R65499"; "+R65500"].
Definition floorarea_bins : list Q := map inject_Z [0; 50; 80; 150; 250; 500].
Definition floorarea_labels : list string :=
  ["0-50"; "50-80"; "80-150"; "150-250"; "250-500"].

(** The frame once [AnswerID] has been formatted and made the index. *)
Record Indexed : Type := mkIndexed {
  i_columns : list string;
  i_rows : list (string * list cell)
}.

(** What [evidence2000] hands back. *)
Inductive retval : Type :=
| PyNone
| PyDict (evidence : list (string * list (string * cell))).

(** [frame.name = f(frame.name)] *)
Definition update_col (name : string) (f : list cell -> M (list cell))
  (fr : Frame) : M Frame :=
  xs <- get_col name fr ;;
  ys <- f xs ;;
  ret (set_col name ys fr).

(** Lines 34 to 36: the geyser count, and the node names. *)
Definition derive_nodes (featureframe : Frame) : M Frame :=
  c115 <- get_col "115" featureframe ;;
  c131 <- get_col "131" featureframe ;;
  g <- series_sub c115 c131 ;;
  let featureframe := set_col "geyser_nr" g featureframe in
  featureframe <- drop ["115"; "131"] featureframe ;;
  set_columns ("AnswerID" :: bn_n) featureframe.

(** Lines 44 and 45: the bins of income and floor area. *)
Definition bin_columns (featureframe : Frame) : M Frame :=
  featureframe <-
    update_col "monthly_income"
      (fun xs => cut xs income_bins income_labels false true) featureframe ;;
  update_col "floor_area"
    (fun xs => cut xs floorarea_bins floorarea_labels true false) featureframe.

(** Lines 47 to 51: the codes as text. *)
Definition format_columns (featureframe : Frame) : M Frame :=
  let fmt := series_map format_0f NaNone in
  featureframe <- update_col "water_access" fmt featureframe ;;
  featureframe <- update_col "roof_material" fmt featureframe ;;
  featureframe <- update_col "wall_material" fmt featureframe ;;
  featureframe <- update_col "cb_size" fmt featureframe ;;
  update_col "geyser_nr" fmt featureframe.

(** Line 52 and line 55: the identifier as text, as the index.  The
    format [f] takes an integer as a float. *)
Definition format_index (featureframe : Frame) : M Indexed :=
  rs <- mapM (fun r => k <- format_0f
                              (Num (inject_Z (float_of_int (fst r)))) ;;
                       match k with
                       | Str s => ret (s, snd r)
                       | _ => raise ValueError
                       end) (rows featureframe) ;;
  ret (mkIndexed (columns featureframe) rs).

(** Line 54: missing cells become the empty string.  [replace] is taken
    to reach every column, the two binned ones too, as the comment of
    that line and the test of line 63 expect; pandas from 1.x on leaves
    the missing cells of a column of categories as they are. *)
Definition blank_missing (fr : Indexed) : Indexed :=
  mkIndexed (i_columns fr)
            (map (fun r => (fst r, map (replace_nan (Str EmptyString)) (snd r)))
                 (i_rows fr)).

(** Line 58, [to_dict('index')]. *)
Definition to_dict_index (fr : Indexed)
  : list (string * list (string * cell)) :=
  dict_of (map (fun r => (fst r, dict_of (combine (i_columns fr) (snd r))))
               (i_rows fr)).

(** [v is not str('')]: the empty string is one object in CPython, so for
    text the identity test is the comparison with the empty string; any
    other value is a different object. *)
Definition is_not_empty_str (v : cell) : bool :=
  match v with
  | Str EmptyString => false
  | _ => true
  end.

(** Lines 59 to 66: the records, without the empty values. *)
Definition record_of (f : list (string * cell)) : list (string * cell) :=
  fold_left (fun d kv => if is_not_empty_str (snd kv)
                         then dict_set (fst kv) (snd kv) d else d) f [].

Definition records (featuredict : list (string * list (string * cell)))
  : list (string * list (string * cell)) :=
  let e := map (fun kv => record_of (snd kv)) featuredict in
  dict_of (combine (map fst featuredict) e).

(** Lines 34 to 66 together: from the assembled frame to the evidence. *)
Definition encode (featureframe : Frame)
  : M (list (string * list (string * cell))) :=
  featureframe <- derive_nodes featureframe ;;
  featureframe <- bin_columns featureframe ;;
  featureframe <- format_columns featureframe ;;
  indexed <- format_index featureframe ;;
  ret (records (to_dict_index (blank_missing indexed))).

Section Evidence.
(** The function that line 11 imports, and the directory above [src]. *)
Variable buildFeatureFrame :
  list string -> pyyear -> M (Frame * list FeatureQ).
Variable dlrdb_dir : string.
(** The file system: whether [open(path, 'w')] succeeds.  It raises an
    OSError otherwise, as it does when the directory [output] is missing,
    which no line of the module creates. *)
Variable can_write : string -> bool.

Definition output_dir : string := os_path_join dlrdb_dir "output".

Definition open_w (path : string) : M unit :=
  if can_write path then ret tt else raise OSError.

Definition evidence2000 (year : pyyear) : M retval :=
  data <- buildFeatureFrame searchlist year ;;
  let featureframe := fst data in
  evidence <- encode featureframe ;;
  let filename := "bn_evidence_" +++ year_str year +++ ".txt" in
  let filepath := os_path_join output_dir filename in
  open_w filepath ;;;
  text <- Json.dumps evidence ;;
  emit (WriteFile filepath text) ;;;
  print [filename +++ " successfully saved to " +++ output_dir] ;;;
  ret PyNone.

End Evidence.

End BnEvidence.

(* ================================================================= *)
(** ** A small table store and a small feature frame *)

Module Examples.
Import Py Pandas Socios BnEvidence.

Definition n (z : Z) : cell := Num (inject_Z z).

(** Two groups, of 2014 and of 1998; links with a repeated row, a zero
    group and a zero identifier; one question of questionaire 3 for each
    of the eight search terms of the encoder, one of questionaire 6 and a
    text question; numeric answers of four respondents. *)
Definition store : Tables :=
  mkTables
    [mkGroup 1 "2014" "1 Site A"; mkGroup 2 "1998" "2 Site B"]
    [mkLink 1 10 100; mkLink 1 11 101; mkLink 1 10 100;
     mkLink 0 12 102; mkLink 2 20 200; mkLink 1 0 103]
    [mkQuestion 0 "How much do you earn per month?" num 3 1;
     mkQuestion 1 "Watersource" num 3 2;
     mkQuestion 2 "GeyserNumber" num 3 3;
     mkQuestion 3 "GeyserBroken" num 3 4;
     mkQuestion 4 "Roof material" num 3 5;
     mkQuestion 5 "Wall material" num 3 6;
     mkQuestion 6 "Size of the main switch" num 3 7;
     mkQuestion 7 "Floor area of the dwelling" num 3 8;
     mkQuestion 8 "Roofing year" num 6 5;
     mkQuestion 9 "Name of the roofer" char 3 1]
    [mkQConstraint (n 0) (n 500000)]
    [3; 6]
    [mkAnswer 10 3; mkAnswer 11 3; mkAnswer 12 3; mkAnswer 20 6]
    (mkFrame [] [])
    (mkFrame ["1"] [(10, [Str "A. Builder"])])
    (mkFrame ["22"; "30"; "115"; "131"; "40"; "41"; "50"; "60"]
       [(10, [n 5000; n 1; n 2; n 1; n 3; n 2; NaN; n 90]);
        (11, [NaN; n 2; n 1; n 0; NaN; n 1; n 60; n 45]);
        (12, [n 900; n 1; n 0; n 0; n 4; n 4; n 20; n 30]);
        (20, [n 100; n 3; NaN; NaN; n 1; n 1; NaN; n 25])]).

(** What [featureFrame] assembles from the store for the features "roof"
    and "wall" in 2014. *)
Definition assembled_2014 : Frame :=
  mkFrame ["40"; "41"] [(10, [n 3; n 2]); (11, [NaN; n 1])].

Definition featureqs_2014 : list FeatureQ :=
  [mkFeatureQ 5 "Roof material" "roof"; mkFeatureQ 6 "Wall material" "wall"].

(** What it assembles for the eight search terms of the encoder in 2014.
    Respondent 10 earns 5000, has two geysers of which one is broken and a
    floor area of 90, and gave no answer for the main switch; respondent
    11 gave none for income and roof. *)
Definition assembled : Frame :=
  mkFrame ["22"; "30"; "115"; "131"; "40"; "41"; "50"; "60"]
    [(10, [n 5000; n 1; n 2; n 1; n 3; n 2; NaN; n 90]);
     (11, [NaN; n 2; n 1; n 0; NaN; n 1; n 60; n 45])].

(** The assembler of the store, as the encoder would import it. *)
Definition assembler : list string -> pyyear -> M (Frame * list FeatureQ) :=
  featureFrame store.

(** A file system on which every file can be opened for writing, and one
    on which none can. *)
Definition any_file (path : string) : bool := true.
Definition no_file (path : string) : bool := false.

End Examples.

(* ================================================================= *)
(** ** [socios.py]: the other queries *)

Module SociosQueries.
Import Py Pandas Socios.
Local Open Scope py_scope.

(** *** [int(s)] on text

    Blanks are stripped from both ends, a sign may lead, and the digits may
    be separated by single underscores; anything else is a ValueError. *)

Definition is_space (c : ascii) : bool :=
  existsb (Nat.eqb (nat_of_ascii c))
          [9; 10; 11; 12; 13; 28; 29; 30; 31; 32]%nat.

Fixpoint lstrip (l : list ascii) : list ascii :=
  match l with
  | c :: r => if is_space c then lstrip r else l
  | [] => []
  end.

Definition strip (l : list ascii) : list ascii :=
  rev (lstrip (rev (lstrip l))).

Definition digit_value (c : ascii) : Z := Z.of_nat (nat_of_ascii c - 48).

Fixpoint int_digits (acc : Z) (after_digit : bool) (l : list ascii)
  : option Z :=
  match l with
  | [] => if after_digit then Some acc else None
  | c :: r =>
      if is_digit c then int_digits (10 * acc + digit_value c) true r
      else if Ascii.eqb c "_" && after_digit then int_digits acc false r
      else None
  end.

Definition py_int (s : string) : M Z :=
  let parsed :=
    match strip (list_ascii_of_string s) with
    | "-"%char :: r => option_map Z.opp (int_digits 0 false r)
    | "+"%char :: r => int_digits 0 false r
    | l => int_digits 0 false l
    end in
  match parsed with
  | Some z => ret z
  | None => raise ValueError
  end.

(** *** [s.partition(' ')[2]]: what follows the first blank, or nothing *)

Fixpoint after_first_space (s : string) : string :=
  match s with
  | EmptyString => EmptyString
  | String c r => if Ascii.eqb c " " then r else after_first_space r
  end.

(** *** [sorted(list(set(xs)))]: the distinct strings in ascending order *)

Fixpoint insert_sorted (x : string) (l : list string) : list string :=
  match l with
  | [] => [x]
  | y :: r =>
      if (x =? y)%string then l
      else if (x <=? y)%string then x :: l
      else y :: insert_sorted x r
  end.

Definition sorted_set (xs : list string) : list string :=
  fold_right insert_sorted [] xs.

(** Not in the source: a frame whose rows have one cell for each column. *)
Definition rectangular (f : Frame) : Prop :=
  forall r, In r (rows f) -> List.length (snd r) = List.length (columns f).

Section WithTables.
Variable T : Tables.

(** One table of questions for each data type, under the names
    [num], [blob] and [char], in this order. *)
Definition typeSplitQuestions (qnid : Z)
  : M (list (dtype * option (list QRow))) :=
  n <- searchQuestions T (One EmptyString) (Some qnid) (Some num) ;;
  b <- searchQuestions T (One EmptyString) (Some qnid) (Some blob) ;;
  c <- searchQuestions T (One EmptyString) (Some qnid) (Some char) ;;
  ret [(num, n); (blob, b); (char, c)].

(** [frame.loc[mask]] with the mask computed on a frame of the same rows. *)
Definition loc_mask (a : Frame) (mask : list bool) : Frame :=
  mkFrame (columns a)
          (map fst (filter (fun rm => snd rm) (combine (rows a) mask))).

(** [checkAnswer]: the group of the first link of the respondent, the year
    of the first group of that id, and the respondent's rows of the
    feature frame of that year.  Row 0 of an empty selection is a
    KeyError.  The frame is assembled twice, once for the rows and once
    for the mask. *)
Definition checkAnswer (answerid : Z) (features : list string) : M Frame :=
  match filter (fun l => l_AnswerID l =? answerid) (links T) with
  | [] => raise KeyError
  | l :: _ =>
      let groupid := l_GroupID l in
      match filter (fun g => g_GroupID g =? groupid) (groups T) with
      | [] => raise KeyError
      | g :: _ =>
          year <- py_int (g_Year g) ;;
          a <- featureFrame T features (YInt year) ;;
          b <- featureFrame T features (YInt year) ;;
          ret (loc_mask (fst a) (map (fun k => k =? answerid) (keys (fst b))))
      end
  end.

(** [Locations]: the year is compared as it comes, so a number equals no
    entry of the text column [Year]. *)
Definition Locations (year : pyyear) : list string :=
  let selected :=
    match year with
    | YStr s => filter (fun g => (g_Year g =? s)%string) (groups T)
    | YInt _ => []
    end in
  sorted_set (map (fun g => after_first_space (g_Location g)) selected).

End WithTables.

End SociosQueries.

(* ================================================================= *)
(** ** Words for the cells of the evidence *)

Module EvidenceWords.
Import Pandas.

(** Not in the source: a cell that is no number (missing, or text), and
    a cell that is text other than the empty one. *)
Definition not_number (c : cell) : Prop :=
  match c with
  | Num _ => False
  | _ => True
  end.

Definition filled_text (c : cell) : Prop :=
  exists s, c = Str s /\ s <> EmptyString.

(** Not in the source: a cell that is no text (missing, or a number). *)
Definition not_text (c : cell) : Prop :=
  match c with
  | Str _ => False
  | _ => True
  end.

(** Not in the source: the cells of the column at a position, which is
    what [frame[name]] returns for the one column of that name. *)
Definition column_at (i : nat) (f : Frame) : list cell :=
  map (fun r => nth i (snd r) NaN) (rows f).

(** Not in the source: a frame whose rows have one cell for each of the
    seven nodes. *)
Definition seven_wide (f : Frame) : Prop :=
  columns f = BnEvidence.bn_n /\
  forall r, In r (rows f) -> List.length (snd r) = 7%nat.

(** The five nodes that lines 47 to 51 format as codes. *)
Definition code_nodes : list string :=
  ["water_access"; "roof_material"; "wall_material"; "cb_size";
   "geyser_nr"].

(** Not in the source: a frame under the node names in which the cells
    at the positions [done] are no numbers. *)
Definition settled (done : list nat) (f : Frame) : Prop :=
  columns f = BnEvidence.bn_n /\
  forall r, In r (rows f) ->
    forall j c, In j done -> nth_error (snd r) j = Some c -> not_number c.

End EvidenceWords.

(* ================================================================= *)
(** ** More examples *)

Module MoreExamples.
Import Py Pandas Socios BnEvidence Examples.

(** The store with a text answer table that has lost its column: the
    text question of the store points beyond it. *)
Definition store_short : Tables :=
  mkTables (groups store) (links store) (questions store)
           (qconstraints store) (questionaires store) (answers store)
           (answers_blob_anon store) (mkFrame [] []) (answers_num store).

(** The store with questionaire 6 only in its questionaire table. *)
Definition store_old : Tables :=
  mkTables (groups store) (links store) (questions store)
           (qconstraints store) [6] (answers store)
           (answers_blob_anon store) (answers_char_anon store)
           (answers_num store).

(** The store without the numeric answers of respondent 11, and what
    [featureFrame] assembles from it for "roof" and "wall" in 2014. *)
Definition store_gap : Tables :=
  mkTables (groups store) (links store) (questions store)
           (qconstraints store) (questionaires store) (answers store)
           (answers_blob_anon store) (answers_char_anon store)
           (mkFrame (columns (answers_num store))
                    (filter (fun r => negb (fst r =? 11))
                            (rows (answers_num store)))).

Definition assembled_gap : Frame :=
  mkFrame ["40"; "41"] [(10, [n 3; n 2]); (11, [NaN; NaN])].

(** The store with the numeric answers of respondent 10 entered twice. *)
Definition store_twice : Tables :=
  mkTables (groups store) (links store) (questions store)
           (qconstraints store) (questionaires store) (answers store)
           (answers_blob_anon store) (answers_char_anon store)
           (mkFrame (columns (answers_num store))
                    ((10, [n 5000; n 1; n 2; n 1; n 3; n 2; NaN; n 90])
                     :: rows (answers_num store))).

(** The example frame of the encoder after lines 34 to 36 (the geyser
    count derived, the columns under the node names), and after the
    binning of lines 44 and 45. *)
Definition derived : Frame :=
  mkFrame bn_n
    [(10, [n 5000; n 1; n 3; n 2; NaN; n 90; n 1]);
     (11, [NaN; n 2; NaN; n 1; n 60; n 45; n 1])].

Definition binned : Frame :=
  mkFrame bn_n
    [(10, [Str "R3200-R7799"; n 1; n 3; n 2; NaN; Str "80-150"; n 1]);
     (11, [NaN; n 2; NaN; n 1; n 60; Str "0-50"; n 1])].

(** The text question of the store, as a result row. *)
Definition roofer_row : QRow :=
  mkQRow "Name of the roofer" char 3 1 NaN NaN.

End MoreExamples.

(* ================================================================= *)
(** * Properties *)

Module PyFacts.
Import Py.

Lemma bind_ret_l {A B} (a : A) (k : A -> M B) : bind (ret a) k = k a.
Proof. unfold bind, ret. destruct (k a); reflexivity. Qed.

Lemma bind_raise {A B} (e : exn) (k : A -> M B) : bind (raise e) k = raise e.
Proof. reflexivity. Qed.

(** What a bind that returned says about its two halves. *)
Lemma bind_returned {A B} (m : M A) (k : A -> M B) tr b :
  bind m k = (tr, Returned b) ->
  exists tr1 a tr2, m = (tr1, Returned a) /\ k a = (tr2, Returned b)
                    /\ tr = tr1 ++ tr2.
Proof.
  destruct m as [tr1 [a|e]]; simpl; [|discriminate].
  destruct (k a) as [tr2 r] eqn:Hk. intros H. inversion H; subst.
  exists tr1, a, tr2. auto.
Qed.

Lemma mem_In x l : mem x l = true <-> In x l.
Proof.
  unfold mem. rewrite existsb_exists. split.
  - intros [y [Hy He]]. apply Z.eqb_eq in He. now subst.
  - intros H. exists x. split; [assumption | apply Z.eqb_refl].
Qed.

Lemma mem_not_In x l : mem x l = false <-> ~ In x l.
Proof.
  rewrite <- mem_In. destruct (mem x l); split; intros H; congruence.
Qed.

Lemma append_assoc (a b c : string) : (a +++ b) +++ c = a +++ b +++ c.
Proof. induction a as [|x a IH]; simpl; [reflexivity | now rewrite IH]. Qed.

End PyFacts.

Module PandasFacts.
Import Py PyFacts Pandas.

(** *** [unique] *)

Lemma unique_from_In seen l x :
  In x (unique_from seen l) <-> In x l /\ ~ In x seen.
Proof.
  revert seen. induction l as [|y r IH]; intros seen; simpl.
  - tauto.
  - destruct (mem y seen) eqn:E.
    + apply mem_In in E. rewrite IH. split.
      * intros [H1 H2]. auto.
      * intros [[->|H1] H2]; [contradiction | auto].
    + apply mem_not_In in E. simpl. rewrite IH. simpl. split.
      * intros [->|[H1 H2]]; [auto | split; [auto | tauto]].
      * intros [[->|H1] H2]; [auto|].
        destruct (Z.eq_dec y x) as [->|N]; [auto|]. right. split; [auto|].
        intros [?|?]; auto.
Qed.

Lemma unique_from_NoDup seen l : NoDup (unique_from seen l).
Proof.
  revert seen. induction l as [|y r IH]; intros seen; simpl.
  - constructor.
  - destruct (mem y seen) eqn:E; [apply IH|].
    constructor; [|apply IH].
    rewrite unique_from_In. simpl. tauto.
Qed.

Lemma unique_In l x : In x (unique l) <-> In x l.
Proof. unfold unique. rewrite unique_from_In. simpl. tauto. Qed.

Lemma unique_NoDup l : NoDup (unique l).
Proof. apply unique_from_NoDup. Qed.

(** *** The rows of a key *)

Lemma rows_with_cons k r rs :
  rows_with k (r :: rs) =
  if fst r =? k then snd r :: rows_with k rs else rows_with k rs.
Proof. unfold rows_with. simpl. destruct (fst r =? k); reflexivity. Qed.

Lemma rows_with_nil k rs : rows_with k rs = [] <-> ~ In k (map fst rs).
Proof.
  induction rs as [|r rs IH]; [simpl; tauto|].
  rewrite rows_with_cons. simpl. destruct (Z.eqb_spec (fst r) k) as [E|N].
  - split; [discriminate | intros H; exfalso; auto].
  - rewrite IH. tauto.
Qed.

Lemma rows_with_NoDup k rs :
  NoDup (map fst rs) -> (List.length (rows_with k rs) <= 1)%nat.
Proof.
  induction rs as [|r rs IH]; intros H; [simpl; lia|].
  simpl in H. inversion H as [|? ? Hn Hd]; subst.
  rewrite rows_with_cons. destruct (Z.eqb_spec (fst r) k) as [E|N].
  - subst k. apply rows_with_nil in Hn. rewrite Hn. simpl. lia.
  - auto.
Qed.

(** *** One group of the merge *)

Lemma merge_group_key nl nr k ls rs r :
  In r (merge_group nl nr k ls rs) -> fst r = k.
Proof.
  unfold merge_group. destruct ls as [|l ls], rs as [|r0 rs]; simpl.
  - tauto.
  - intros [<-|H]; [reflexivity|].
    apply in_map_iff in H. destruct H as [? [<- _]]. reflexivity.
  - intros [<-|H]; [reflexivity|].
    apply in_map_iff in H. destruct H as [? [<- _]]. reflexivity.
  - intros H.
    change (In r (flat_map (fun l0 => map (fun r1 => (k, l0 ++ r1)) (r0 :: rs))
                           (l :: ls))) in H.
    apply in_flat_map in H. destruct H as [l0 [_ H]].
    apply in_map_iff in H. destruct H as [? [<- _]]. reflexivity.
Qed.

Lemma product_length {A B C} (f : A -> B -> C) (ls : list A) (rs : list B) :
  List.length (flat_map (fun l => map (f l) rs) ls)
  = (List.length ls * List.length rs)%nat.
Proof.
  induction ls as [|l ls IH]; simpl; [reflexivity|].
  rewrite length_app, length_map, IH. reflexivity.
Qed.

Lemma merge_group_length_l nl nr k ls rs :
  (List.length ls <= List.length (merge_group nl nr k ls rs))%nat.
Proof.
  unfold merge_group. destruct ls as [|l ls]; [simpl; lia|].
  destruct rs as [|r rs]; [rewrite length_map; lia|].
  rewrite (product_length (fun l0 r1 => (k, l0 ++ r1))). simpl. lia.
Qed.

Lemma merge_group_single nl nr k ls rs :
  (List.length ls <= 1)%nat -> (List.length rs <= 1)%nat ->
  ls <> [] \/ rs <> [] ->
  map fst (merge_group nl nr k ls rs) = [k].
Proof.
  unfold merge_group.
  destruct ls as [|l [|l' ls]], rs as [|r [|r' rs]]; simpl; intros; try lia;
    try reflexivity.
  tauto.
Qed.

(** *** The outer merge *)

Lemma merge_outer_keys_In L R k :
  In k (keys (merge_outer L R)) <-> In k (keys L) \/ In k (keys R).
Proof.
  unfold keys at 1. unfold merge_outer. simpl.
  rewrite in_map_iff. split.
  - intros [r [Hk Hr]]. apply in_flat_map in Hr. destruct Hr as [k' [Hk' Hr]].
    apply merge_group_key in Hr. rewrite Hk in Hr. subst k'.
    apply unique_In, in_app_or in Hk'. exact Hk'.
  - intros H.
    assert (Hu : In k (unique (keys L ++ keys R))).
    { apply unique_In, in_or_app. exact H. }
    set (g := merge_group (List.length (columns L)) (List.length (columns R)) k
                (rows_with k (rows L)) (rows_with k (rows R))).
    assert (Hg : g <> []).
    { unfold g, merge_group.
      destruct (rows_with k (rows L)) eqn:El;
        destruct (rows_with k (rows R)) eqn:Er; simpl; try discriminate.
      apply rows_with_nil in El, Er. unfold keys in H. tauto. }
    destruct g as [|r g'] eqn:Eg; [congruence|].
    exists r. split.
    + apply (merge_group_key (List.length (columns L))
               (List.length (columns R)) k
               (rows_with k (rows L)) (rows_with k (rows R))).
      fold g. rewrite Eg. left; reflexivity.
    + apply in_flat_map. exists k. split; [exact Hu|].
      fold g. rewrite Eg. left; reflexivity.
Qed.

Lemma list_sum_le {A} (f g : A -> nat) l :
  (forall x, In x l -> (f x <= g x)%nat) ->
  (list_sum (map f l) <= list_sum (map g l))%nat.
Proof.
  induction l as [|x l IH]; simpl; intros H; [lia|].
  specialize (H x (or_introl eq_refl)) as Hx.
  assert (list_sum (map f l) <= list_sum (map g l))%nat by (apply IH; auto).
  lia.
Qed.

Lemma indicator_sum (k : Z) ks :
  In k ks ->
  (1 <= list_sum (map (fun k' => if (k =? k')%Z then 1%nat else 0%nat) ks))%nat.
Proof.
  induction ks as [|a ks IH]; intros H; [destruct H|].
  cbn [map]. change (list_sum (?x :: ?l)) with (x + list_sum l)%nat.
  destruct H as [->|H].
  - rewrite Z.eqb_refl. lia.
  - apply IH in H. lia.
Qed.

(** Every row is counted under its key. *)
Lemma rows_counted ks rs :
  (forall r, In r rs -> In (fst r) ks) ->
  (List.length rs
   <= list_sum (map (fun k => List.length (rows_with k rs)) ks))%nat.
Proof.
  induction rs as [|r rs IH]; intros H; [simpl; lia|].
  assert (Hr : In (fst r) ks) by (apply H; left; reflexivity).
  assert (IH' : (List.length rs
            <= list_sum (map (fun k => List.length (rows_with k rs)) ks))%nat).
  { apply IH. intros; apply H; right; assumption. }
  clear IH H. pose proof (indicator_sum _ _ Hr) as Hi.
  assert (E : list_sum (map (fun k => List.length (rows_with k (r :: rs))) ks)
          = (list_sum (map (fun k' => if (fst r =? k')%Z then 1%nat
                                       else 0%nat) ks)
             + list_sum (map (fun k => List.length (rows_with k rs)) ks))%nat).
  { clear. induction ks as [|a ks IHk]; [reflexivity|].
    cbn [map]. change (list_sum (?x :: ?l)) with (x + list_sum l)%nat.
    rewrite IHk, rows_with_cons. destruct (fst r =? a); simpl; lia. }
  rewrite E. simpl. lia.
Qed.

Lemma merge_outer_length L R :
  (List.length (rows L) <= List.length (rows (merge_outer L R)))%nat.
Proof.
  unfold merge_outer. simpl. rewrite length_flat_map.
  etransitivity.
  - apply (rows_counted (unique (keys L ++ keys R))).
    intros r Hr. apply unique_In, in_or_app. left.
    unfold keys. apply in_map. exact Hr.
  - apply list_sum_le. intros k _. apply merge_group_length_l.
Qed.

Lemma merge_outer_keys_NoDup L R :
  NoDup (keys L) -> NoDup (keys R) -> NoDup (keys (merge_outer L R)).
Proof.
  intros HL HR.
  assert (E : keys (merge_outer L R) = unique (keys L ++ keys R)).
  { unfold keys at 1. unfold merge_outer. simpl.
    assert (G : forall ks,
      (forall k, In k ks -> In k (keys L) \/ In k (keys R)) ->
      map fst (flat_map (fun k => merge_group (List.length (columns L))
                          (List.length (columns R)) k
                          (rows_with k (rows L)) (rows_with k (rows R))) ks)
      = ks).
    { induction ks as [|k ks IH]; intros H; simpl; [reflexivity|].
      rewrite map_app, IH by (intros; apply H; right; assumption).
      rewrite merge_group_single; [reflexivity| | |].
      - apply rows_with_NoDup. exact HL.
      - apply rows_with_NoDup. exact HR.
      - destruct (H k (or_introl eq_refl)) as [Hk|Hk]; [left|right];
          intros Hn; apply rows_with_nil in Hn; auto. }
    apply G. intros k Hk. apply unique_In, in_app_or in Hk. exact Hk. }
  rewrite E. apply unique_NoDup.
Qed.

End PandasFacts.

Module ReFacts.
Import Py Re.

Lemma starts_with_spec t s :
  starts_with t s = true <-> exists post, s = t +++ post.
Proof.
  revert s. induction t as [|c t IH]; intros s; simpl.
  - split; [intros _; exists s; reflexivity | reflexivity].
  - destruct s as [|d s]; [split; [discriminate | intros [? H]; discriminate]|].
    rewrite andb_true_iff, Ascii.eqb_eq, IH. split.
    + intros [-> [post H]]. exists post. congruence.
    + intros [post H]. inversion H; subst. split; [reflexivity|].
      exists post. reflexivity.
Qed.

(** Python's [t in s] decides the substring relation. *)
Lemma contains_spec t s : contains t s = true <-> substring_of t s.
Proof.
  unfold substring_of. induction s as [|d s IH].
  - simpl. rewrite orb_false_r, starts_with_spec. split.
    + intros [post H]. exists EmptyString, post. exact H.
    + intros [pre [post H]]. destruct pre; [exists post; exact H|discriminate].
  - simpl. rewrite orb_true_iff, starts_with_spec, IH. split.
    + intros [[post H]|[pre [post H]]].
      * exists EmptyString, post. exact H.
      * exists (String d pre), post. simpl. congruence.
    + intros [pre [post H]]. destruct pre as [|e pre].
      * left. exists post. exact H.
      * right. exists pre, post. simpl in H. congruence.
Qed.

Lemma match_here_literals t s : match_here (literals t) s = starts_with t s.
Proof.
  revert s. induction t as [|c t IH]; intros s; simpl.
  - destruct s; reflexivity.
  - destruct s as [|d s]; [reflexivity|]. unfold literals in *. simpl.
    rewrite IH. reflexivity.
Qed.

Lemma search_branch_literals t s : search_branch (literals t) s = contains t s.
Proof.
  induction s as [|d s IH]; simpl; rewrite match_here_literals;
    [reflexivity | now rewrite IH].
Qed.

Lemma parse_branch_plain t :
  plain t = true -> parse_branch t = Some (literals t).
Proof.
  induction t as [|c t IH]; simpl; intros H; [reflexivity|].
  apply andb_true_iff in H. destruct H as [Hc Ht].
  unfold plain_char in Hc. apply andb_true_iff in Hc. destruct Hc as [Hc Hbar].
  apply andb_true_iff in Hc. destruct Hc as [Hs Hdot].
  apply negb_true_iff in Hs, Hdot. rewrite Hs, (IH Ht), Hdot. reflexivity.
Qed.

Lemma split_on_plain t : plain t = true -> split_on "|" t = [t].
Proof.
  induction t as [|c t IH]; simpl; intros H; [reflexivity|].
  apply andb_true_iff in H. destruct H as [Hc Ht].
  unfold plain_char in Hc. apply andb_true_iff in Hc. destruct Hc as [_ Hbar].
  apply negb_true_iff in Hbar. rewrite Hbar, (IH Ht). reflexivity.
Qed.

Lemma split_on_plain_bar t r :
  plain t = true -> split_on "|" (t +++ String "|" r) = t :: split_on "|" r.
Proof.
  induction t as [|c t IH]; simpl; intros H; [reflexivity|].
  apply andb_true_iff in H. destruct H as [Hc Ht].
  unfold plain_char in Hc. apply andb_true_iff in Hc. destruct Hc as [_ Hbar].
  apply negb_true_iff in Hbar. rewrite Hbar, (IH Ht). reflexivity.
Qed.

Lemma split_join ts :
  ts <> [] -> forallb plain ts = true -> split_on "|" (join "|" ts) = ts.
Proof.
  induction ts as [|t ts IH]; intros Hne H; [congruence|].
  simpl in H. apply andb_true_iff in H. destruct H as [Ht Hts].
  destruct ts as [|t' ts].
  - simpl. apply split_on_plain. exact Ht.
  - change (join "|" (t :: t' :: ts))
      with (t +++ String "|" (join "|" (t' :: ts))).
    rewrite split_on_plain_bar by exact Ht.
    rewrite IH; [reflexivity | | exact Hts].
    discriminate.
Qed.

Lemma parse_branches_plain ts :
  forallb plain ts = true -> parse_branches ts = Some (map literals ts).
Proof.
  induction ts as [|t ts IH]; simpl; intros H; [reflexivity|].
  apply andb_true_iff in H. destruct H as [Ht Hts].
  rewrite (parse_branch_plain _ Ht), (IH Hts). reflexivity.
Qed.

(** One or more plain terms joined by [|] compile to their alternation. *)
Lemma compile_plain ts :
  ts <> [] -> forallb plain ts = true ->
  compile (join "|" ts) = Some (map literals ts).
Proof.
  intros Hne H. unfold compile. rewrite split_join by assumption.
  apply parse_branches_plain. exact H.
Qed.

Lemma search_literals ts s :
  search (map literals ts) s = existsb (fun t => contains t s) ts.
Proof.
  unfold search. induction ts as [|t ts IH]; simpl; [reflexivity|].
  rewrite search_branch_literals, IH. reflexivity.
Qed.

(** Lower-casing keeps a term plain. *)
Lemma plain_char_lower c :
  plain_char c = true -> plain_char (lower_ascii c) = true.
Proof.
  destruct c as [[] [] [] [] [] [] [] []]; intros H; try discriminate H;
    reflexivity.
Qed.

Lemma plain_lower t : plain t = true -> plain (lower t) = true.
Proof.
  induction t as [|c t IH]; simpl; intros H; [reflexivity|].
  apply andb_true_iff in H. destruct H as [Hc Ht].
  rewrite (plain_char_lower _ Hc), (IH Ht). reflexivity.
Qed.

Lemma forallb_plain_lower ts :
  forallb plain ts = true -> forallb plain (map lower ts) = true.
Proof.
  induction ts as [|t ts IH]; simpl; intros H; [reflexivity|].
  apply andb_true_iff in H. destruct H as [Ht Hts].
  rewrite (plain_lower _ Ht), (IH Hts). reflexivity.
Qed.

End ReFacts.

Module SociosFacts.
Import Py PyFacts Pandas PandasFacts Socios.

(** What [loadID] returns, for a column of the links table. *)
Lemma loadID_returns (T : Tables) (year : option pyyear)
    (id_name : string) (col : Link -> Z) :
  link_col id_name = Some col ->
  exists ids,
    loadID T year id_name = ret ids /\
    NoDup ids /\
    ~ In 0 ids /\
    forall i, In i ids ->
      exists l, In l (links T) /\ l_GroupID l <> 0 /\ col l = i /\
        forall y, year = Some y ->
          exists g, In g (groups T) /\ g_Year g = year_str y /\
                    g_GroupID g = l_GroupID l.
Proof.
  intros Hcol. unfold loadID. rewrite Hcol.
  destruct year as [y|].
  - eexists. split; [reflexivity|]. split; [apply unique_NoDup|].
    assert (Hin : forall i,
      In i (unique (map col (filter
        (fun l => mem (l_GroupID l)
           (map g_GroupID (filter (fun g => (g_Year g =? year_str y)%string)
                                  (groups T))))
        (filter (fun l => negb (l_GroupID l =? 0) && negb (col l =? 0))
                (links T))))) ->
      exists l, In l (links T) /\ l_GroupID l <> 0 /\ col l <> 0 /\ col l = i /\
        exists g, In g (groups T) /\ g_Year g = year_str y /\
                  g_GroupID g = l_GroupID l).
    { intros i Hi. apply unique_In, in_map_iff in Hi.
      destruct Hi as [l [Hl Hi]]. apply filter_In in Hi. destruct Hi as [Hi Hg].
      apply filter_In in Hi. destruct Hi as [Hi Hz].
      apply andb_true_iff in Hz. destruct Hz as [Hz1 Hz2].
      apply negb_true_iff, Z.eqb_neq in Hz1, Hz2.
      apply mem_In, in_map_iff in Hg. destruct Hg as [g [Hg1 Hg2]].
      apply filter_In in Hg2. destruct Hg2 as [Hg2 Hg3].
      apply String.eqb_eq in Hg3.
      exists l. repeat split; auto. exists g. auto. }
    split.
    + intros H0. apply Hin in H0. destruct H0 as [l [_ [_ [Hn [He _]]]]].
      congruence.
    + intros i Hi. apply Hin in Hi.
      destruct Hi as [l [H1 [H2 [_ [H3 [g Hg]]]]]].
      exists l. repeat split; auto. intros y' Hy. inversion Hy; subst y'.
      exists g. exact Hg.
  - eexists. split; [reflexivity|]. split; [apply unique_NoDup|].
    assert (Hin : forall i,
      In i (unique (map col
        (filter (fun l => negb (l_GroupID l =? 0) && negb (col l =? 0))
                (links T)))) ->
      exists l, In l (links T) /\ l_GroupID l <> 0 /\ col l <> 0 /\ col l = i).
    { intros i Hi. apply unique_In, in_map_iff in Hi.
      destruct Hi as [l [Hl Hi]]. apply filter_In in Hi. destruct Hi as [Hi Hz].
      apply andb_true_iff in Hz. destruct Hz as [Hz1 Hz2].
      apply negb_true_iff, Z.eqb_neq in Hz1, Hz2.
      exists l. auto. }
    split.
    + intros H0. apply Hin in H0. destruct H0 as [l [_ [_ [Hn He]]]].
      congruence.
    + intros i Hi. apply Hin in Hi. destruct Hi as [l [H1 [H2 [_ H3]]]].
      exists l. repeat split; auto. intros y' Hy. discriminate.
Qed.

End SociosFacts.

Module IdentityResolver.
Import Py PyFacts Pandas PandasFacts Socios Examples.

(** C9.  Whatever the year, and without one, [loadID] returns identifiers
    without repetition and without a zero, each taken from a link row whose
    group is not zero either (and, with a year, is a group of that year). *)
Theorem loadID_unique_nonzero (T : Tables) (year : option pyyear)
    (id_name : string) (col : Link -> Z) :
  link_col id_name = Some col ->
  exists ids,
    loadID T year id_name = ret ids /\
    NoDup ids /\
    ~ In 0 ids /\
    forall i, In i ids ->
      exists l, In l (links T) /\ l_GroupID l <> 0 /\ col l = i /\
        forall y, year = Some y ->
          exists g, In g (groups T) /\ g_Year g = year_str y /\
                    g_GroupID g = l_GroupID l.
Proof. exact (SociosFacts.loadID_returns T year id_name col). Qed.

Lemma loadID_unique_nonzero_witness :
  link_col "AnswerID" = Some l_AnswerID /\
  exists ids,
    loadID store (Some (YInt 2014)) "AnswerID" = ret ids /\
    NoDup ids /\
    ~ In 0 ids /\
    forall i, In i ids ->
      exists l, In l (links store) /\ l_GroupID l <> 0 /\ l_AnswerID l = i /\
        forall y, Some (YInt 2014) = Some y ->
          exists g, In g (groups store) /\ g_Year g = year_str y /\
                    g_GroupID g = l_GroupID l.
Proof.
  split; [reflexivity|].
  apply (loadID_unique_nonzero store (Some (YInt 2014)) "AnswerID" l_AnswerID).
  reflexivity.
Defined.

End IdentityResolver.

Module QuestionResolver.
Import Py PyFacts Pandas PandasFacts Socios Examples.

(** C8.  A questionaire id outside the known ones: the valid ids are
    printed, and the call ends with [None], not with a table. *)
Theorem searchQuestions_invalid_id (T : Tables) (term : searchterm)
    (i : Z) (dt : option dtype) :
  ~ In i (questionaires T) ->
  searchQuestions T term (Some i) dt =
  ([Print ("Please select a valid QuestionaireID " +++
           str_int_list (questionaires T))],
   Returned None).
Proof.
  intros H. apply mem_not_In in H. unfold searchQuestions. rewrite H.
  reflexivity.
Qed.

Lemma searchQuestions_invalid_id_witness :
  ~ In 4 (questionaires store) /\
  searchQuestions store (One "roof") (Some 4) (Some num) =
  ([Print ("Please select a valid QuestionaireID " +++
           str_int_list (questionaires store))],
   Returned None).
Proof.
  split; [simpl; lia|].
  apply (searchQuestions_invalid_id store (One "roof") 4 (Some num)).
  simpl. lia.
Defined.

End QuestionResolver.

Module TermMatching.
Import Py PyFacts Pandas Socios Examples.

Lemma filter_map_swap {A B} (f : A -> B) (p : B -> bool) l :
  filter p (map f l) = map f (filter (fun x => p (f x)) l).
Proof.
  induction l as [|x l IH]; simpl; [reflexivity|].
  destruct (p (f x)); simpl; now rewrite IH.
Qed.

Lemma filter_filter {A} (p q : A -> bool) l :
  filter p (filter q l) = filter (fun x => q x && p x) l.
Proof.
  induction l as [|x l IH]; simpl; [reflexivity|].
  destruct (q x); simpl; [destruct (p x)|]; now rewrite IH.
Qed.

Lemma dtype_eqb_eq a b : dtype_eqb a b = true <-> a = b.
Proof. destruct a, b; simpl; split; congruence. Qed.

Lemma keeps_spec term qnairid dt q :
  keeps term qnairid dt q = true <->
  (forall d, dt = Some d -> q_Datatype q = d) /\
  (forall i, qnairid = Some i -> q_QuestionaireID q = i) /\
  exists t, In t (as_list term) /\
            Re.substring_of (lower t) (lower (q_Question q)).
Proof.
  unfold keeps. rewrite !andb_true_iff, existsb_exists.
  assert (Hd : match dt with
               | Some d => dtype_eqb (q_Datatype q) d
               | None => true
               end = true <-> forall d, dt = Some d -> q_Datatype q = d).
  { destruct dt as [d|].
    - rewrite dtype_eqb_eq. split; [intros H d' E; congruence | auto].
    - split; [discriminate | reflexivity]. }
  assert (Hq : match qnairid with
               | Some i => q_QuestionaireID q =? i
               | None => true
               end = true
               <-> forall i, qnairid = Some i -> q_QuestionaireID q = i).
  { destruct qnairid as [i|].
    - rewrite Z.eqb_eq. split; [intros H i' E; congruence | auto].
    - split; [discriminate | reflexivity]. }
  rewrite Hd, Hq. split.
  - intros [[H1 H2] [t' [Hin Hc]]]. repeat split; auto.
    apply in_map_iff in Hin. destruct Hin as [t [<- Hin]].
    exists t. split; [exact Hin|]. apply ReFacts.contains_spec. exact Hc.
  - intros [H1 [H2 [t [Hin Hs]]]]. repeat split; auto.
    exists (lower t). split; [apply in_map; exact Hin|].
    apply ReFacts.contains_spec. exact Hs.
Qed.

(** C6, as the code has it.  For one or more search terms without a
    character that is special in a regular expression, terms and question
    texts within ASCII, and no questionaire id or a known one, the result
    is the questions of the data type and of the questionaire whose
    lower-cased text contains a lower-cased term as a substring, in the
    order of the questions table. *)
Theorem searchQuestions_plain_terms (T : Tables) (term : searchterm)
    (qnairid : option Z) (dt : option dtype) :
  as_list term <> [] ->
  forallb Re.plain (as_list term) = true ->
  forallb ascii_text (as_list term) = true ->
  (forall q, In q (questions T) -> ascii_text (q_Question q) = true) ->
  (forall i, qnairid = Some i -> In i (questionaires T)) ->
  exists keep : Question -> bool,
    searchQuestions T term qnairid dt =
      ret (Some (map (fun q => select_result (join_qcons T q))
                     (filter keep (questions T)))) /\
    forall q, keep q = true <->
      (forall d, dt = Some d -> q_Datatype q = d) /\
      (forall i, qnairid = Some i -> q_QuestionaireID q = i) /\
      exists t, In t (as_list term) /\
                Re.substring_of (lower t) (lower (q_Question q)).
Proof.
  intros Hne Hplain _ _ Hid.
  exists (keeps term qnairid dt). split; [|apply keeps_spec].
  unfold searchQuestions.
  rewrite ReFacts.compile_plain;
    [| destruct (as_list term); [congruence | discriminate]
     | apply ReFacts.forallb_plain_lower; exact Hplain].
  assert (E : forall qdf : list (Question * option QConstraint),
    filter (fun r => Re.search (map Re.literals (map lower (as_list term)))
                               (lower (q_Question (fst r)))) qdf
    = filter (fun r => existsb (fun t => Re.contains t
                                  (lower (q_Question (fst r))))
                               (map lower (as_list term))) qdf).
  { intros qdf. apply filter_ext. intros r. apply ReFacts.search_literals. }
  destruct qnairid as [i|].
  - assert (Hm : mem i (questionaires T) = true) by (apply mem_In; auto).
    rewrite Hm, E. unfold ret. do 3 f_equal.
    rewrite filter_filter, filter_map_swap, map_map. unfold loadQuestions.
    destruct dt as [d|].
    + rewrite filter_filter. f_equal. apply filter_ext. intros q.
      unfold keeps. simpl. rewrite andb_assoc. reflexivity.
    + f_equal.
  - rewrite E. unfold ret. do 3 f_equal.
    rewrite filter_map_swap, map_map. unfold loadQuestions.
    destruct dt as [d|].
    + rewrite filter_filter. f_equal. apply filter_ext. intros q.
      unfold keeps. simpl. rewrite andb_true_r. reflexivity.
    + f_equal.
Qed.

(** The scenario of the specification: the term "roof", questionaire 3,
    numeric questions. *)
Lemma searchQuestions_plain_terms_witness :
  as_list (One "roof") <> [] /\
  forallb Re.plain (as_list (One "roof")) = true /\
  forallb ascii_text (as_list (One "roof")) = true /\
  (forall q, In q (questions store) -> ascii_text (q_Question q) = true) /\
  (forall i, Some 3 = Some i -> In i (questionaires store)) /\
  exists keep : Question -> bool,
    searchQuestions store (One "roof") (Some 3) (Some num) =
      ret (Some (map (fun q => select_result (join_qcons store q))
                     (filter keep (questions store)))) /\
    forall q, keep q = true <->
      (forall d, Some num = Some d -> q_Datatype q = d) /\
      (forall i, Some 3 = Some i -> q_QuestionaireID q = i) /\
      exists t, In t (as_list (One "roof")) /\
                Re.substring_of (lower t) (lower (q_Question q)).
Proof.
  assert (H1 : as_list (One "roof") <> []) by discriminate.
  assert (H2 : forallb Re.plain (as_list (One "roof")) = true) by reflexivity.
  assert (Ha : forallb ascii_text (as_list (One "roof")) = true)
    by reflexivity.
  assert (Hq : forall q, In q (questions store) ->
                         ascii_text (q_Question q) = true).
  { intros q Hq. simpl in Hq.
    repeat (destruct Hq as [<-|Hq]; [reflexivity|]). destruct Hq. }
  assert (H3 : forall i, Some 3 = Some i -> In i (questionaires store)).
  { intros i E. inversion E; subst. simpl. auto. }
  split; [exact H1|]. split; [exact H2|]. split; [exact Ha|].
  split; [exact Hq|]. split; [exact H3|].
  exact (searchQuestions_plain_terms store (One "roof") (Some 3) (Some num)
           H1 H2 Ha Hq H3).
Defined.

(** C6 as stated fails: the terms are joined into a regular expression, so
    the term "ro.f" finds the question "Roof material", whose text does not
    contain it. *)
Lemma searchQuestions_pattern_counterexample :
  exists r,
    searchQuestions store (One "ro.f") (Some 3) (Some num) = ret (Some [r]) /\
    r_Question r = "Roof material" /\
    ~ Re.substring_of (lower "ro.f") (lower (r_Question r)).
Proof.
  eexists. split; [vm_compute; reflexivity|]. split; [reflexivity|].
  intros H. apply ReFacts.contains_spec in H. vm_compute in H. discriminate.
Qed.

End TermMatching.

Module FeatureAssembler.
Import Py PyFacts Pandas PandasFacts Socios Examples MoreExamples.

Lemma keys_filter (p : Z -> bool) cols rs :
  keys (mkFrame cols (filter (fun r => p (fst r)) rs))
  = filter p (map fst rs).
Proof.
  unfold keys. simpl. induction rs as [|r rs IH]; simpl; [reflexivity|].
  destruct (p (fst r)); simpl; now rewrite IH.
Qed.

Lemma iloc_key_and_keys ps f tr f' :
  iloc_key_and ps f = (tr, Returned f') -> keys f' = keys f.
Proof.
  unfold iloc_key_and.
  destruct (existsb _ ps); [discriminate|].
  unfold ret. intros H. inversion H; subst. unfold keys. simpl.
  rewrite map_map. reflexivity.
Qed.

(** The answer rows that [searchAnswers] returns are rows of the answer
    table of the data type, in its order. *)
Lemma searchAnswers_keys T term qn dt tr d q :
  searchAnswers T term qn dt = (tr, Returned (d, q)) ->
  exists p, keys d = filter p (keys (loadAnswers T dt)).
Proof.
  unfold searchAnswers. intros H.
  apply bind_returned in H. destruct H as (tr1 & found & tr2 & _ & H & _).
  destruct found as [qs|]; [|discriminate].
  apply bind_returned in H. destruct H as (tr3 & res & tr4 & Hi & H & _).
  unfold ret in H. inversion H; subst.
  apply iloc_key_and_keys in Hi. rewrite Hi.
  eexists. apply (keys_filter (fun k => mem k _)).
Qed.

(** What every pass of the loop of [featureFrame] keeps. *)
Lemma featureFrame_loop_inv T features year :
  forall data fq tr data' fq',
    featureFrame_loop T features year data fq = (tr, Returned (data', fq')) ->
    (List.length (rows data) <= List.length (rows data'))%nat /\
    (forall k, In k (keys data') <-> In k (keys data)) /\
    (NoDup (keys (answers_num T)) -> NoDup (keys data) -> NoDup (keys data')).
Proof.
  induction features as [|f rest IH]; intros data fq tr data' fq' H.
  - simpl in H. unfold ret in H. inversion H; subst.
    split; [lia|]. split; [tauto | auto].
  - simpl in H.
    apply bind_returned in H. destruct H as (tr1 & old & tr2 & _ & H & _).
    apply bind_returned in H. destruct H as (tr3 & ans & tr4 & Hs & H & _).
    destruct ans as [d q]. simpl in H.
    destruct (mem_str key_label (columns d)) eqn:Hkey; [discriminate|].
    apply searchAnswers_keys in Hs. destruct Hs as [p Hp].
    set (newdata :=
           mkFrame (columns d)
                   (filter (fun r => mem (fst r) (keys data)) (rows d))) in *.
    assert (Hk : keys newdata = filter (fun k => mem k (keys data)) (keys d)).
    { apply (keys_filter (fun k => mem k (keys data))). }
    apply IH in H. destruct H as (HL & HK & HN).
    split; [|split].
    + etransitivity; [apply (merge_outer_length data newdata) | exact HL].
    + intros k. rewrite HK, merge_outer_keys_In, Hk, filter_In, mem_In. tauto.
    + intros Hnum Hdata. apply HN; [exact Hnum|].
      apply merge_outer_keys_NoDup; [exact Hdata|].
      rewrite Hk, Hp. apply NoDup_filter, NoDup_filter. exact Hnum.
Qed.

Lemma featureFrame_start T features year tr data fq :
  featureFrame T features year = (tr, Returned (data, fq)) ->
  exists ids tr',
    loadID T (Some year) "AnswerID" = ret ids /\
    featureFrame_loop T features year
      (mkFrame [] (map (fun i => (i, [])) ids)) [] = (tr', Returned (data, fq)).
Proof.
  unfold featureFrame. intros H.
  apply bind_returned in H. destruct H as (tr1 & ids & tr2 & Hl & H & _).
  exists ids, tr2. split; [|exact H].
  unfold loadID in *. simpl in *. unfold ret in *. inversion Hl; subst.
  reflexivity.
Qed.

Lemma keys_start (ids : list Z) :
  keys (mkFrame [] (map (fun i => (i, @nil cell)) ids)) = ids.
Proof. unfold keys. simpl. rewrite map_map. simpl. apply map_id. Qed.

(** C7, as the code has it.  An assembled feature table has at least as
    many rows as the identity resolver returns for the year; and, when the
    numeric answer table has one row for an identifier, no identifier
    twice. *)
Theorem featureFrame_rows_and_ids (T : Tables) (features : list string)
    (year : pyyear) tr data fq :
  featureFrame T features year = (tr, Returned (data, fq)) ->
  exists ids,
    loadID T (Some year) "AnswerID" = ret ids /\
    (List.length ids <= List.length (rows data))%nat /\
    (NoDup (keys (answers_num T)) -> NoDup (keys data)).
Proof.
  intros H. apply featureFrame_start in H. destruct H as (ids & tr' & Hl & H).
  exists ids. split; [exact Hl|].
  apply featureFrame_loop_inv in H. destruct H as (HL & _ & HN).
  simpl in HL. rewrite length_map in HL. split; [exact HL|].
  intros Hnum. apply HN; [exact Hnum|]. rewrite keys_start.
  destruct (SociosFacts.loadID_returns T (Some year) "AnswerID"
              l_AnswerID eq_refl) as (ids' & E & Hnd & _).
  rewrite Hl in E. unfold ret in E. inversion E; subst. exact Hnd.
Qed.

Lemma NoDup_keys_answers_num : NoDup (keys (answers_num store)).
Proof.
  unfold keys. simpl.
  repeat (constructor; [simpl; intuition discriminate|]). constructor.
Qed.

Lemma featureFrame_rows_and_ids_witness :
  featureFrame store ["roof"; "wall"] (YInt 2014)
    = ([], Returned (assembled_2014, featureqs_2014)) /\
  NoDup (keys (answers_num store)) /\
  exists ids,
    loadID store (Some (YInt 2014)) "AnswerID" = ret ids /\
    (List.length ids <= List.length (rows assembled_2014))%nat /\
    NoDup (keys assembled_2014).
Proof.
  assert (H : featureFrame store ["roof"; "wall"] (YInt 2014)
              = ([], Returned (assembled_2014, featureqs_2014)))
    by (vm_compute; reflexivity).
  split; [exact H|]. split; [exact NoDup_keys_answers_num|].
  destruct (featureFrame_rows_and_ids store ["roof"; "wall"] (YInt 2014)
              [] assembled_2014 featureqs_2014 H) as (ids & Hl & Hn & Hd).
  exists ids. split; [exact Hl|]. split; [exact Hn|].
  exact (Hd NoDup_keys_answers_num).
Defined.

(** C7 as stated fails: nothing in [featureFrame] removes a repeated
    answer row.  With the answers of respondent 10 entered twice, each of
    the two merges doubles the rows of the respondent. *)
Lemma featureFrame_repeated_answers_counterexample :
  exists data fq,
    featureFrame store_twice ["roof"; "wall"] (YInt 2014) = ret (data, fq) /\
    loadID store_twice (Some (YInt 2014)) "AnswerID" = ret [10; 11] /\
    keys data = [10; 10; 10; 10; 11] /\
    ~ NoDup (keys data).
Proof.
  do 2 eexists. split; [vm_compute; reflexivity|].
  split; [reflexivity|]. split; [reflexivity|].
  cbn [keys rows map fst]. intros H. inversion H as [|x l Hx _]; subst.
  apply Hx. left. reflexivity.
Qed.

(** C10.  The identifiers of an assembled feature table are those that
    the identity resolver returns for the year, and no other: the answer
    rows of a feature are cut down to the identifiers of the table before
    they are merged into it. *)
Theorem featureFrame_ids_exact (T : Tables) (features : list string)
    (year : pyyear) tr data fq :
  featureFrame T features year = (tr, Returned (data, fq)) ->
  exists ids,
    loadID T (Some year) "AnswerID" = ret ids /\
    forall k, In k (keys data) <-> In k ids.
Proof.
  intros H. apply featureFrame_start in H. destruct H as (ids & tr' & Hl & H).
  exists ids. split; [exact Hl|].
  apply featureFrame_loop_inv in H. destruct H as (_ & HK & _).
  intros k. rewrite HK, keys_start. tauto.
Qed.

Lemma featureFrame_ids_exact_witness :
  featureFrame store ["roof"; "wall"] (YInt 2014)
    = ([], Returned (assembled_2014, featureqs_2014)) /\
  exists ids,
    loadID store (Some (YInt 2014)) "AnswerID" = ret ids /\
    forall k, In k (keys assembled_2014) <-> In k ids.
Proof.
  assert (H : featureFrame store ["roof"; "wall"] (YInt 2014)
              = ([], Returned (assembled_2014, featureqs_2014)))
    by (vm_compute; reflexivity).
  split; [exact H|].
  exact (featureFrame_ids_exact store ["roof"; "wall"] (YInt 2014)
           [] assembled_2014 featureqs_2014 H).
Defined.

End FeatureAssembler.

Module AssemblerReturns.
Import Py PyFacts Pandas PandasFacts Socios Examples.

Lemma existsb_false {A} (f : A -> bool) l :
  (forall x, In x l -> f x = false) -> existsb f l = false.
Proof.
  induction l as [|x l IH]; simpl; intros H; [reflexivity|].
  rewrite (H x (or_introl eq_refl)), IH; [reflexivity|].
  intros y Hy. apply H. right. exact Hy.
Qed.

(** With a known questionaire id and a term that compiles, the search
    returns a table, in silence. *)
Lemma searchQuestions_valid T term i dt rx :
  In i (questionaires T) ->
  Re.compile (join "|" (map lower (as_list term))) = Some rx ->
  searchQuestions T term (Some i) dt =
  ret (Some (map select_result
               (filter (fun r => Re.search rx (lower (q_Question (fst r))))
                  (filter (fun r => q_QuestionaireID (fst r) =? i)
                     (map (join_qcons T) (loadQuestions T dt)))))).
Proof.
  intros Hi Hrx. apply mem_In in Hi. unfold searchQuestions.
  rewrite Hi, Hrx. reflexivity.
Qed.

Lemma searchAnswers_returns T f qn :
  In qn (questionaires T) ->
  Re.compile (lower f) <> None ->
  offsets_ok T ->
  ~ In key_label (columns (answers_num T)) ->
  exists d q, searchAnswers T (One f) qn num = ret (d, q) /\
              mem_str key_label (columns d) = false.
Proof.
  intros Hqn Hrx Hok Hkey.
  destruct (Re.compile (lower f)) as [rx|] eqn:E; [|congruence].
  unfold searchAnswers.
  rewrite (searchQuestions_valid T (One f) qn (Some num) rx Hqn E).
  rewrite bind_ret_l.
  set (qs := map select_result _).
  assert (Hqs : forall p, In p (map r_ColumnNo qs) ->
            (1 <= p <= List.length (columns (answers_num T)))%nat).
  { intros p Hp. apply in_map_iff in Hp. destruct Hp as [r [<- Hr]].
    unfold qs in Hr. apply in_map_iff in Hr. destruct Hr as [[q c] [<- Hr]].
    apply filter_In in Hr. destruct Hr as [Hr _].
    apply filter_In in Hr. destruct Hr as [Hr _].
    apply in_map_iff in Hr. destruct Hr as [q' [Hj Hr]].
    unfold join_qcons in Hj. inversion Hj; subst q'. clear Hj.
    simpl in Hr. apply filter_In in Hr. destruct Hr as [Hr Hd].
    simpl. apply Hok; [exact Hr|]. destruct (q_Datatype q); simpl in Hd;
      congruence. }
  unfold iloc_key_and. cbn [loadAnswers columns].
  rewrite existsb_false.
  2:{ intros p Hp. apply Hqs in Hp. apply Nat.ltb_ge. lia. }
  rewrite bind_ret_l. eexists. eexists. split; [reflexivity|].
  cbn [columns]. apply existsb_false. intros l Hl.
  apply in_map_iff in Hl. destruct Hl as [p [<- Hp]].
  apply Hqs in Hp. destruct p as [|j]; [lia|]. cbn [iloc_label].
  apply String.eqb_neq. intros El. apply Hkey. rewrite El.
  apply nth_In. lia.
Qed.

(** [featureFrame] returns for a numeric year whose questionaire (6 up to
    1999, 3 after) is known, features that are patterns of the modelled
    syntax, column offsets inside the answer table, and an answer table
    that labels no other column as its key. *)
Lemma featureFrame_returns T features y :
  In (if y <=? 1999 then 6 else 3) (questionaires T) ->
  Forall (fun f => Re.compile (lower f) <> None) features ->
  offsets_ok T ->
  ~ In key_label (columns (answers_num T)) ->
  exists data fq, featureFrame T features (YInt y) = ret (data, fq).
Proof.
  intros Hqn Hfs Hok Hkey. unfold featureFrame.
  destruct (SociosFacts.loadID_returns T (Some (YInt y)) "AnswerID"
              l_AnswerID eq_refl) as (ids & E & _).
  rewrite E, bind_ret_l.
  generalize (mkFrame [] (map (fun i => (i, @nil cell)) ids)).
  generalize (@nil FeatureQ).
  induction Hfs as [|f rest Hf _ IH]; intros fq data.
  - eexists. eexists. reflexivity.
  - cbn [featureFrame_loop year_le_1999]. rewrite bind_ret_l.
    destruct (searchAnswers_returns T f _ Hqn Hf Hok Hkey)
      as (d & q & Es & Ek).
    rewrite Es, bind_ret_l. cbn [fst snd]. rewrite Ek. apply IH.
Qed.

End AssemblerReturns.

Module Binning.
Import Py PyFacts Pandas BnEvidence.

Lemma edge_le (b : Z) (x : Q) :
  (inject_Z b <= x)%Q -> Qle_bool (inject_Z b) x = true.
Proof. apply Qle_bool_iff. Qed.

Lemma edge_gt (b : Z) (x : Q) :
  (x < inject_Z b)%Q -> Qle_bool (inject_Z b) x = false.
Proof.
  intros H. apply not_true_iff_false. rewrite Qle_bool_iff.
  apply Qlt_not_le. exact H.
Qed.

Lemma not_lowest (x : Q) :
  ~ (x == inject_Z 0)%Q -> Qeq_bool x (inject_Z 0) = false.
Proof. intros H. apply not_true_iff_false. rewrite Qeq_bool_iff. exact H. Qed.

(** Orders between [x] and integer edges, as integer arithmetic. *)
Ltac edges :=
  unfold Qle, Qlt, Qeq, inject_Z in *; cbn [Qnum Qden] in *; lia.

(** Settles every comparison of [x] with an edge from the bounds on [x]. *)
Ltac place x :=
  repeat match goal with
  | |- context [Qle_bool (inject_Z ?b) x] =>
      first [ rewrite (edge_le b x) by edges
            | rewrite (edge_gt b x) by edges ]
  end.

(** Unfolds [pd.cut] on the income bins down to the comparisons. *)
Ltac open_cut :=
  unfold cut;
  change (increasing income_bins) with true;
  change (List.length income_labels =? List.length income_bins - 1)%nat
    with true;
  cbn [negb mapM cut_value]; unfold searchsorted, income_bins;
  cbn [map filter negb hd andb].

Ltac in_bin x :=
  intros [? ?]; open_cut; place x;
  rewrite not_lowest by edges; reflexivity.

(** [pd.cut] on the income bins, for one value.  An income falls into the
    bin whose lower edge it reaches and whose upper edge it stays under,
    and gets that bin's label; an income under 0 or from 500000 on becomes
    missing; so does a missing one; and there is a result for every
    value. *)
Lemma income_cut (x : Q) :
  ((0 <= x < 1800)%Q ->
     cut [Num x] income_bins income_labels false true
     = ret [Str "R0-R1799"]) /\
  ((1800 <= x < 3200)%Q ->
     cut [Num x] income_bins income_labels false true
     = ret [Str "R1800-R3199"]) /\
  ((3200 <= x < 7800)%Q ->
     cut [Num x] income_bins income_labels false true
     = ret [Str "R3200-R7799"]) /\
  ((7800 <= x < 11600)%Q ->
     cut [Num x] income_bins income_labels false true
     = ret [Str "R7800-R11599"]) /\
  ((11600 <= x < 19116)%Q ->
     cut [Num x] income_bins income_labels false true
     = ret [Str "R11600-R19115"]) /\
  ((19116 <= x < 24500)%Q ->
     cut [Num x] income_bins income_labels false true
     = ret [Str "R19116-R24499"]) /\
  ((24500 <= x < 65600)%Q ->
     cut [Num x] income_bins income_labels false true
     = ret [Str "R24500-R65499"]) /\
  ((65600 <= x < 500000)%Q ->
     cut [Num x] income_bins income_labels false true
     = ret [Str "+R65500"]) /\
  ((x < 0 \/ 500000 <= x)%Q ->
     cut [Num x] income_bins income_labels false true
     = ret [NaN]) /\
  cut [NaN] income_bins income_labels false true = ret [NaN] /\
  exists y, cut [Num x] income_bins income_labels false true = ret [y] /\
            (y = NaN \/ exists l, In l income_labels /\ y = Str l).
Proof.
  assert (B1 : (0 <= x < 1800)%Q ->
     cut [Num x] income_bins income_labels false true
     = ret [Str "R0-R1799"]).
  { intros [? ?]. open_cut. place x.
    destruct (Qeq_bool x (inject_Z 0)); reflexivity. }
  assert (B2 : (1800 <= x < 3200)%Q ->
     cut [Num x] income_bins income_labels false true
     = ret [Str "R1800-R3199"])
    by in_bin x.
  assert (B3 : (3200 <= x < 7800)%Q ->
     cut [Num x] income_bins income_labels false true
     = ret [Str "R3200-R7799"])
    by in_bin x.
  assert (B4 : (7800 <= x < 11600)%Q ->
     cut [Num x] income_bins income_labels false true
     = ret [Str "R7800-R11599"])
    by in_bin x.
  assert (B5 : (11600 <= x < 19116)%Q ->
     cut [Num x] income_bins income_labels false true
     = ret [Str "R11600-R19115"])
    by in_bin x.
  assert (B6 : (19116 <= x < 24500)%Q ->
     cut [Num x] income_bins income_labels false true
     = ret [Str "R19116-R24499"])
    by in_bin x.
  assert (B7 : (24500 <= x < 65600)%Q ->
     cut [Num x] income_bins income_labels false true
     = ret [Str "R24500-R65499"])
    by in_bin x.
  assert (B8 : (65600 <= x < 500000)%Q ->
     cut [Num x] income_bins income_labels false true
     = ret [Str "+R65500"])
    by in_bin x.
  assert (B9 : (x < 0 \/ 500000 <= x)%Q ->
     cut [Num x] income_bins income_labels false true
     = ret [NaN]).
  { intros [?|?]; open_cut; place x; rewrite not_lowest by edges;
      reflexivity. }
  repeat (split; [assumption|]). split; [reflexivity|].
  destruct (Qlt_le_dec x 0) as [?|?]; [exists NaN; auto|].
  destruct (Qlt_le_dec x 1800) as [?|?];
    [eexists; split; [apply B1; auto | right; eexists; split;
       [|reflexivity]; simpl; tauto]|].
  destruct (Qlt_le_dec x 3200) as [?|?];
    [eexists; split; [apply B2; auto | right; eexists; split;
       [|reflexivity]; simpl; tauto]|].
  destruct (Qlt_le_dec x 7800) as [?|?];
    [eexists; split; [apply B3; auto | right; eexists; split;
       [|reflexivity]; simpl; tauto]|].
  destruct (Qlt_le_dec x 11600) as [?|?];
    [eexists; split; [apply B4; auto | right; eexists; split;
       [|reflexivity]; simpl; tauto]|].
  destruct (Qlt_le_dec x 19116) as [?|?];
    [eexists; split; [apply B5; auto | right; eexists; split;
       [|reflexivity]; simpl; tauto]|].
  destruct (Qlt_le_dec x 24500) as [?|?];
    [eexists; split; [apply B6; auto | right; eexists; split;
       [|reflexivity]; simpl; tauto]|].
  destruct (Qlt_le_dec x 65600) as [?|?];
    [eexists; split; [apply B7; auto | right; eexists; split;
       [|reflexivity]; simpl; tauto]|].
  destruct (Qlt_le_dec x 500000) as [?|?];
    [eexists; split; [apply B8; auto | right; eexists; split;
       [|reflexivity]; simpl; tauto]|].
  exists NaN; auto.
Qed.

End Binning.

Module Formatting.
Import Py PyFacts Pandas.

Lemma uint_digits (u : Decimal.uint) :
  all_digits (NilEmpty.string_of_uint u) = true.
Proof. induction u; simpl; auto. Qed.

(** A natural number prints as digits, at least one. *)
Lemma str_int_digits (z : Z) :
  0 <= z -> all_digits (str_int z) = true /\ str_int z <> EmptyString.
Proof.
  intros H. unfold str_int.
  destruct z as [|p|p]; [split; [reflexivity | discriminate] | | lia].
  simpl. unfold NilZero.string_of_uint.
  destruct (Pos.to_uint p) eqn:E;
    try (split; [apply (uint_digits (_ _)) | discriminate]).
  split; [reflexivity | discriminate].
Qed.

(** [round_half_even] is a nearest integer: twice the value lies within
    one of twice the result (the value being [Qnum q / Qden q]). *)
Lemma round_half_even_nearest (q : Q) :
  (0 <= q)%Q ->
  let r := round_half_even q in
  0 <= r /\
  (2 * r - 1) * Zpos (Qden q) <= 2 * Qnum q <= (2 * r + 1) * Zpos (Qden q).
Proof.
  intros H. unfold Qle in H. simpl in H. unfold round_half_even.
  set (n := Qnum q) in *. set (d := Zpos (Qden q)).
  assert (Hd : 0 < d) by (unfold d; lia).
  assert (Hn : 0 <= n) by lia.
  pose proof (Z.div_mod n d ltac:(lia)) as Hdm.
  pose proof (Z.mod_pos_bound n d Hd) as Hm.
  pose proof (Z.div_pos n d Hn Hd) as Hq.
  set (fl := n / d) in *. set (m := n mod d) in *.
  cbv zeta.
  destruct (Z.ltb_spec (2 * m) d); [split; nia|].
  destruct (Z.ltb_spec d (2 * m)); [split; nia|].
  destruct (Z.even fl); split; nia.
Qed.

(** A present value is printed as an integer: an optional sign, then the
    digits of the nearest integer to its magnitude, and nothing after. *)
Lemma format_0f_present (q : Q) :
  exists r : Z,
    0 <= r /\
    format_0f_text q =
      (if Qnum q <? 0 then "-" else EmptyString) +++ str_int r /\
    all_digits (str_int r) = true /\
    (2 * r - 1) * Zpos (Qden q) <= 2 * Z.abs (Qnum q)
      <= (2 * r + 1) * Zpos (Qden q).
Proof.
  unfold format_0f_text. destruct (Z.ltb_spec (Qnum q) 0) as [Hneg|Hpos].
  - assert (H : (0 <= - q)%Q) by (unfold Qle; simpl; lia).
    destruct (round_half_even_nearest (- q) H) as [H0 Hn]. simpl in Hn.
    exists (round_half_even (- q)). split; [exact H0|]. split; [reflexivity|].
    split; [apply str_int_digits; exact H0|].
    rewrite Z.abs_neq by lia. exact Hn.
  - assert (H : (0 <= q)%Q) by (unfold Qle; simpl; lia).
    destruct (round_half_even_nearest q H) as [H0 Hn].
    exists (round_half_even q). split; [exact H0|]. split; [reflexivity|].
    split; [apply str_int_digits; exact H0|].
    rewrite Z.abs_eq by lia. exact Hn.
Qed.

(** An integer of at most 53 bits is a float. *)
Lemma float_of_int_exact (k : Z) :
  Z.abs k <= 2 ^ 53 -> float_of_int k = k.
Proof.
  intros H. unfold float_of_int.
  destruct (Z.eq_dec (Z.abs k) (2 ^ 53)) as [E|N].
  - destruct (Z.abs_spec k) as [[_ Ek]|[_ Ek]]; rewrite Ek in E.
    + subst k. vm_compute. reflexivity.
    + assert (k = - 2 ^ 53) by lia. subst k. vm_compute. reflexivity.
  - assert (Hl : Z.log2 (Z.abs k) < 53).
    { destruct (Z.eq_dec (Z.abs k) 0) as [Z0|NZ]; [rewrite Z0; simpl; lia|].
      apply Z.log2_lt_pow2; lia. }
    destruct (Z.leb_spec (Z.log2 (Z.abs k) - 52) 0); [reflexivity | lia].
Qed.

(** An identifier that is not negative prints as [str] prints it. *)
Lemma format_0f_id (i : Z) :
  0 <= i -> format_0f_text (inject_Z i) = str_int i.
Proof.
  intros H. unfold format_0f_text, round_half_even, inject_Z.
  cbn [Qnum Qden].
  destruct (Z.ltb_spec i 0); [lia|].
  rewrite Z.div_1_r, Z.mod_1_r. reflexivity.
Qed.

End Formatting.

Module Silence.
Import Py PyFacts Pandas BnEvidence.

(** The encoder computes in silence: nothing is printed or written before
    the artifact is. *)

Lemma silent_ret {A} (a : A) : silent (ret a).
Proof. reflexivity. Qed.

Lemma silent_raise {A} e : silent (@raise A e).
Proof. reflexivity. Qed.

Lemma silent_bind {A B} (m : M A) (k : A -> M B) :
  silent m -> (forall a, silent (k a)) -> silent (bind m k).
Proof.
  unfold silent. destruct m as [tr [a|e]]; simpl; intros -> H; [|reflexivity].
  specialize (H a). destruct (k a) as [tr' r]. simpl in *. exact H.
Qed.

Lemma silent_mapM {A B} (f : A -> M B) l :
  (forall x, silent (f x)) -> silent (mapM f l).
Proof.
  intros H. induction l as [|x l IH]; simpl; [apply silent_ret|].
  apply silent_bind; [apply H|]. intros y.
  apply silent_bind; [exact IH|]. intros ys. apply silent_ret.
Qed.

Lemma silent_returned {A} (m : M A) tr a :
  silent m -> m = (tr, Returned a) -> m = ret a.
Proof.
  unfold silent, ret. intros H E. rewrite E in *. simpl in H. now subst.
Qed.

Ltac hush :=
  repeat first
    [ apply silent_ret | apply silent_raise
    | apply silent_bind; [|intros ?]
    | apply silent_mapM; intros ?
    | match goal with
      | |- silent (match ?x with _ => _ end) => destruct x
      | |- silent (if ?b then _ else _) => destruct b
      | |- silent (let (_, _) := ?p in _) => destruct p
      end ].

Lemma silent_get_col name f : silent (get_col name f).
Proof. unfold get_col. hush. Qed.

Lemma silent_drop names f : silent (drop names f).
Proof.
  revert f. induction names as [|n r IH]; intros f; simpl; [hush|].
  apply silent_bind; [unfold drop1; hush | intros f'; apply IH].
Qed.

Lemma silent_set_columns labels f : silent (set_columns labels f).
Proof. unfold set_columns. hush. Qed.

Lemma silent_series_sub xs ys : silent (series_sub xs ys).
Proof.
  revert ys. induction xs as [|x xs IH]; intros ys; simpl; [hush|].
  destruct ys as [|y ys]; [hush|].
  apply silent_bind; [unfold cell_sub; hush|]. intros z.
  apply silent_bind; [apply IH | intros zs; hush].
Qed.

Lemma silent_cut xs bins labels r il : silent (cut xs bins labels r il).
Proof. unfold cut. hush. unfold cut_value. hush. Qed.

Lemma silent_format_0f x : silent (format_0f x).
Proof. unfold format_0f. hush. Qed.

Lemma silent_series_map na xs : silent (series_map format_0f na xs).
Proof. unfold series_map. hush; apply silent_format_0f. Qed.

Lemma silent_update_col name g f :
  (forall xs, silent (g xs)) -> silent (update_col name g f).
Proof.
  intros H. unfold update_col.
  apply silent_bind; [apply silent_get_col | intros xs].
  apply silent_bind; [apply H | intros ys; hush].
Qed.

Lemma silent_encode f : silent (encode f).
Proof.
  unfold encode, derive_nodes, bin_columns, format_columns, format_index.
  repeat first
    [ apply silent_ret
    | apply silent_get_col | apply silent_series_sub | apply silent_drop
    | apply silent_set_columns
    | apply silent_update_col; intros ?
    | apply silent_cut | apply silent_series_map
    | apply silent_bind; [|intros ?]
    | apply silent_mapM; intros ? ].
Qed.

Lemma silent_dumps e : silent (Json.dumps e).
Proof.
  unfold Json.dumps, Json.dump_record, Json.dump_cell. hush.
Qed.

End Silence.

Module EncoderKeys.
Import Py PyFacts Pandas Socios BnEvidence.

(** *** Dicts *)

Lemma dict_set_keys {V} k (v : V) d x :
  In x (map fst (dict_set k v d)) <-> x = k \/ In x (map fst d).
Proof.
  induction d as [|[k' v'] d IH]; simpl.
  - split; [intros [<-|[]]; auto | intros [->|[]]; auto].
  - destruct (String.eqb_spec k k') as [->|N]; simpl.
    + split; [intros [<-|H]; auto | intros [->|[<-|H]]; auto].
    + rewrite IH. split; [intros [<-|[->|H]]; auto | intros [->|[<-|H]]; auto].
Qed.

Lemma dict_fold_keys {V} (items : list (string * V)) d x :
  In x (map fst (fold_left (fun d kv => dict_set (fst kv) (snd kv) d) items d))
  <-> In x (map fst d) \/ In x (map fst items).
Proof.
  revert d. induction items as [|[k v] items IH]; intros d; simpl.
  - tauto.
  - rewrite IH, dict_set_keys. split.
    + intros [[->|H]|H]; auto.
    + intros [H|[<-|H]]; auto.
Qed.

Lemma dict_of_keys {V} (items : list (string * V)) x :
  In x (map fst (dict_of items)) <-> In x (map fst items).
Proof. unfold dict_of. rewrite dict_fold_keys. simpl. tauto. Qed.

Lemma map_fst_combine {A B} (l1 : list A) (l2 : list B) :
  List.length l1 = List.length l2 -> map fst (combine l1 l2) = l1.
Proof.
  revert l2. induction l1 as [|a l1 IH]; intros [|b l2] H; simpl in *;
    try discriminate; [reflexivity|].
  f_equal. apply IH. congruence.
Qed.

(** *** The frame stages keep the rows' identifiers *)

Lemma mapM_length {A B} (f : A -> M B) xs tr ys :
  mapM f xs = (tr, Returned ys) -> List.length ys = List.length xs.
Proof.
  revert tr ys. induction xs as [|x xs IH]; intros tr ys H; simpl in H.
  - unfold ret in H. inversion H. reflexivity.
  - apply bind_returned in H. destruct H as (t1 & y & t2 & _ & H & _).
    apply bind_returned in H. destruct H as (t3 & ys' & t4 & Hm & H & _).
    unfold ret in H. inversion H; subst. simpl. f_equal. eapply IH, Hm.
Qed.

Lemma get_col_length name f tr xs :
  get_col name f = (tr, Returned xs) -> List.length xs = List.length (rows f).
Proof.
  unfold get_col. destruct (positions_of name (columns f) 0) as [|i [|j l]];
    try discriminate.
  unfold ret. intros H. inversion H. apply length_map.
Qed.

Lemma series_sub_length xs ys tr zs :
  series_sub xs ys = (tr, Returned zs) ->
  List.length xs = List.length ys -> List.length zs = List.length xs.
Proof.
  revert ys tr zs. induction xs as [|x xs IH]; intros [|y ys] tr zs H L;
    simpl in *; try discriminate.
  - unfold ret in H. inversion H. reflexivity.
  - apply bind_returned in H. destruct H as (t1 & z & t2 & _ & H & _).
    apply bind_returned in H. destruct H as (t3 & zs' & t4 & Hm & H & _).
    unfold ret in H. inversion H; subst. simpl. f_equal.
    eapply IH; [exact Hm | congruence].
Qed.

Lemma set_col_keys name vs f :
  List.length vs = List.length (rows f) -> keys (set_col name vs f) = keys f.
Proof.
  intros L. unfold set_col, keys.
  destruct (positions_of name (columns f) 0); simpl; rewrite map_map; simpl;
    rewrite <- (map_map fst fst), map_fst_combine by congruence; reflexivity.
Qed.

Lemma drop_keys names : forall f tr f',
  drop names f = (tr, Returned f') -> keys f' = keys f.
Proof.
  induction names as [|n r IH]; intros f tr f' H; simpl in H.
  - unfold ret in H. inversion H. reflexivity.
  - apply bind_returned in H. destruct H as (t1 & f1 & t2 & H1 & H & _).
    apply IH in H. rewrite H. unfold drop1 in H1.
    destruct (positions_of n (columns f) 0) as [|i [|j l]]; try discriminate.
    unfold ret in H1. inversion H1. unfold keys. simpl. rewrite map_map.
    reflexivity.
Qed.

Lemma set_columns_keys labels f tr f' :
  set_columns labels f = (tr, Returned f') -> keys f' = keys f.
Proof.
  unfold set_columns. destruct labels as [|k rest]; [discriminate|].
  destruct (_ =? _)%nat; [|discriminate].
  unfold ret. intros H. inversion H. reflexivity.
Qed.

Lemma update_col_keys name g f tr f' :
  (forall xs t ys,
      g xs = (t, Returned ys) -> List.length ys = List.length xs) ->
  update_col name g f = (tr, Returned f') -> keys f' = keys f.
Proof.
  intros Hg H. unfold update_col in H.
  apply bind_returned in H. destruct H as (t1 & xs & t2 & Hx & H & _).
  apply bind_returned in H. destruct H as (t3 & ys & t4 & Hy & H & _).
  unfold ret in H. inversion H. apply set_col_keys.
  rewrite (Hg _ _ _ Hy). eapply get_col_length, Hx.
Qed.

Lemma cut_length xs bins labels r il t ys :
  cut xs bins labels r il = (t, Returned ys) -> List.length ys = List.length xs.
Proof.
  unfold cut. destruct (negb _); [discriminate|].
  destruct (negb _); [discriminate|]. apply mapM_length.
Qed.

Lemma series_map_length g na xs t ys :
  series_map g na xs = (t, Returned ys) -> List.length ys = List.length xs.
Proof. apply mapM_length. Qed.

Lemma derive_nodes_keys f tr f' :
  derive_nodes f = (tr, Returned f') -> keys f' = keys f.
Proof.
  unfold derive_nodes. intros H.
  apply bind_returned in H. destruct H as (t1 & c1 & t2 & H1 & H & _).
  apply bind_returned in H. destruct H as (t3 & c2 & t4 & H2 & H & _).
  apply bind_returned in H. destruct H as (t5 & g & t6 & Hg & H & _).
  apply bind_returned in H. destruct H as (t7 & f1 & t8 & Hd & H & _).
  apply set_columns_keys in H. apply drop_keys in Hd.
  apply get_col_length in H1, H2.
  apply series_sub_length in Hg; [|congruence].
  rewrite H, Hd. apply set_col_keys. congruence.
Qed.

(** The columns after the derivation are the seven nodes, in their order. *)
Lemma derive_nodes_columns f tr f' :
  derive_nodes f = (tr, Returned f') -> columns f' = bn_n.
Proof.
  unfold derive_nodes. intros H.
  apply bind_returned in H. destruct H as (t1 & c1 & t2 & _ & H & _).
  apply bind_returned in H. destruct H as (t3 & c2 & t4 & _ & H & _).
  apply bind_returned in H. destruct H as (t5 & g & t6 & _ & H & _).
  apply bind_returned in H. destruct H as (t7 & f1 & t8 & _ & H & _).
  unfold set_columns in H. destruct (_ =? _)%nat; [|discriminate].
  unfold ret in H. inversion H. reflexivity.
Qed.

Lemma bin_columns_keys f tr f' :
  bin_columns f = (tr, Returned f') -> keys f' = keys f.
Proof.
  unfold bin_columns. intros H.
  apply bind_returned in H. destruct H as (t1 & f1 & t2 & H1 & H & _).
  apply update_col_keys in H;
    [|intros xs t ys; apply cut_length].
  apply update_col_keys in H1;
    [|intros xs t ys; apply cut_length].
  congruence.
Qed.

Lemma format_columns_keys f tr f' :
  format_columns f = (tr, Returned f') -> keys f' = keys f.
Proof.
  unfold format_columns. intros H.
  apply bind_returned in H. destruct H as (t1 & f1 & t2 & H1 & H & _).
  apply bind_returned in H. destruct H as (t3 & f2 & t4 & H2 & H & _).
  apply bind_returned in H. destruct H as (t5 & f3 & t6 & H3 & H & _).
  apply bind_returned in H. destruct H as (t7 & f4 & t8 & H4 & H & _).
  apply update_col_keys in H, H1, H2, H3, H4;
    try (intros xs t ys; apply series_map_length).
  congruence.
Qed.

Lemma format_index_total f :
  format_index f =
  ret (mkIndexed (columns f)
         (map (fun r => (format_0f_text (inject_Z (float_of_int (fst r))),
                         snd r)) (rows f))).
Proof.
  unfold format_index.
  assert (E : mapM (fun r => bind (format_0f
                                     (Num (inject_Z (float_of_int (fst r)))))
                       (fun k => match k with
                                 | Str s => ret (s, snd r)
                                 | _ => raise ValueError
                                 end)) (rows f)
              = ret (map (fun r =>
                            (format_0f_text (inject_Z (float_of_int (fst r))),
                             snd r)) (rows f))).
  { induction (rows f) as [|r rs IH]; [reflexivity|].
    cbn [mapM map]. rewrite IH. reflexivity. }
  rewrite E. reflexivity.
Qed.

(** The keys of the evidence are the formatted identifiers of the frame. *)
Lemma encode_keys f tr evidence :
  encode f = (tr, Returned evidence) ->
  forall k, In k (map fst evidence) <->
            exists i, In i (keys f) /\
                      k = format_0f_text (inject_Z (float_of_int i)).
Proof.
  unfold encode. intros H.
  apply bind_returned in H. destruct H as (t1 & f1 & t2 & H1 & H & _).
  apply bind_returned in H. destruct H as (t3 & f2 & t4 & H2 & H & _).
  apply bind_returned in H. destruct H as (t5 & f3 & t6 & H3 & H & _).
  rewrite format_index_total, bind_ret_l in H.
  unfold ret in H. inversion H as [[Ht Hev]]. clear H Ht.
  apply derive_nodes_keys in H1. apply bin_columns_keys in H2.
  apply format_columns_keys in H3.
  assert (Hk : keys f3 = keys f) by congruence. clear H1 H2 H3.
  intros k. unfold records. rewrite dict_of_keys.
  rewrite map_fst_combine by (now rewrite !length_map).
  unfold to_dict_index. rewrite dict_of_keys.
  unfold blank_missing. simpl. rewrite !map_map. simpl.
  rewrite <- Hk. unfold keys. rewrite in_map_iff. split.
  - intros [r [<- Hr]]. exists (fst r). split; [apply in_map; exact Hr|].
    reflexivity.
  - intros [i [Hi ->]]. apply in_map_iff in Hi. destruct Hi as [r [<- Hr]].
    exists r. split; [reflexivity | exact Hr].
Qed.

(** *** The records *)

Lemma dict_get_set_same {V} k (v : V) d : dict_get k (dict_set k v d) = Some v.
Proof.
  induction d as [|[k' v'] d IH]; simpl.
  - now rewrite String.eqb_refl.
  - destruct (String.eqb_spec k k') as [->|N]; simpl.
    + now rewrite String.eqb_refl.
    + apply String.eqb_neq in N. now rewrite N.
Qed.

Lemma dict_get_set_other {V} k k' (v : V) d :
  k <> k' -> dict_get k (dict_set k' v d) = dict_get k d.
Proof.
  intros N. induction d as [|[k2 v2] d IH]; simpl.
  - apply String.eqb_neq in N. now rewrite N.
  - destruct (String.eqb_spec k' k2) as [->|N2]; simpl.
    + apply String.eqb_neq in N. now rewrite N.
    + rewrite IH. reflexivity.
Qed.

(** A record holds only values of the row that passed the test for the
    empty string, under the label they had in the row. *)
Lemma record_of_sound f k v :
  dict_get k (record_of f) = Some v ->
  In (k, v) f /\ v <> Str EmptyString.
Proof.
  unfold record_of.
  assert (G : forall f0 d,
    (forall k v, dict_get k d = Some v ->
                 In (k, v) f /\ v <> Str EmptyString) ->
    (forall kv, In kv f0 -> In kv f) ->
    forall k v,
      dict_get k (fold_left (fun d kv => if is_not_empty_str (snd kv)
                               then dict_set (fst kv) (snd kv) d else d) f0 d)
        = Some v ->
      In (k, v) f /\ v <> Str EmptyString).
  { induction f0 as [|[k0 v0] f0 IH]; intros d Hd Hsub k1 v1; simpl.
    - apply Hd.
    - apply IH; [|intros; apply Hsub; right; assumption].
      intros k2 v2. destruct (is_not_empty_str v0) eqn:E; [|apply Hd].
      destruct (String.eqb_spec k2 k0) as [->|N].
      + rewrite dict_get_set_same. intros H. inversion H; subst.
        split; [apply Hsub; left; reflexivity|].
        intros ->. discriminate.
      + rewrite dict_get_set_other by exact N. apply Hd. }
  apply (G f []); [discriminate | auto].
Qed.

(** With the labels of the row distinct, a record holds every value of
    the row that is not the empty string. *)
Lemma record_of_complete f k v :
  NoDup (map fst f) -> In (k, v) f -> is_not_empty_str v = true ->
  dict_get k (record_of f) = Some v.
Proof.
  unfold record_of. generalize (@nil (string * cell)) as d.
  induction f as [|[k0 v0] f IH]; intros d Hnd Hin Hv; [destruct Hin|].
  simpl in Hnd. inversion Hnd as [|? ? Hk0 Hnd']; subst.
  cbn [fold_left fst snd]. destruct Hin as [E|Hin].
  - inversion E; subst. rewrite Hv.
    assert (G : forall f0 d0, ~ In k (map fst f0) ->
      dict_get k (fold_left (fun d kv => if is_not_empty_str (snd kv)
                               then dict_set (fst kv) (snd kv) d else d) f0 d0)
      = dict_get k d0).
    { induction f0 as [|[k1 v1] f0 IH0]; intros d0 Hn; [reflexivity|].
      cbn [fold_left fst snd]. simpl in Hn.
      rewrite IH0 by tauto.
      destruct (is_not_empty_str v1); [|reflexivity].
      apply dict_get_set_other. intros ->. tauto. }
    rewrite G by exact Hk0. apply dict_get_set_same.
  - apply IH; assumption.
Qed.

(** What the formatting of a column returns, cell by cell: no cell of the
    result is missing. *)
Lemma series_map_format_cells xs : forall tr ys,
  series_map format_0f NaNone xs = (tr, Returned ys) ->
  Forall2 (fun x y => match x with
                      | NaN => y = Str "nan"
                      | Num q => y = Str (format_0f_text q)
                      | Str _ => False
                      end) xs ys.
Proof.
  unfold series_map. induction xs as [|x xs IH]; intros tr ys H.
  - simpl in H. unfold ret in H. inversion H. constructor.
  - cbn [mapM] in H.
    apply bind_returned in H. destruct H as (t1 & y & t2 & Hx & H & _).
    apply bind_returned in H. destruct H as (t3 & ys' & t4 & Hm & H & _).
    unfold ret in H. inversion H; subst. constructor; [|eapply IH, Hm].
    destruct x; simpl in Hx; unfold ret, raise in Hx; inversion Hx;
      reflexivity.
Qed.

End EncoderKeys.

Module EvidenceEncoder.
Import Py PyFacts Pandas Socios BnEvidence Examples Silence EncoderKeys.

(** *** The import *)

(** C1.  The encoder is written to get its frame from the feature
    assembler, but asks the module [socios] for it under the name
    [buildFeatureFrame]: [socios] binds the assembler to [featureFrame] and
    binds nothing to the other name, so the import raises and the encoder
    never gets a frame. *)
Theorem assembler_import_fails :
  module_imports = raise ImportError /\
  mem_str "buildFeatureFrame" Socios.namespace = false /\
  mem_str "featureFrame" Socios.namespace = true.
Proof. repeat split. Qed.

(** With a function imported, the body of [evidence2000] asks it for the
    eight search terms and the year, and for nothing else. *)
Lemma evidence2000_uses_assembler bff bff' dir fs year :
  bff searchlist year = bff' searchlist year ->
  evidence2000 bff dir fs year = evidence2000 bff' dir fs year.
Proof. unfold evidence2000. intros ->. reflexivity. Qed.

Lemma searchlist_length : List.length searchlist = 8%nat.
Proof. reflexivity. Qed.

(** *** Missing values *)

(** C3.  The formatting of the code columns is applied to the missing
    cells too, and turns them into the text [nan]: respondent 10 of the
    example frame has no answer for the main switch, and after the
    formatting step the cell of [cb_size] is text. *)
Theorem format_missing_becomes_text :
  series_map format_0f NaNone [NaN] = ret [Str "nan"] /\
  exists binned formatted,
    bind (derive_nodes assembled) bin_columns = ret binned /\
    get_col "cb_size" binned = ret [NaN; n 60] /\
    format_columns binned = ret formatted /\
    get_col "cb_size" formatted = ret [Str "nan"; Str "60"].
Proof.
  split; [reflexivity|].
  eexists. eexists. split; [vm_compute; reflexivity|].
  split; [vm_compute; reflexivity|].
  split; vm_compute; reflexivity.
Qed.

(** C2.  Respondent 10 of the example frame has no answer for the main
    switch, and yet the record has the key [cb_size], with the text [nan]
    as its value: the test for the empty string comes after the formatting
    has made text of the missing cell. *)
Theorem missing_cb_size_is_emitted :
  get_col "50" assembled = ret [NaN; n 60] /\
  exists evidence record,
    encode assembled = ret evidence /\
    dict_get "10" evidence = Some record /\
    dict_get "cb_size" record = Some (Str "nan").
Proof.
  split; [reflexivity|].
  eexists. eexists. split; [vm_compute; reflexivity|].
  split; vm_compute; reflexivity.
Qed.

(** The scenario of the specification, in the same record: an income of
    5000, two geysers less a broken one, and a floor area of 90; and the
    missing income of respondent 11, which is left out. *)
Lemma evidence_of_example :
  exists evidence r10 r11,
    encode assembled = ret evidence /\
    dict_get "10" evidence = Some r10 /\
    dict_get "monthly_income" r10 = Some (Str "R3200-R7799") /\
    dict_get "floor_area" r10 = Some (Str "80-150") /\
    dict_get "geyser_nr" r10 = Some (Str "1") /\
    dict_get "11" evidence = Some r11 /\
    dict_get "monthly_income" r11 = None.
Proof.
  do 3 eexists. split; [vm_compute; reflexivity|].
  split; [vm_compute; reflexivity|].
  split; [vm_compute; reflexivity|].
  split; [vm_compute; reflexivity|].
  split; [vm_compute; reflexivity|].
  split; vm_compute; reflexivity.
Qed.

(** The example frame is what the assembler of the store returns. *)
Lemma assembled_from_store :
  exists featureqs,
    featureFrame store searchlist (YInt 2014) = ret (assembled, featureqs).
Proof. eexists. vm_compute. reflexivity. Qed.

(** *** The artifact *)

Lemma ends_with_slash_app p c r :
  ends_with_slash (p +++ String c r) = ends_with_slash (String c r).
Proof.
  induction p as [|a p IH]; [reflexivity|].
  change (String a p +++ String c r) with (String a (p +++ String c r)).
  cbn [ends_with_slash]. rewrite IH.
  destruct p; reflexivity.
Qed.

Lemma append_not_empty p c r : (p +++ String c r =? EmptyString)%string = false.
Proof. destruct p; reflexivity. Qed.

(** The artifact lies in the directory [output], whatever the root is. *)
Lemma output_path dir name :
  exists root,
    os_path_join dir "output" = root +++ "output" /\
    os_path_join (os_path_join dir "output") (String "b" name)
    = root +++ "output/" +++ String "b" name.
Proof.
  assert (H : exists root, os_path_join dir "output" = root +++ "output").
  { unfold os_path_join.
    destruct ((dir =? EmptyString)%string || ends_with_slash dir).
    - exists dir. reflexivity.
    - exists (dir +++ "/"). rewrite append_assoc. reflexivity. }
  destruct H as [root H]. exists root. split; [exact H|].
  rewrite H. unfold os_path_join at 1. cbv iota.
  rewrite append_not_empty, ends_with_slash_app. cbn [orb ends_with_slash].
  change (Ascii.eqb "t" "/") with false. cbv iota.
  rewrite append_assoc. reflexivity.
Qed.

(** C5, as the code has it.  A run that returns has written one file,
    [output/bn_evidence_<year>.txt] under the root, holding the evidence as
    a JSON object of objects whose keys are the formatted identifiers of
    the assembled frame; has then printed where it saved the file; and has
    returned [None], not the evidence. *)
Theorem evidence2000_artifact
    (bff : list string -> pyyear -> M (Frame * list FeatureQ))
    (dir : string) (can_write : string -> bool) (year : pyyear) tr r :
  evidence2000 bff dir can_write year = (tr, Returned r) ->
  exists tr0 data evidence text root,
    bff searchlist year = (tr0, Returned data) /\
    encode (fst data) = ret evidence /\
    Json.dumps evidence = ret text /\
    tr = tr0 ++
         [WriteFile (root +++ "output/" +++
                     "bn_evidence_" +++ year_str year +++ ".txt") text;
          Print (("bn_evidence_" +++ year_str year +++ ".txt") +++
                 " successfully saved to " +++ root +++ "output")] /\
    (forall k, In k (map fst evidence) <->
               exists i, In i (keys (fst data)) /\
                         k = format_0f_text (inject_Z (float_of_int i))) /\
    r = PyNone.
Proof.
  unfold evidence2000. intros H.
  apply bind_returned in H. destruct H as (tr0 & data & t1 & Hb & H & ->).
  apply bind_returned in H. destruct H as (t2 & evidence & t3 & He & H & ->).
  apply bind_returned in H. destruct H as (t6 & [] & t7 & Hw & H & ->).
  assert (t6 = []).
  { unfold open_w in Hw. destruct (can_write _); inversion Hw. reflexivity. }
  subst t6. clear Hw.
  apply bind_returned in H. destruct H as (t4 & text & t5 & Hj & H & ->).
  pose proof (encode_keys _ _ _ He) as Hk.
  pose proof (silent_returned _ _ _ (silent_encode _) He) as He'.
  pose proof (silent_returned _ _ _ (silent_dumps _) Hj) as Hj'.
  assert (t2 = []) by (rewrite He in He'; unfold ret in He'; congruence).
  assert (t4 = []) by (rewrite Hj in Hj'; unfold ret in Hj'; congruence).
  subst t2 t4. clear He' Hj'.
  destruct (output_path dir ("n_evidence_" +++ year_str year +++ ".txt"))
    as (root & Ho & Hp).
  unfold output_dir in H.
  change ("bn_evidence_" +++ year_str year +++ ".txt")
    with (String "b" ("n_evidence_" +++ year_str year +++ ".txt")) in H.
  rewrite Hp, Ho in H.
  unfold bind, emit, print, ret in H. simpl in H. inversion H; subst.
  exists tr0, data, evidence, text, root.
  split; [exact Hb|]. split; [exact He|]. split; [exact Hj|].
  split; [reflexivity|]. split; [exact Hk | reflexivity].
Qed.

Lemma evidence2000_artifact_witness :
  exists tr r,
    evidence2000 assembler "/srv/dlr" any_file (YInt 2014) = (tr, Returned r) /\
    exists tr0 data evidence text root,
      assembler searchlist (YInt 2014) = (tr0, Returned data) /\
      encode (fst data) = ret evidence /\
      Json.dumps evidence = ret text /\
      tr = tr0 ++
           [WriteFile (root +++ "output/" +++
                       "bn_evidence_" +++ year_str (YInt 2014) +++ ".txt") text;
            Print (("bn_evidence_" +++ year_str (YInt 2014) +++ ".txt") +++
                   " successfully saved to " +++ root +++ "output")] /\
      (forall k, In k (map fst evidence) <->
                 exists i, In i (keys (fst data)) /\
                           k = format_0f_text (inject_Z (float_of_int i))) /\
      r = PyNone.
Proof.
  eexists. eexists. split; [vm_compute; reflexivity|].
  apply (evidence2000_artifact assembler "/srv/dlr" any_file (YInt 2014)).
  vm_compute. reflexivity.
Defined.

(** C5 as stated fails: the run on the example frame succeeds, and what
    it returns is [None], not the evidence it has written. *)
Lemma evidence2000_returns_none_counterexample :
  (exists tr, evidence2000 assembler "/srv/dlr" any_file (YInt 2014)
              = (tr, Returned PyNone)) /\
  ~ exists tr evidence,
      evidence2000 assembler "/srv/dlr" any_file (YInt 2014)
      = (tr, Returned (PyDict evidence)).
Proof.
  split.
  - eexists. vm_compute. reflexivity.
  - intros (tr & evidence & H). vm_compute in H. inversion H.
Qed.

End EvidenceEncoder.

Module IdentityMore.
Import Py PyFacts Pandas PandasFacts Socios Examples.

(** X1.  [loadID] returns exactly the non-zero values of the column in the
    link rows of a non-zero group (of a group of the year, when a year is
    given), each once. *)
Theorem loadID_exact (T : Tables) (year : option pyyear)
    (id_name : string) (col : Link -> Z) :
  link_col id_name = Some col ->
  exists ids,
    loadID T year id_name = ret ids /\
    NoDup ids /\
    forall i, In i ids <->
      i <> 0 /\
      exists l, In l (links T) /\ l_GroupID l <> 0 /\ col l = i /\
        forall y, year = Some y ->
          exists g, In g (groups T) /\ g_Year g = year_str y /\
                    g_GroupID g = l_GroupID l.
Proof.
  intros Hcol.
  destruct (SociosFacts.loadID_returns T year id_name col Hcol)
    as (ids & E & Hnd & H0 & Hs).
  exists ids. split; [exact E|]. split; [exact Hnd|].
  intros i. split.
  - intros Hi. split; [intros ->; contradiction | apply Hs; exact Hi].
  - intros (Hi & l & Hl & Hg & Hc & Hy).
    unfold loadID in E. rewrite Hcol in E.
    assert (Hf : In l (filter (fun l => negb (l_GroupID l =? 0)
                                        && negb (col l =? 0)) (links T))).
    { apply filter_In. split; [exact Hl|].
      apply andb_true_iff. split; apply negb_true_iff, Z.eqb_neq; congruence. }
    destruct year as [y|]; unfold ret in E; inversion E; subst ids;
      apply unique_In; rewrite <- Hc; apply in_map.
    + apply filter_In. split; [exact Hf|].
      destruct (Hy y eq_refl) as (g & Hg1 & Hg2 & Hg3).
      apply mem_In. rewrite <- Hg3. apply in_map.
      apply filter_In. split; [exact Hg1 | apply String.eqb_eq; exact Hg2].
    + exact Hf.
Qed.

Lemma loadID_exact_witness :
  link_col "ProfileID" = Some l_ProfileID /\
  exists ids,
    loadID store (Some (YStr "1998")) "ProfileID" = ret ids /\
    NoDup ids /\
    forall i, In i ids <->
      i <> 0 /\
      exists l, In l (links store) /\ l_GroupID l <> 0 /\ l_ProfileID l = i /\
        forall y, Some (YStr "1998") = Some y ->
          exists g, In g (groups store) /\ g_Year g = year_str y /\
                    g_GroupID g = l_GroupID l.
Proof.
  split; [reflexivity|].
  exact (loadID_exact store (Some (YStr "1998")) "ProfileID" l_ProfileID
           eq_refl).
Defined.

(** X2.  The identifiers of a year are among the identifiers returned
    without a year. *)
Theorem loadID_year_subset (T : Tables) (y : pyyear) (id_name : string)
    (ids_y ids_all : list Z) :
  loadID T (Some y) id_name = ret ids_y ->
  loadID T None id_name = ret ids_all ->
  forall i, In i ids_y -> In i ids_all.
Proof.
  unfold loadID. destruct (link_col id_name) as [col|]; [|discriminate].
  unfold ret. intros Hy Ha. inversion Hy; inversion Ha; subst.
  intros i Hi. rewrite unique_In in Hi. rewrite unique_In.
  apply in_map_iff in Hi. destruct Hi as (l & <- & Hl).
  apply filter_In in Hl. destruct Hl as [Hl _]. apply in_map. exact Hl.
Qed.

Lemma loadID_year_subset_witness :
  loadID store (Some (YInt 2014)) "AnswerID" = ret [10; 11] /\
  loadID store None "AnswerID" = ret [10; 11; 20] /\
  forall i, In i [10; 11] -> In i [10; 11; 20].
Proof.
  assert (H1 : loadID store (Some (YInt 2014)) "AnswerID" = ret [10; 11])
    by reflexivity.
  assert (H2 : loadID store None "AnswerID" = ret [10; 11; 20])
    by reflexivity.
  split; [exact H1|]. split; [exact H2|].
  exact (loadID_year_subset store (YInt 2014) "AnswerID" _ _ H1 H2).
Defined.

(** X3.  A year that no group has gives the empty list, not an error. *)
Theorem loadID_unknown_year (T : Tables) (y : pyyear) (id_name : string)
    (col : Link -> Z) :
  link_col id_name = Some col ->
  (forall g, In g (groups T) -> g_Year g <> year_str y) ->
  loadID T (Some y) id_name = ret [].
Proof.
  intros Hcol Hno. unfold loadID. rewrite Hcol.
  assert (E : filter (fun g => (g_Year g =? year_str y)%string) (groups T)
              = []).
  { induction (groups T) as [|g gs IH]; [reflexivity|]. simpl.
    destruct (String.eqb_spec (g_Year g) (year_str y)) as [E|N].
    - exfalso. apply (Hno g); [left; reflexivity | exact E].
    - apply IH. intros g' Hg'. apply Hno. right. exact Hg'. }
  rewrite E. simpl.
  assert (F : forall ls : list Link, filter (fun _ => false) ls = []).
  { induction ls; simpl; auto. }
  rewrite F. reflexivity.
Qed.

Lemma loadID_unknown_year_witness :
  link_col "AnswerID" = Some l_AnswerID /\
  (forall g, In g (groups store) -> g_Year g <> year_str (YInt 2000)) /\
  loadID store (Some (YInt 2000)) "AnswerID" = ret [].
Proof.
  assert (H : forall g, In g (groups store) ->
                        g_Year g <> year_str (YInt 2000)).
  { intros g [<-|[<-|[]]]; discriminate. }
  split; [reflexivity|]. split; [exact H|].
  exact (loadID_unknown_year store (YInt 2000) "AnswerID" l_AnswerID eq_refl H).
Defined.

End IdentityMore.

Module QuestionsMore.
Import Py PyFacts Pandas PandasFacts Socios Examples SociosQueries.

(** X4.  Whatever the terms are, as text or as a pattern, a table that
    [searchQuestions] returns holds only questions of the store that have
    the data type and the questionaire asked for, and nothing was printed. *)
Theorem searchQuestions_sound (T : Tables) (term : searchterm)
    (qnairid : option Z) (dt : option dtype) tr rows :
  searchQuestions T term qnairid dt = (tr, Returned (Some rows)) ->
  tr = [] /\
  forall r, In r rows ->
    exists q, In q (questions T) /\ r = select_result (join_qcons T q) /\
      (forall d, dt = Some d -> q_Datatype q = d) /\
      (forall i, qnairid = Some i ->
                 q_QuestionaireID q = i /\ In i (questionaires T)).
Proof.
  unfold searchQuestions.
  destruct (Re.compile _) as [rx|].
  - assert (Hq : forall q, In q (loadQuestions T dt) ->
              In q (questions T) /\ forall d, dt = Some d -> q_Datatype q = d).
    { intros q Hq. unfold loadQuestions in Hq. destruct dt as [d|].
      - apply filter_In in Hq. destruct Hq as [Hq Hd]. split; [exact Hq|].
        intros d' E. inversion E; subst.
        destruct (q_Datatype q), d'; simpl in Hd; congruence.
      - split; [exact Hq | discriminate]. }
    destruct qnairid as [i|].
    + destruct (mem i (questionaires T)) eqn:Hm.
      * unfold ret. intros H. inversion H; subst. split; [reflexivity|].
        intros r Hr. apply in_map_iff in Hr. destruct Hr as (x & <- & Hr).
        apply filter_In in Hr. destruct Hr as [Hr _].
        apply filter_In in Hr. destruct Hr as [Hr Hi].
        apply in_map_iff in Hr. destruct Hr as (q & <- & Hr).
        destruct (Hq q Hr) as [Hq1 Hq2]. exists q.
        split; [exact Hq1|]. split; [reflexivity|].
        split; [exact Hq2|]. intros i' E. inversion E; subst i'.
        simpl in Hi. apply Z.eqb_eq in Hi. split; [exact Hi|].
        apply mem_In. exact Hm.
      * simpl. intros H. inversion H.
    + unfold ret. intros H. inversion H; subst. split; [reflexivity|].
      intros r Hr. apply in_map_iff in Hr. destruct Hr as (x & <- & Hr).
      apply filter_In in Hr. destruct Hr as [Hr _].
      apply in_map_iff in Hr. destruct Hr as (q & <- & Hr).
      destruct (Hq q Hr) as [Hq1 Hq2]. exists q.
      split; [exact Hq1|]. split; [reflexivity|].
      split; [exact Hq2 | discriminate].
  - destruct qnairid as [i|]; [destruct (mem i (questionaires T))|];
      simpl; intros H; inversion H.
Qed.

Lemma searchQuestions_sound_witness :
  exists tr rows,
    searchQuestions store (One "ro.f|WALL") (Some 3) (Some num)
      = (tr, Returned (Some rows)) /\
    tr = [] /\
    forall r, In r rows ->
      exists q, In q (questions store) /\
        r = select_result (join_qcons store q) /\
        (forall d, Some num = Some d -> q_Datatype q = d) /\
        (forall i, Some 3 = Some i ->
                   q_QuestionaireID q = i /\ In i (questionaires store)).
Proof.
  eexists. eexists. split; [vm_compute; reflexivity|].
  apply (searchQuestions_sound store (One "ro.f|WALL") (Some 3) (Some num)).
  vm_compute. reflexivity.
Defined.

Lemma filter_all {A} (p : A -> bool) l :
  (forall x, p x = true) -> filter p l = l.
Proof.
  intros H. induction l as [|x l IH]; simpl; [reflexivity|].
  now rewrite H, IH.
Qed.

Lemma empty_pattern_found s : Re.search [[]] s = true.
Proof. unfold Re.search. simpl. destruct s; reflexivity. Qed.

(** The questions of a data type and a questionaire, as result rows. *)
Lemma searchQuestions_no_term_eq T term qnairid dt :
  join "|" (map lower (as_list term)) = EmptyString ->
  (forall i, qnairid = Some i -> In i (questionaires T)) ->
  searchQuestions T term qnairid dt =
  ret (Some (map (fun q => select_result (join_qcons T q))
    (filter (fun q =>
       match dt with Some d => dtype_eqb (q_Datatype q) d | None => true end
       && match qnairid with
          | Some i => q_QuestionaireID q =? i
          | None => true
          end) (questions T)))).
Proof.
  intros Hj Hid. unfold searchQuestions. rewrite Hj.
  change (Re.compile EmptyString) with (Some [@nil Re.atom]).
  assert (E : forall qdf : list (Question * option QConstraint),
            filter (fun r => Re.search [[]] (lower (q_Question (fst r)))) qdf
            = qdf).
  { intros qdf. apply filter_all. intros r. apply empty_pattern_found. }
  destruct qnairid as [i|].
  - assert (Hm : mem i (questionaires T) = true) by (apply mem_In; auto).
    rewrite Hm, E. unfold ret. do 3 f_equal.
    rewrite TermMatching.filter_map_swap, map_map. unfold loadQuestions.
    destruct dt as [d|].
    + rewrite TermMatching.filter_filter. reflexivity.
    + f_equal.
  - rewrite E. unfold ret. do 3 f_equal. rewrite map_map.
    unfold loadQuestions. destruct dt as [d|].
    + f_equal. apply filter_ext. intros q. rewrite andb_true_r. reflexivity.
    + rewrite filter_all by reflexivity. reflexivity.
Qed.

(** X5.  The empty term, and the empty list of terms as well, select every
    question of the data type and of the questionaire: the empty pattern
    is found in every text. *)
Theorem searchQuestions_no_term (T : Tables) (term : searchterm)
    (qnairid : option Z) (dt : option dtype) :
  term = One EmptyString \/ term = Many [] ->
  (forall i, qnairid = Some i -> In i (questionaires T)) ->
  searchQuestions T term qnairid dt =
  ret (Some (map (fun q => select_result (join_qcons T q))
    (filter (fun q =>
       match dt with Some d => dtype_eqb (q_Datatype q) d | None => true end
       && match qnairid with
          | Some i => q_QuestionaireID q =? i
          | None => true
          end) (questions T)))).
Proof.
  intros Ht Hid. apply searchQuestions_no_term_eq; [|exact Hid].
  destruct Ht as [->| ->]; reflexivity.
Qed.

Lemma searchQuestions_no_term_witness :
  (Many [] = One EmptyString \/ Many [] = Many []) /\
  (forall i, Some 6 = Some i -> In i (questionaires store)) /\
  searchQuestions store (Many []) (Some 6) None =
  ret (Some (map (fun q => select_result (join_qcons store q))
    (filter (fun q =>
       match @None dtype with
       | Some d => dtype_eqb (q_Datatype q) d
       | None => true
       end
       && match Some 6 with
          | Some i => q_QuestionaireID q =? i
          | None => true
          end) (questions store)))).
Proof.
  assert (H1 : Many [] = One EmptyString \/ Many [] = Many [])
    by (right; reflexivity).
  assert (H2 : forall i, Some 6 = Some i -> In i (questionaires store)).
  { intros i E. inversion E; subst. simpl. auto. }
  split; [exact H1|]. split; [exact H2|].
  exact (searchQuestions_no_term store (Many []) (Some 6) None H1 H2).
Defined.

(** X6.  For a known questionaire, [typeSplitQuestions] puts every
    question of the questionaire into the table of its data type: the three
    tables hold the questions of their type, and together as many rows as
    the questionaire has questions. *)
Theorem typeSplitQuestions_partition (T : Tables) (qnid : Z) :
  In qnid (questionaires T) ->
  let table d :=
    map (fun q => select_result (join_qcons T q))
        (filter (fun q => dtype_eqb (q_Datatype q) d
                          && (q_QuestionaireID q =? qnid)) (questions T)) in
  typeSplitQuestions T qnid =
    ret [(num, Some (table num)); (blob, Some (table blob));
         (char, Some (table char))] /\
  (List.length (table num) + List.length (table blob)
   + List.length (table char)
   = List.length (filter (fun q => (q_QuestionaireID q =? qnid)%Z)
                         (questions T)))%nat.
Proof.
  intros Hq table. split.
  - unfold typeSplitQuestions.
    assert (Hid : forall i, Some qnid = Some i -> In i (questionaires T))
      by (intros i E; inversion E; subst; exact Hq).
    rewrite !(searchQuestions_no_term_eq T (One EmptyString) (Some qnid)
                (Some _) eq_refl Hid).
    reflexivity.
  - unfold table. clear table. rewrite !length_map.
    induction (questions T) as [|q l IH]; [reflexivity|]. cbn [filter].
    destruct (q_QuestionaireID q =? qnid); destruct (q_Datatype q);
      cbn [dtype_eqb andb List.length]; lia.
Qed.

Lemma typeSplitQuestions_partition_witness :
  In 3 (questionaires store) /\
  let table d :=
    map (fun q => select_result (join_qcons store q))
        (filter (fun q => dtype_eqb (q_Datatype q) d
                          && (q_QuestionaireID q =? 3)) (questions store)) in
  typeSplitQuestions store 3 =
    ret [(num, Some (table num)); (blob, Some (table blob));
         (char, Some (table char))] /\
  (List.length (table num) + List.length (table blob)
   + List.length (table char)
   = List.length (filter (fun q => (q_QuestionaireID q =? 3)%Z)
                         (questions store)))%nat.
Proof.
  assert (H : In 3 (questionaires store)) by (simpl; auto).
  split; [exact H|]. exact (typeSplitQuestions_partition store 3 H).
Defined.

(** X7.  For an unknown questionaire, [typeSplitQuestions] prints the
    message with the valid ids three times and returns a dict whose three
    values are [None]: the failure is not raised. *)
Theorem typeSplitQuestions_invalid_id (T : Tables) (qnid : Z) :
  ~ In qnid (questionaires T) ->
  let msg := Print ("Please select a valid QuestionaireID " +++
                    str_int_list (questionaires T)) in
  typeSplitQuestions T qnid =
    ([msg; msg; msg], Returned [(num, None); (blob, None); (char, None)]).
Proof.
  intros H msg. apply mem_not_In in H.
  unfold typeSplitQuestions, searchQuestions. rewrite H. reflexivity.
Qed.

Lemma typeSplitQuestions_invalid_id_witness :
  ~ In 7 (questionaires store) /\
  let msg := Print ("Please select a valid QuestionaireID " +++
                    str_int_list (questionaires store)) in
  typeSplitQuestions store 7 =
    ([msg; msg; msg], Returned [(num, None); (blob, None); (char, None)]).
Proof.
  assert (H : ~ In 7 (questionaires store)) by (simpl; lia).
  split; [exact H|]. exact (typeSplitQuestions_invalid_id store 7 H).
Defined.

End QuestionsMore.

Module AnswersMore.
Import Py PyFacts Pandas PandasFacts Socios Examples SociosQueries
  MoreExamples.

(** A search that returns a table has printed nothing. *)
Lemma searchQuestions_some_silent T term qnairid dt tr rows :
  searchQuestions T term qnairid dt = (tr, Returned (Some rows)) -> tr = [].
Proof.
  unfold searchQuestions. destruct (Re.compile _) as [rx|];
    (destruct qnairid as [i|]; [destruct (mem i (questionaires T))|]);
    simpl; intros H; inversion H; reflexivity.
Qed.

(** X8.  With an unknown questionaire, [searchAnswers] prints the message
    of the question search and then fails with a TypeError, on the [None]
    it got in place of a table. *)
Theorem searchAnswers_invalid_id (T : Tables) (term : searchterm)
    (qnairid : Z) (dt : dtype) :
  ~ In qnairid (questionaires T) ->
  searchAnswers T term qnairid dt =
  ([Print ("Please select a valid QuestionaireID " +++
           str_int_list (questionaires T))],
   Raised TypeError).
Proof.
  intros H. apply mem_not_In in H.
  unfold searchAnswers, searchQuestions. rewrite H. reflexivity.
Qed.

Lemma searchAnswers_invalid_id_witness :
  ~ In 5 (questionaires store) /\
  searchAnswers store (One EmptyString) 5 num =
  ([Print ("Please select a valid QuestionaireID " +++
           str_int_list (questionaires store))],
   Raised TypeError).
Proof.
  assert (H : ~ In 5 (questionaires store)) by (simpl; lia).
  split; [exact H|].
  exact (searchAnswers_invalid_id store (One EmptyString) 5 num H).
Defined.

(** What a returning [searchAnswers] returns. *)
Lemma searchAnswers_returned T term qn dt tr d q :
  searchAnswers T term qn dt = (tr, Returned (d, q)) ->
  tr = [] /\
  columns d = map (fun cq => iloc_label (columns (loadAnswers T dt)) (fst cq))
                  q /\
  keys d = filter (fun k => mem k (map a_AnswerID
                      (filter (fun a => a_QuestionaireID a =? qn) (answers T))))
                  (keys (loadAnswers T dt)) /\
  rectangular d /\
  rows d = map (fun r => (fst r, map (fun cq => iloc_cell r (fst cq)) q))
             (filter (fun r => mem (fst r) (map a_AnswerID
                        (filter (fun a => a_QuestionaireID a =? qn)
                                (answers T))))
                     (rows (loadAnswers T dt))) /\
  forall cq, In cq q ->
    (fst cq <= List.length (columns (loadAnswers T dt)))%nat.
Proof.
  unfold searchAnswers. intros H.
  apply bind_returned in H. destruct H as (tr1 & found & tr2 & Hs & H & ->).
  destruct found as [qs|]; [|discriminate].
  apply searchQuestions_some_silent in Hs. subst tr1.
  apply bind_returned in H. destruct H as (tr3 & res & tr4 & Hi & H & ->).
  unfold ret in H. inversion H; subst. clear H.
  unfold iloc_key_and in Hi. cbn [columns rows] in Hi.
  destruct (existsb _ (map r_ColumnNo qs)) eqn:E1; [discriminate|].
  unfold ret in Hi. inversion Hi; subst. clear Hi.
  split; [reflexivity|]. split; [|split; [|split; [|split]]].
  - simpl. rewrite !map_map. reflexivity.
  - unfold keys. simpl. rewrite map_map. simpl. unfold loadAnswers_all.
    induction (rows (loadAnswers T dt)) as [|r rs IH]; simpl; [reflexivity|].
    destruct (mem (fst r) _); simpl; rewrite IH; reflexivity.
  - intros r Hr. simpl in Hr. apply in_map_iff in Hr.
    destruct Hr as (r0 & <- & _). simpl. rewrite !length_map. reflexivity.
  - cbn [rows]. unfold loadAnswers_all. apply map_ext. intros r.
    rewrite !map_map. reflexivity.
  - intros cq Hcq. apply in_map_iff in Hcq. destruct Hcq as (r & <- & Hr).
    simpl.
    assert (Hp : In (r_ColumnNo r) (map r_ColumnNo qs)) by (apply in_map; auto).
    destruct (Nat.ltb_spec (List.length (columns (loadAnswers T dt)))
                           (r_ColumnNo r)) as [Hlt|Hge]; [|exact Hge].
    exfalso. rewrite <- Bool.not_true_iff_false in E1. apply E1.
    apply existsb_exists. exists (r_ColumnNo r). split; [exact Hp|].
    apply Nat.ltb_lt. exact Hlt.
Qed.

(** X9.  The frame that [searchAnswers] returns holds, for those who
    answered the questionaire and in the order of the answer table, the
    identifier and after it one cell for each question found: the cell of
    the answer row at the question's column offset, under the label of
    that column.  An offset of 0 is the identifier column once more.  No
    offset lies beyond the table, and nothing was printed. *)
Theorem searchAnswers_shape (T : Tables) (term : searchterm) (qn : Z)
    (dt : dtype) tr d q :
  searchAnswers T term qn dt = (tr, Returned (d, q)) ->
  tr = [] /\
  columns d
  = map (fun cq => match fst cq with
                   | O => "AnswerID"
                   | S j => nth j (columns (loadAnswers T dt)) EmptyString
                   end) q /\
  rows d
  = map (fun r => (fst r,
                   map (fun cq => match fst cq with
                                  | O => Num (inject_Z (fst r))
                                  | S j => nth j (snd r) NaN
                                  end) q))
        (filter (fun r => mem (fst r) (map a_AnswerID
                   (filter (fun a => a_QuestionaireID a =? qn) (answers T))))
                (rows (loadAnswers T dt))) /\
  forall cq, In cq q ->
    (fst cq <= List.length (columns (loadAnswers T dt)))%nat.
Proof.
  intros H. apply searchAnswers_returned in H.
  destruct H as (Ht & Hc & _ & _ & Hr & Hb).
  split; [exact Ht|]. split; [exact Hc|]. split; [exact Hr | exact Hb].
Qed.

Lemma searchAnswers_shape_witness :
  exists tr d q,
    searchAnswers store (One "geyser") 3 num = (tr, Returned (d, q)) /\
    tr = [] /\
    columns d = ["115"; "131"] /\
    rows d = [(10, [n 2; n 1]); (11, [n 1; n 0]); (12, [n 0; n 0])] /\
    forall cq, In cq q ->
      (fst cq <= List.length (columns (loadAnswers store num)))%nat.
Proof.
  do 3 eexists. split; [vm_compute; reflexivity|].
  destruct (searchAnswers_shape store (One "geyser") 3 num [] _ _ eq_refl)
    as (Ht & Hc & Hr & Hb).
  split; [exact Ht|]. split; [exact Hc|]. split; [exact Hr | exact Hb].
Defined.

(** X10.  When a question found has a column offset beyond the last
    column of the answer table, [searchAnswers] fails with an IndexError. *)
Theorem searchAnswers_offset_out_of_range (T : Tables) (term : searchterm)
    (qn : Z) (dt : dtype) (qs : list QRow) (r : QRow) :
  searchQuestions T term (Some qn) (Some dt) = ret (Some qs) ->
  In r qs ->
  (List.length (columns (loadAnswers T dt)) < r_ColumnNo r)%nat ->
  searchAnswers T term qn dt = raise IndexError.
Proof.
  intros Hs Hr Hlt. unfold searchAnswers. rewrite Hs, bind_ret_l.
  unfold iloc_key_and. cbn [columns].
  assert (E : existsb
                (fun p => (List.length (columns (loadAnswers T dt)) <? p)%nat)
                      (map r_ColumnNo qs) = true).
  { apply existsb_exists. exists (r_ColumnNo r).
    split; [apply in_map; exact Hr | apply Nat.ltb_lt; exact Hlt]. }
  rewrite E. reflexivity.
Qed.

Lemma searchAnswers_offset_out_of_range_witness :
  searchQuestions store_short (One "roofer") (Some 3) (Some char)
    = ret (Some [roofer_row]) /\
  In roofer_row [roofer_row] /\
  (List.length (columns (loadAnswers store_short char))
   < r_ColumnNo roofer_row)%nat /\
  searchAnswers store_short (One "roofer") 3 char = raise IndexError.
Proof.
  assert (H1 : searchQuestions store_short (One "roofer") (Some 3) (Some char)
               = ret (Some [roofer_row])) by reflexivity.
  assert (H2 : In roofer_row [roofer_row]) by (left; reflexivity).
  assert (H3 : (List.length (columns (loadAnswers store_short char))
                < r_ColumnNo roofer_row)%nat) by (simpl; lia).
  split; [exact H1|]. split; [exact H2|]. split; [exact H3|].
  exact (searchAnswers_offset_out_of_range store_short (One "roofer") 3 char
           [roofer_row] roofer_row H1 H2 H3).
Defined.

End AnswersMore.

Module AssemblerMore.
Import Py PyFacts Pandas PandasFacts Socios Examples SociosQueries
  MoreExamples AnswersMore.

(** X11.  A year given as text is accepted by the identity resolver, and
    by [featureFrame] as long as there is no feature to assemble; with a
    feature, the comparison of the year with 1999 fails with a TypeError,
    before anything is searched or printed. *)
Theorem featureFrame_text_year (T : Tables) (f : string)
    (rest : list string) (s : string) :
  (exists ids,
     loadID T (Some (YStr s)) "AnswerID" = ret ids /\
     featureFrame T [] (YStr s)
     = ret (mkFrame [] (map (fun i => (i, [])) ids), [])) /\
  featureFrame T (f :: rest) (YStr s) = raise TypeError.
Proof.
  split; [|reflexivity].
  destruct (SociosFacts.loadID_returns T (Some (YStr s)) "AnswerID"
              l_AnswerID eq_refl) as (ids & E & _).
  exists ids. split; [exact E|].
  unfold featureFrame. rewrite E. reflexivity.
Qed.

(** X12.  For a year whose questionaire (6 up to 1999, 3 after) is not in
    the questionaire table, [featureFrame] with a feature to assemble
    prints the message of the question search and fails with a TypeError. *)
Theorem featureFrame_unknown_questionaire (T : Tables) (f : string)
    (rest : list string) (y : Z) :
  ~ In (if y <=? 1999 then 6 else 3) (questionaires T) ->
  featureFrame T (f :: rest) (YInt y) =
  ([Print ("Please select a valid QuestionaireID " +++
           str_int_list (questionaires T))],
   Raised TypeError).
Proof.
  intros H. unfold featureFrame.
  destruct (SociosFacts.loadID_returns T (Some (YInt y)) "AnswerID"
              l_AnswerID eq_refl) as (ids & E & _).
  rewrite E, bind_ret_l. cbn [featureFrame_loop year_le_1999].
  rewrite bind_ret_l.
  assert (Ha : searchAnswers T (One f) (if y <=? 1999 then 6 else 3) num =
    ([Print ("Please select a valid QuestionaireID " +++
             str_int_list (questionaires T))], Raised TypeError)).
  { apply mem_not_In in H.
    unfold searchAnswers, searchQuestions. rewrite H. reflexivity. }
  rewrite Ha. reflexivity.
Qed.

Lemma featureFrame_unknown_questionaire_witness :
  ~ In (if 2014 <=? 1999 then 6 else 3) (questionaires store_old) /\
  featureFrame store_old ["roof"] (YInt 2014) =
  ([Print ("Please select a valid QuestionaireID " +++
           str_int_list (questionaires store_old))],
   Raised TypeError).
Proof.
  assert (H : ~ In (if 2014 <=? 1999 then 6 else 3) (questionaires store_old))
    by (simpl; lia).
  split; [exact H|].
  exact (featureFrame_unknown_questionaire store_old "roof" [] 2014 H).
Defined.

(** *** What the loop keeps *)

Lemma merge_columns_length cl cr :
  List.length (merge_columns cl cr) = (List.length cl + List.length cr)%nat.
Proof. unfold merge_columns. now rewrite length_app, !length_map. Qed.

Lemma featureFrame_loop_traced T features year :
  forall data fq tr data' fq',
    featureFrame_loop T features year data fq = (tr, Returned (data', fq')) ->
    tr = [] /\
    exists groups,
      fq' = fq ++ List.concat groups /\
      Forall2 (fun f g => forall x, In x g -> fq_feature x = f)
              features groups /\
      List.length (columns data')
      = (List.length (columns data) + List.length (List.concat groups))%nat.
Proof.
  induction features as [|f rest IH]; intros data fq tr data' fq' H.
  - simpl in H. unfold ret in H. inversion H; subst.
    split; [reflexivity|]. exists []. simpl.
    rewrite app_nil_r. split; [reflexivity|]. split; [constructor | lia].
  - simpl in H.
    apply bind_returned in H. destruct H as (tr1 & old & tr2 & Hy & H & ->).
    apply bind_returned in H. destruct H as (tr3 & ans & tr4 & Hs & H & ->).
    destruct ans as [d q]. simpl in H.
    destruct (mem_str key_label (columns d)) eqn:Hkey; [discriminate|].
    assert (tr1 = []).
    { destruct year; simpl in Hy; unfold ret, raise in Hy; inversion Hy;
        reflexivity. }
    subst tr1.
    apply searchAnswers_returned in Hs. destruct Hs as (-> & Hc & _).
    apply IH in H. destruct H as (-> & groups & Hfq & HF & HL).
    split; [reflexivity|].
    exists (map (fun cq => mkFeatureQ (fst cq) (snd cq) f) q :: groups).
    split; [simpl; rewrite Hfq, app_assoc; reflexivity|].
    split.
    + constructor; [|exact HF]. intros x Hx. apply in_map_iff in Hx.
      destruct Hx as (cq & <- & _). reflexivity.
    + rewrite HL. cbn [columns merge_outer List.concat].
      rewrite merge_columns_length, length_app, length_map, Hc, length_map.
      lia.
Qed.

Lemma featureFrame_returned_silent T features year tr data fq :
  featureFrame T features year = (tr, Returned (data, fq)) -> tr = [].
Proof.
  unfold featureFrame. intros H.
  apply bind_returned in H. destruct H as (tr1 & ids & tr2 & Hl & H & ->).
  unfold loadID in Hl. simpl in Hl. unfold ret in Hl. inversion Hl.
  apply featureFrame_loop_traced in H. destruct H as (-> & _). reflexivity.
Qed.

(** X13.  A feature table that [featureFrame] returns was assembled in
    silence, has one column for each row of the feature questions, and the
    feature questions come feature by feature in the order of the
    features, each tagged with its feature. *)
Theorem featureFrame_traced (T : Tables) (features : list string)
    (year : pyyear) tr data fq :
  featureFrame T features year = (tr, Returned (data, fq)) ->
  tr = [] /\
  List.length (columns data) = List.length fq /\
  exists groups,
    fq = List.concat groups /\
    Forall2 (fun f g => forall x, In x g -> fq_feature x = f) features groups.
Proof.
  unfold featureFrame. intros H.
  apply bind_returned in H. destruct H as (tr1 & ids & tr2 & Hl & H & ->).
  assert (tr1 = []).
  { unfold loadID in Hl. simpl in Hl. unfold ret in Hl. inversion Hl.
    reflexivity. }
  subst tr1.
  apply featureFrame_loop_traced in H.
  destruct H as (-> & groups & Hfq & HF & HL).
  split; [reflexivity|]. simpl in Hfq, HL. subst fq.
  split; [exact HL|]. exists groups. split; [reflexivity | exact HF].
Qed.

Lemma featureFrame_traced_witness :
  featureFrame store ["roof"; "wall"] (YInt 2014)
    = ([], Returned (assembled_2014, featureqs_2014)) /\
  @nil event = [] /\
  List.length (columns assembled_2014) = List.length featureqs_2014 /\
  exists groups,
    featureqs_2014 = List.concat groups /\
    Forall2 (fun f g => forall x, In x g -> fq_feature x = f)
            ["roof"; "wall"] groups.
Proof.
  assert (H : featureFrame store ["roof"; "wall"] (YInt 2014)
              = ([], Returned (assembled_2014, featureqs_2014)))
    by (vm_compute; reflexivity).
  split; [exact H|].
  exact (featureFrame_traced store ["roof"; "wall"] (YInt 2014)
           [] assembled_2014 featureqs_2014 H).
Defined.

(** *** Rows and columns *)

Lemma rows_with_In k cells rs :
  In cells (rows_with k rs) -> In (k, cells) rs.
Proof.
  unfold rows_with. intros H. apply in_map_iff in H.
  destruct H as ([k' c] & <- & H). apply filter_In in H.
  destruct H as [H E]. simpl in E. apply Z.eqb_eq in E. subst. exact H.
Qed.

Lemma merge_group_In nl nr k ls rs r :
  In r (merge_group nl nr k ls rs) ->
  fst r = k /\
  ((exists l, In l ls /\ rs = [] /\ snd r = l ++ nan_row nr) \/
   (exists c, In c rs /\ ls = [] /\ snd r = nan_row nl ++ c) \/
   (exists l c, In l ls /\ In c rs /\ snd r = l ++ c)).
Proof.
  intros H. split; [eapply merge_group_key; exact H|].
  unfold merge_group in H. destruct ls as [|l ls].
  - apply in_map_iff in H. destruct H as (c & <- & Hc).
    right. left. exists c. auto.
  - destruct rs as [|c rs].
    + apply in_map_iff in H. destruct H as (l0 & <- & Hl).
      left. exists l0. auto.
    + apply in_flat_map in H. destruct H as (l0 & Hl & H).
      apply in_map_iff in H. destruct H as (c0 & <- & Hc).
      right. right. exists l0, c0. auto.
Qed.

Lemma merge_outer_rectangular L R :
  rectangular L -> rectangular R -> rectangular (merge_outer L R).
Proof.
  intros HL HR r Hr. unfold merge_outer in *. cbn [rows columns] in *.
  rewrite merge_columns_length.
  apply in_flat_map in Hr. destruct Hr as (k & _ & Hr).
  apply merge_group_In in Hr. destruct Hr as [_ Hr].
  destruct Hr as [(l & Hl & _ & ->)|[(c & Hc & _ & ->)|(l & c & Hl & Hc & ->)]];
    rewrite length_app; unfold nan_row; rewrite ?repeat_length.
  - apply rows_with_In in Hl. apply HL in Hl. simpl in Hl. lia.
  - apply rows_with_In in Hc. apply HR in Hc. simpl in Hc. lia.
  - apply rows_with_In in Hl. apply HL in Hl.
    apply rows_with_In in Hc. apply HR in Hc. simpl in *. lia.
Qed.

Lemma featureFrame_loop_rectangular T features year :
  forall data fq tr data' fq',
    featureFrame_loop T features year data fq = (tr, Returned (data', fq')) ->
    rectangular data -> rectangular data'.
Proof.
  induction features as [|f rest IH]; intros data fq tr data' fq' H Hd.
  - simpl in H. unfold ret in H. inversion H; subst. exact Hd.
  - simpl in H.
    apply bind_returned in H. destruct H as (tr1 & old & tr2 & _ & H & _).
    apply bind_returned in H. destruct H as (tr3 & ans & tr4 & Hs & H & _).
    destruct ans as [d q]. simpl in H.
    destruct (mem_str key_label (columns d)) eqn:Hkey; [discriminate|].
    apply searchAnswers_returned in Hs. destruct Hs as (_ & _ & _ & Hr & _).
    eapply IH; [exact H|]. apply merge_outer_rectangular; [exact Hd|].
    intros r Hin. cbn [rows columns] in *. apply filter_In in Hin.
    apply Hr. tauto.
Qed.

(** The rows of a feature table that [featureFrame] returns have one cell
    for each of its columns, as the rows of a data frame do. *)
Lemma featureFrame_rectangular (T : Tables) (features : list string)
    (year : pyyear) tr data fq :
  featureFrame T features year = (tr, Returned (data, fq)) ->
  rectangular data.
Proof.
  intros H. apply FeatureAssembler.featureFrame_start in H.
  destruct H as (ids & tr' & _ & H).
  eapply featureFrame_loop_rectangular; [exact H|].
  intros r Hr. simpl in Hr. apply in_map_iff in Hr.
  destruct Hr as (i & <- & _). reflexivity.
Qed.

(** *** Respondents without answers *)

Lemma featureFrame_loop_missing T features year k :
  ~ In k (keys (answers_num T)) ->
  forall data fq tr data' fq',
    featureFrame_loop T features year data fq = (tr, Returned (data', fq')) ->
    (forall cells, In (k, cells) (rows data) -> Forall (eq NaN) cells) ->
    forall cells, In (k, cells) (rows data') -> Forall (eq NaN) cells.
Proof.
  intros Hk.
  induction features as [|f rest IH]; intros data fq tr data' fq' H Hd.
  - simpl in H. unfold ret in H. inversion H; subst. exact Hd.
  - simpl in H.
    apply bind_returned in H. destruct H as (tr1 & old & tr2 & _ & H & _).
    apply bind_returned in H. destruct H as (tr3 & ans & tr4 & Hs & H & _).
    destruct ans as [d q]. simpl in H.
    destruct (mem_str key_label (columns d)) eqn:Hkey; [discriminate|].
    apply searchAnswers_returned in Hs. destruct Hs as (_ & _ & Hkeys & _).
    eapply IH; [exact H|]. clear IH H.
    intros cells Hin. unfold merge_outer in Hin. cbn [rows columns] in Hin.
    apply in_flat_map in Hin. destruct Hin as (k' & _ & Hin).
    apply merge_group_In in Hin. cbn [fst snd] in Hin.
    destruct Hin as [<- Hin].
    assert (Hno : rows_with k (filter (fun r => mem (fst r) (keys data))
                                      (rows d)) = []).
    { apply rows_with_nil. intros Hc. apply in_map_iff in Hc.
      destruct Hc as (r & Hr1 & Hr2). apply filter_In in Hr2.
      destruct Hr2 as [Hr2 _]. apply Hk.
      assert (Hd' : In k (keys d)).
      { unfold keys. rewrite <- Hr1. apply in_map. exact Hr2. }
      rewrite Hkeys in Hd'. apply filter_In in Hd'. cbn [loadAnswers] in Hd'.
      tauto. }
    rewrite Hno in Hin.
    destruct Hin as [(l & Hl & _ & ->)|[(c & [] & _)|(l & c & _ & [] & _)]].
    apply rows_with_In in Hl. apply Hd in Hl.
    apply Forall_app. split; [exact Hl|].
    unfold nan_row. clear. induction (List.length (columns d)); simpl;
      constructor; auto.
Qed.

(** X15.  A respondent without a row in the numeric answer table has in
    a feature table that [featureFrame] returns only missing cells. *)
Theorem featureFrame_missing_answers (T : Tables) (features : list string)
    (year : pyyear) tr data fq (k : Z) (cells : list cell) :
  featureFrame T features year = (tr, Returned (data, fq)) ->
  ~ In k (keys (answers_num T)) ->
  In (k, cells) (rows data) ->
  Forall (eq NaN) cells.
Proof.
  intros H Hk Hin. apply FeatureAssembler.featureFrame_start in H.
  destruct H as (ids & tr' & _ & H).
  eapply (featureFrame_loop_missing T features year k Hk);
    [exact H| |exact Hin].
  intros c Hc. simpl in Hc. apply in_map_iff in Hc.
  destruct Hc as (i & E & _). inversion E. constructor.
Qed.

Lemma featureFrame_missing_answers_witness :
  featureFrame store_gap ["roof"; "wall"] (YInt 2014)
    = ([], Returned (assembled_gap, featureqs_2014)) /\
  ~ In 11 (keys (answers_num store_gap)) /\
  In (11, [NaN; NaN]) (rows assembled_gap) /\
  Forall (eq NaN) [NaN; NaN].
Proof.
  assert (H1 : featureFrame store_gap ["roof"; "wall"] (YInt 2014)
               = ([], Returned (assembled_gap, featureqs_2014)))
    by (vm_compute; reflexivity).
  assert (H2 : ~ In 11 (keys (answers_num store_gap)))
    by (vm_compute; intuition discriminate).
  assert (H3 : In (11, [NaN; NaN]) (rows assembled_gap))
    by (right; left; reflexivity).
  split; [exact H1|]. split; [exact H2|]. split; [exact H3|].
  exact (featureFrame_missing_answers store_gap ["roof"; "wall"] (YInt 2014)
           [] assembled_gap featureqs_2014 11 [NaN; NaN] H1 H2 H3).
Defined.

End AssemblerMore.

Module CheckAnswerFacts.
Import Py PyFacts Pandas PandasFacts Socios Examples SociosQueries
  MoreExamples AssemblerMore.

Lemma filter_nil {A} (p : A -> bool) l :
  (forall x, In x l -> p x = false) -> filter p l = [].
Proof.
  induction l as [|x l IH]; simpl; intros H; [reflexivity|].
  rewrite (H x (or_introl eq_refl)). apply IH. intros y Hy. apply H.
  right. exact Hy.
Qed.

(** The first element of a selection is the first element selected. *)
Lemma filter_first {A} (p : A -> bool) l x r :
  filter p l = x :: r ->
  exists pre post, l = pre ++ x :: post /\
                   (forall y, In y pre -> p y = false) /\ p x = true.
Proof.
  induction l as [|a l IH]; simpl; [discriminate|].
  destruct (p a) eqn:E.
  - intros H. inversion H; subst. exists [], l.
    split; [reflexivity|]. split; [intros y []|exact E].
  - intros H. destruct (IH H) as (pre & post & -> & Hpre & Hx).
    exists (a :: pre), post. split; [reflexivity|]. split; [|exact Hx].
    intros y [<-|Hy]; auto.
Qed.

Lemma loc_mask_self (a : Frame) (id : Z) :
  loc_mask a (map (fun k => k =? id) (keys a))
  = mkFrame (columns a) (filter (fun r => fst r =? id) (rows a)).
Proof.
  unfold loc_mask, keys. f_equal.
  induction (rows a) as [|r rs IH]; simpl; [reflexivity|].
  destruct (fst r =? id); simpl; rewrite IH; reflexivity.
Qed.

Lemma py_int_silent s : fst (py_int s) = [].
Proof.
  unfold py_int. cbv zeta.
  match goal with
  | |- context [match ?p with Some _ => _ | None => _ end] => destruct p
  end; reflexivity.
Qed.

(** X16.  For a respondent without a link row, [checkAnswer] fails with a
    KeyError, whatever the features. *)
Theorem checkAnswer_no_link (T : Tables) (answerid : Z)
    (features : list string) :
  (forall l, In l (links T) -> l_AnswerID l <> answerid) ->
  checkAnswer T answerid features = raise KeyError.
Proof.
  intros H. unfold checkAnswer. rewrite filter_nil; [reflexivity|].
  intros l Hl. apply Z.eqb_neq. apply H. exact Hl.
Qed.

Lemma checkAnswer_no_link_witness :
  (forall l, In l (links store) -> l_AnswerID l <> 99) /\
  checkAnswer store 99 ["roof"] = raise KeyError.
Proof.
  assert (H : forall l, In l (links store) -> l_AnswerID l <> 99).
  { intros l Hl. simpl in Hl.
    repeat (destruct Hl as [<-|Hl]; [discriminate|]). destruct Hl. }
  split; [exact H|]. exact (checkAnswer_no_link store 99 ["roof"] H).
Defined.

(** X17.  When [checkAnswer] returns, it has printed nothing, and the
    frame is the feature frame of one year cut down to the rows of the
    respondent: the year is the number read from the year of the first
    group whose id is the group of the first link row of the respondent. *)
Theorem checkAnswer_rows (T : Tables) (answerid : Z)
    (features : list string) tr res :
  checkAnswer T answerid features = (tr, Returned res) ->
  tr = [] /\
  exists l g y data fq before_l after_l before_g after_g,
    links T = before_l ++ l :: after_l /\
    (forall l', In l' before_l -> l_AnswerID l' <> answerid) /\
    l_AnswerID l = answerid /\
    groups T = before_g ++ g :: after_g /\
    (forall g', In g' before_g -> g_GroupID g' <> l_GroupID l) /\
    g_GroupID g = l_GroupID l /\
    py_int (g_Year g) = ret y /\
    featureFrame T features (YInt y) = ret (data, fq) /\
    res = mkFrame (columns data)
                  (filter (fun r => fst r =? answerid) (rows data)).
Proof.
  unfold checkAnswer. intros H.
  destruct (filter (fun l => l_AnswerID l =? answerid) (links T))
    as [|l ls] eqn:El; [discriminate|].
  destruct (filter (fun g => g_GroupID g =? l_GroupID l) (groups T))
    as [|g gs] eqn:Eg; [discriminate|].
  apply filter_first in El. destruct El as (bl & al & Hl & Hbl & Hl1).
  apply filter_first in Eg. destruct Eg as (bg & ag & Hg & Hbg & Hg1).
  apply bind_returned in H. destruct H as (t1 & y & t2 & Hy & H & ->).
  apply bind_returned in H. destruct H as (t3 & a & t4 & Ha & H & ->).
  apply bind_returned in H. destruct H as (t5 & b & t6 & Hb & H & ->).
  unfold ret in H. inversion H; subst t6 res. clear H.
  pose proof (py_int_silent (g_Year g)) as Hsil. rewrite Hy in Hsil.
  simpl in Hsil. subst t1. destruct a as [data fq].
  pose proof (featureFrame_returned_silent _ _ _ _ _ _ Ha). subst t3.
  rewrite Ha in Hb. inversion Hb; subst t5 b. clear Hb.
  split; [reflexivity|].
  exists l, g, y, data, fq, bl, al, bg, ag.
  split; [exact Hl|]. split; [intros l' Hl'; apply Z.eqb_neq, Hbl, Hl'|].
  split; [apply Z.eqb_eq; exact Hl1|]. split; [exact Hg|].
  split; [intros g' Hg'; apply Z.eqb_neq, Hbg, Hg'|].
  split; [apply Z.eqb_eq; exact Hg1|].
  split; [unfold py_int in *; exact Hy|]. split; [exact Ha|].
  apply loc_mask_self.
Qed.

Lemma checkAnswer_rows_witness :
  exists tr res,
    checkAnswer store 10 ["roof"; "wall"] = (tr, Returned res) /\
    tr = [] /\
    exists l g y data fq before_l after_l before_g after_g,
      links store = before_l ++ l :: after_l /\
      (forall l', In l' before_l -> l_AnswerID l' <> 10) /\
      l_AnswerID l = 10 /\
      groups store = before_g ++ g :: after_g /\
      (forall g', In g' before_g -> g_GroupID g' <> l_GroupID l) /\
      g_GroupID g = l_GroupID l /\
      py_int (g_Year g) = ret y /\
      featureFrame store ["roof"; "wall"] (YInt y) = ret (data, fq) /\
      res = mkFrame (columns data)
                    (filter (fun r => fst r =? 10) (rows data)).
Proof.
  eexists. eexists. split; [vm_compute; reflexivity|].
  apply (checkAnswer_rows store 10 ["roof"; "wall"]).
  vm_compute. reflexivity.
Defined.

End CheckAnswerFacts.

Module LocationsFacts.
Import Py PyFacts Pandas Socios Examples SociosQueries.

Lemma insert_sorted_In x l y :
  In y (insert_sorted x l) <-> y = x \/ In y l.
Proof.
  induction l as [|a l IH]; simpl.
  - split; [intros [<-|[]]; auto | intros [->|[]]; auto].
  - destruct (String.eqb_spec x a) as [->|N].
    + simpl. split; [auto | intros [->|H]; auto].
    + destruct (x <=? a)%string; simpl.
      * split; [intros [<-|H]; auto | intros [->|H]; auto].
      * rewrite IH.
        split; [intros [<-|[->|H]]; auto | intros [->|[<-|H]]; auto].
Qed.

Lemma sorted_set_In xs y : In y (sorted_set xs) <-> In y xs.
Proof.
  induction xs as [|x xs IH]; simpl; [tauto|].
  rewrite insert_sorted_In, IH.
  split; [intros [->|H]; auto | intros [<-|H]; auto].
Qed.

Lemma insert_sorted_Sorted x l :
  Sorted (fun a b => (a <=? b)%string = true /\ a <> b) l ->
  Sorted (fun a b => (a <=? b)%string = true /\ a <> b) (insert_sorted x l).
Proof.
  induction l as [|a l IH]; intros Hs; simpl.
  - constructor; constructor.
  - destruct (String.eqb_spec x a) as [->|N]; [exact Hs|].
    destruct (x <=? a)%string eqn:E.
    + constructor; [exact Hs|]. constructor. auto.
    + inversion Hs as [|? ? Hs' Hh]; subst.
      constructor; [apply IH; exact Hs'|].
      assert (Hax : (a <=? x)%string = true).
      { destruct (String.leb_total a x) as [H|H]; [exact H | congruence]. }
      destruct l as [|b l]; simpl.
      * constructor. split; [exact Hax | congruence].
      * destruct (String.eqb_spec x b) as [->|N'].
        -- inversion Hh; subst. constructor. assumption.
        -- destruct (x <=? b)%string.
           ++ constructor. split; [exact Hax | congruence].
           ++ inversion Hh; subst. constructor. assumption.
Qed.

Lemma sorted_set_Sorted xs :
  Sorted (fun a b => (a <=? b)%string = true /\ a <> b) (sorted_set xs).
Proof.
  induction xs as [|x xs IH]; simpl; [constructor|].
  apply insert_sorted_Sorted. exact IH.
Qed.

(** X18.  For a year given as text, [Locations] returns in ascending
    order, each once, the texts after the first blank of the locations of
    the groups of that year, and nothing else; for a year given as a
    number it returns the empty list, since the year is compared as it
    comes with the text of the store. *)
Theorem Locations_sorted_exact (T : Tables) :
  (forall s,
     Sorted (fun a b => (a <=? b)%string = true /\ a <> b)
            (Locations T (YStr s)) /\
     forall x, In x (Locations T (YStr s)) <->
       exists g, In g (groups T) /\ g_Year g = s /\
                 x = after_first_space (g_Location g)) /\
  (forall y, Locations T (YInt y) = []).
Proof.
  split; [|reflexivity]. intros s. unfold Locations. split.
  - apply sorted_set_Sorted.
  - intros x. rewrite sorted_set_In, in_map_iff. split.
    + intros (g & <- & Hg). apply filter_In in Hg. destruct Hg as [Hg E].
      apply String.eqb_eq in E. exists g. auto.
    + intros (g & Hg & E & ->). exists g. split; [reflexivity|].
      apply filter_In. split; [exact Hg | apply String.eqb_eq; exact E].
Qed.

(** The text after the first blank, against [partition]: with a blank,
    the tail after the first one; without, nothing. *)
Lemma after_first_space_spec (a b : string) :
  (forall c, In c (list_ascii_of_string a) -> c <> " "%char) ->
  after_first_space (a +++ String " " b) = b /\
  after_first_space a = EmptyString.
Proof.
  induction a as [|c a IH]; simpl; intros H; [auto|].
  assert (Hc : Ascii.eqb c " " = false).
  { apply Ascii.eqb_neq. apply H. left. reflexivity. }
  rewrite Hc. apply IH. intros c' Hc'. apply H. right. exact Hc'.
Qed.

End LocationsFacts.

Module FloorArea.
Import Py PyFacts Pandas BnEvidence.

Lemma above_edge (b : Z) (x : Q) :
  (inject_Z b < x)%Q -> Qle_bool x (inject_Z b) = false.
Proof.
  intros H. apply not_true_iff_false. rewrite Qle_bool_iff.
  apply Qlt_not_le. exact H.
Qed.

Lemma upto_edge (b : Z) (x : Q) :
  (x <= inject_Z b)%Q -> Qle_bool x (inject_Z b) = true.
Proof. apply Qle_bool_iff. Qed.

Ltac edges :=
  unfold Qle, Qlt, Qeq, inject_Z in *; cbn [Qnum Qden] in *; lia.

Ltac place x :=
  repeat match goal with
  | |- context [Qle_bool x (inject_Z ?b)] =>
      first [ rewrite (upto_edge b x) by edges
            | rewrite (above_edge b x) by edges ]
  end.

Ltac open_cut :=
  unfold cut;
  change (increasing floorarea_bins) with true;
  change (List.length floorarea_labels =? List.length floorarea_bins - 1)%nat
    with true;
  cbn [negb mapM cut_value]; unfold searchsorted, floorarea_bins;
  cbn [map filter negb hd andb].

Ltac in_bin x := intros [? ?]; open_cut; place x; reflexivity.

(** [pd.cut] on the floor area bins, for one value.  The ranges are open
    on the left and closed on the right: an area above an edge and up to
    the next gets the label of the two; an area of 0 or less, or above
    500, becomes missing, and so does a missing one. *)
Lemma floor_area_cut (x : Q) :
  ((0 < x <= 50)%Q ->
     cut [Num x] floorarea_bins floorarea_labels true false
     = ret [Str "0-50"]) /\
  ((50 < x <= 80)%Q ->
     cut [Num x] floorarea_bins floorarea_labels true false
     = ret [Str "50-80"]) /\
  ((80 < x <= 150)%Q ->
     cut [Num x] floorarea_bins floorarea_labels true false
     = ret [Str "80-150"]) /\
  ((150 < x <= 250)%Q ->
     cut [Num x] floorarea_bins floorarea_labels true false
     = ret [Str "150-250"]) /\
  ((250 < x <= 500)%Q ->
     cut [Num x] floorarea_bins floorarea_labels true false
     = ret [Str "250-500"]) /\
  ((x <= 0 \/ 500 < x)%Q ->
     cut [Num x] floorarea_bins floorarea_labels true false
     = ret [NaN]) /\
  cut [NaN] floorarea_bins floorarea_labels true false = ret [NaN].
Proof.
  split; [in_bin x|]. split; [in_bin x|]. split; [in_bin x|].
  split; [in_bin x|]. split; [in_bin x|].
  split; [|reflexivity].
  intros [?|?]; open_cut; place x; reflexivity.
Qed.

End FloorArea.

Module NodeColumns.
Import Py PyFacts Pandas Socios BnEvidence Examples EncoderKeys.

Lemma positions_of_bounds name cols k i :
  In i (positions_of name cols k) ->
  (k <= i < k + List.length cols)%nat.
Proof.
  revert k. induction cols as [|c cols IH]; intros k H; simpl in H;
    [destruct H|].
  destruct (name =? c)%string.
  - destruct H as [<-|H]; [simpl; lia|]. apply IH in H. simpl. lia.
  - apply IH in H. simpl. lia.
Qed.

Lemma positions_of_nil name cols k :
  positions_of name cols k = [] <-> ~ In name cols.
Proof.
  revert k. induction cols as [|c cols IH]; intros k; simpl; [tauto|].
  destruct (String.eqb_spec name c) as [->|N].
  - split; [discriminate | intros H; exfalso; auto].
  - rewrite IH. split; [intros H [E|H']; [congruence | auto] | tauto].
Qed.

Lemma positions_of_NoDup name cols k :
  NoDup cols -> In name cols -> exists i, positions_of name cols k = [i].
Proof.
  revert k. induction cols as [|c cols IH]; intros k Hn Hin; [destruct Hin|].
  inversion Hn as [|? ? Hc Hn']; subst. simpl.
  destruct (String.eqb_spec name c) as [->|N].
  - apply (positions_of_nil c cols (S k)) in Hc. rewrite Hc. eauto.
  - destruct Hin as [E|Hin]; [congruence|]. apply IH; assumption.
Qed.

Lemma remove_nth_length {A} i (l : list A) :
  (i < List.length l)%nat ->
  List.length (remove_nth i l) = (List.length l - 1)%nat.
Proof.
  revert i. induction l as [|x l IH]; intros i H; simpl in *; [lia|].
  destruct i; simpl; [lia|]. rewrite IH by lia. lia.
Qed.

Lemma drop1_columns name f tr f' :
  drop1 name f = (tr, Returned f') ->
  In name (columns f) /\
  List.length (columns f') = (List.length (columns f) - 1)%nat.
Proof.
  unfold drop1.
  destruct (positions_of name (columns f) 0) as [|i [|j l]] eqn:E;
    try discriminate.
  unfold ret. intros H. inversion H; subst. simpl.
  assert (Hi : In i (positions_of name (columns f) 0))
    by (rewrite E; left; reflexivity).
  split.
  - destruct (in_dec string_dec name (columns f)) as [Hin|Hn]; [exact Hin|].
    apply (positions_of_nil name (columns f) 0) in Hn. congruence.
  - apply remove_nth_length. apply positions_of_bounds in Hi. lia.
Qed.

(** X20.  [derive_nodes] names the columns by position, so it returns
    only for a frame with the two geyser columns and, unless a column is
    already called [geyser_nr], six more: eight columns after the
    identifier, one for each search term.  The returned frame has the
    seven node names as labels. *)
Theorem derive_nodes_needs_eight_columns (f : Frame) tr f' :
  derive_nodes f = (tr, Returned f') ->
  ~ In "geyser_nr" (columns f) ->
  In "115" (columns f) /\ In "131" (columns f) /\
  List.length (columns f) = 8%nat /\
  columns f' = bn_n.
Proof.
  intros H Hg. pose proof (derive_nodes_columns _ _ _ H) as Hc.
  unfold derive_nodes in H.
  apply bind_returned in H. destruct H as (t1 & c1 & t2 & H1 & H & _).
  apply bind_returned in H. destruct H as (t3 & c2 & t4 & H2 & H & _).
  apply bind_returned in H. destruct H as (t5 & g & t6 & _ & H & _).
  apply bind_returned in H. destruct H as (t7 & f1 & t8 & Hd & H & _).
  assert (Hin : forall name xs t, get_col name f = (t, Returned xs) ->
                                  In name (columns f)).
  { intros name xs t Hx. unfold get_col in Hx.
    destruct (in_dec string_dec name (columns f)) as [Hin|Hn]; [exact Hin|].
    apply (positions_of_nil name (columns f) 0) in Hn. rewrite Hn in Hx.
    discriminate. }
  split; [eapply Hin; exact H1|]. split; [eapply Hin; exact H2|].
  split; [|exact Hc].
  unfold set_col in Hd.
  apply (positions_of_nil "geyser_nr" (columns f) 0) in Hg. rewrite Hg in Hd.
  cbn [drop] in Hd.
  apply bind_returned in Hd. destruct Hd as (u1 & fa & u2 & Ha & Hd & _).
  apply bind_returned in Hd. destruct Hd as (u3 & fb & u4 & Hb & Hd & _).
  unfold ret in Hd. inversion Hd; subst fb. clear Hd.
  apply drop1_columns in Ha, Hb. destruct Ha as [Ha1 Ha2], Hb as [Hb1 Hb2].
  cbn [columns] in Ha2. rewrite length_app in Ha2. simpl in Ha2.
  unfold set_columns in H.
  destruct (List.length bn_n =? List.length (columns f1))%nat eqn:E;
    [|discriminate].
  apply Nat.eqb_eq in E. simpl in E.
  assert (List.length (columns fa) <> 0%nat).
  { destruct (columns fa); [destruct Hb1 | discriminate]. }
  lia.
Qed.

Lemma derive_nodes_needs_eight_columns_witness :
  exists tr f',
    derive_nodes assembled = (tr, Returned f') /\
    ~ In "geyser_nr" (columns assembled) /\
    In "115" (columns assembled) /\ In "131" (columns assembled) /\
    List.length (columns assembled) = 8%nat /\
    columns f' = bn_n.
Proof.
  assert (Hg : ~ In "geyser_nr" (columns assembled)).
  { simpl. intuition discriminate. }
  eexists. eexists. split; [vm_compute; reflexivity|].
  split; [exact Hg|].
  refine (derive_nodes_needs_eight_columns assembled _ _ _ Hg).
  vm_compute. reflexivity.
Defined.

(** X21.  Without a column labelled [115] (no question found for the
    geyser number, or the label changed by a merge), [derive_nodes] fails
    with a KeyError. *)
Theorem derive_nodes_missing_geyser (f : Frame) :
  ~ In "115" (columns f) -> derive_nodes f = raise KeyError.
Proof.
  intros H. apply (positions_of_nil "115" (columns f) 0) in H.
  unfold derive_nodes, get_col. rewrite H. reflexivity.
Qed.

Lemma derive_nodes_missing_geyser_witness :
  ~ In "115" (columns assembled_2014) /\
  derive_nodes assembled_2014 = raise KeyError.
Proof.
  assert (H : ~ In "115" (columns assembled_2014)).
  { simpl. intuition discriminate. }
  split; [exact H|]. exact (derive_nodes_missing_geyser assembled_2014 H).
Defined.

End NodeColumns.

Module EvidenceValues.
Import Py PyFacts Pandas Socios BnEvidence Examples EncoderKeys Silence
  EvidenceWords.

(** *** Cells through the stages *)

Lemma mapM_Forall {A B} (f : A -> M B) (P : B -> Prop) xs :
  (forall x t y, f x = (t, Returned y) -> P y) ->
  forall tr ys, mapM f xs = (tr, Returned ys) -> Forall P ys.
Proof.
  intros Hf. induction xs as [|x xs IH]; intros tr ys H; simpl in H.
  - unfold ret in H. inversion H. constructor.
  - apply bind_returned in H. destruct H as (t1 & y & t2 & Hy & H & _).
    apply bind_returned in H. destruct H as (t3 & ys' & t4 & Hm & H & _).
    unfold ret in H. inversion H; subst.
    constructor; [eapply Hf, Hy | eapply IH, Hm].
Qed.

Lemma cut_not_number xs bins labels r il tr ys :
  cut xs bins labels r il = (tr, Returned ys) -> Forall not_number ys.
Proof.
  unfold cut. destruct (negb _); [discriminate|].
  destruct (negb _); [discriminate|].
  apply mapM_Forall. intros x t y Hx. unfold cut_value in Hx.
  destruct x as [|q|s]; [| |discriminate].
  - unfold ret in Hx. inversion Hx. exact I.
  - destruct (_ || _); [unfold ret in Hx; inversion Hx; exact I|].
    destruct (nth_error labels _); [|discriminate].
    unfold ret in Hx. inversion Hx. exact I.
Qed.

Lemma format_not_number xs tr ys :
  series_map format_0f NaNone xs = (tr, Returned ys) -> Forall not_number ys.
Proof.
  unfold series_map. apply mapM_Forall. intros x t y Hx.
  destruct x; simpl in Hx; unfold ret, raise in Hx; inversion Hx; exact I.
Qed.

Lemma set_nth_nth_error {A} i (v : A) l j c :
  nth_error (set_nth i v l) j = Some c ->
  (j = i /\ c = v) \/ (j <> i /\ nth_error l j = Some c).
Proof.
  revert i j. induction l as [|x l IH]; intros i j H.
  - destruct i; simpl in H; destruct j; discriminate.
  - destruct i as [|i]; simpl in H.
    + destruct j as [|j]; simpl in *.
      * inversion H. left. auto.
      * right. split; [discriminate | exact H].
    + destruct j as [|j]; simpl in *.
      * right. split; [discriminate | exact H].
      * apply IH in H. destruct H as [[-> ->]|[N H]]; [left; auto|].
        right. split; [congruence | exact H].
Qed.

(** A column that is replaced holds the new cells; the others stay. *)
Lemma update_col_cells name g f tr f' i :
  update_col name g f = (tr, Returned f') ->
  positions_of name (columns f) 0 = [i] ->
  (forall xs t ys, g xs = (t, Returned ys) -> Forall not_number ys) ->
  columns f' = columns f /\
  forall r', In r' (rows f') ->
    exists r, In r (rows f) /\
      forall j c, nth_error (snd r') j = Some c ->
        (j = i /\ not_number c) \/ (j <> i /\ nth_error (snd r) j = Some c).
Proof.
  intros H Hp Hg. unfold update_col in H.
  apply bind_returned in H. destruct H as (t1 & xs & t2 & _ & H & _).
  apply bind_returned in H. destruct H as (t3 & ys & t4 & Hy & H & _).
  unfold ret in H. inversion H; subst f'. clear H.
  apply Hg in Hy. unfold set_col. rewrite Hp. cbn [columns rows].
  split; [reflexivity|]. intros r' Hr'. apply in_map_iff in Hr'.
  destruct Hr' as ([r y] & <- & Hin). cbn [fst snd].
  exists r. split; [eapply in_combine_l; exact Hin|].
  intros j c Hc. apply set_nth_nth_error in Hc.
  destruct Hc as [[-> ->]|Hc]; [left|right; exact Hc].
  split; [reflexivity|]. apply in_combine_r in Hin.
  rewrite Forall_forall in Hy. apply Hy. exact Hin.
Qed.

Lemma update_col_settled name g f tr f' i done :
  update_col name g f = (tr, Returned f') ->
  positions_of name bn_n 0 = [i] ->
  (forall xs t ys, g xs = (t, Returned ys) -> Forall not_number ys) ->
  settled done f -> settled (i :: done) f'.
Proof.
  intros H Hp Hg [Hc Hs]. rewrite <- Hc in Hp.
  destruct (update_col_cells _ _ _ _ _ _ H Hp Hg) as [Hc' Hr].
  split; [congruence|]. intros r' Hr' j c Hj Hn.
  destruct (Hr r' Hr') as (r & Hin & Hcells).
  destruct (Hcells j c Hn) as [[_ Hnn]|[Hne Hold]]; [exact Hnn|].
  destruct Hj as [E|Hj]; [congruence|]. eapply Hs; eauto.
Qed.

(** After binning and formatting, no cell under a node name is a number. *)
Lemma encoded_settled f tr1 f1 tr2 f2 tr3 f3 :
  derive_nodes f = (tr1, Returned f1) ->
  bin_columns f1 = (tr2, Returned f2) ->
  format_columns f2 = (tr3, Returned f3) ->
  settled [6; 4; 3; 2; 1; 5; 0]%nat f3.
Proof.
  intros H1 H2 H3.
  assert (S0 : settled [] f1).
  { split; [eapply derive_nodes_columns; exact H1|]. intros r _ j c []. }
  unfold bin_columns in H2.
  apply bind_returned in H2. destruct H2 as (t1 & fa & t2 & Ha & H2 & _).
  apply (update_col_settled _ _ _ _ _ 0%nat []) in Ha;
    [|reflexivity | intros xs t ys; apply cut_not_number | exact S0].
  apply (update_col_settled _ _ _ _ _ 5%nat [0]%nat) in H2;
    [|reflexivity | intros xs t ys; apply cut_not_number | exact Ha].
  unfold format_columns in H3.
  apply bind_returned in H3. destruct H3 as (t3 & fb & t4 & Hb & H3 & _).
  apply bind_returned in H3. destruct H3 as (t5 & fc & t6 & Hc & H3 & _).
  apply bind_returned in H3. destruct H3 as (t7 & fd & t8 & Hd & H3 & _).
  apply bind_returned in H3. destruct H3 as (t9 & fe & t10 & He & H3 & _).
  apply (update_col_settled _ _ _ _ _ 1%nat [5; 0]%nat) in Hb;
    [|reflexivity | intros xs t ys; apply format_not_number | exact H2].
  apply (update_col_settled _ _ _ _ _ 2%nat [1; 5; 0]%nat) in Hc;
    [|reflexivity | intros xs t ys; apply format_not_number | exact Hb].
  apply (update_col_settled _ _ _ _ _ 3%nat [2; 1; 5; 0]%nat) in Hd;
    [|reflexivity | intros xs t ys; apply format_not_number | exact Hc].
  apply (update_col_settled _ _ _ _ _ 4%nat [3; 2; 1; 5; 0]%nat) in He;
    [|reflexivity | intros xs t ys; apply format_not_number | exact Hd].
  apply (update_col_settled _ _ _ _ _ 6%nat [4; 3; 2; 1; 5; 0]%nat)
    in H3;
    [|reflexivity | intros xs t ys; apply format_not_number | exact He].
  exact H3.
Qed.

(** *** Dicts hold what was put into them *)

Lemma dict_set_In {V} k (v : V) d kv :
  In kv (dict_set k v d) -> kv = (k, v) \/ In kv d.
Proof.
  induction d as [|[k' v'] d IH]; simpl.
  - intros [<-|[]]. auto.
  - destruct (k =? k')%string; simpl.
    + intros [<-|H]; auto.
    + intros [<-|H]; [auto|]. apply IH in H. tauto.
Qed.

Lemma dict_of_In {V} (items : list (string * V)) kv :
  In kv (dict_of items) -> In kv items.
Proof.
  unfold dict_of.
  assert (G : forall d, In kv (fold_left (fun d kv => dict_set (fst kv)
                                            (snd kv) d) items d) ->
                        In kv d \/ In kv items).
  { induction items as [|[k v] items IH]; intros d H; simpl in *; [auto|].
    apply IH in H. destruct H as [H|H]; [|auto].
    apply dict_set_In in H. destruct H as [->|H]; auto. }
  intros H. apply G in H. destruct H as [[]|H]. exact H.
Qed.

Lemma record_of_In f kv :
  In kv (record_of f) -> In kv f /\ snd kv <> Str EmptyString.
Proof.
  unfold record_of.
  assert (G : forall f0 d,
    In kv (fold_left (fun d kv => if is_not_empty_str (snd kv)
                        then dict_set (fst kv) (snd kv) d else d) f0 d) ->
    In kv d \/ (In kv f0 /\ snd kv <> Str EmptyString)).
  { induction f0 as [|[k v] f0 IH]; intros d H; simpl in *; [auto|].
    apply IH in H. destruct H as [H|[H1 H2]]; [|auto].
    destruct (is_not_empty_str v) eqn:E; [|auto].
    apply dict_set_In in H. destruct H as [->|H]; [|auto].
    right. split; [auto|]. simpl. intros ->. discriminate. }
  intros H. apply G in H. destruct H as [[]|H]. exact H.
Qed.

Lemma combine_nth_error {A B} (l1 : list A) (l2 : list B) x y :
  In (x, y) (combine l1 l2) ->
  exists j, nth_error l1 j = Some x /\ nth_error l2 j = Some y.
Proof.
  revert l2. induction l1 as [|a l1 IH]; intros [|b l2] H; simpl in H;
    try destruct H.
  - inversion H; subst. exists 0%nat. auto.
  - destruct (IH _ H) as (j & H1 & H2). exists (S j). auto.
Qed.

(** What a returning [encode] returns, record by record. *)
Lemma encode_records f tr evidence :
  encode f = (tr, Returned evidence) ->
  forall id record k v,
    In (id, record) evidence -> In (k, v) record ->
    In k bn_n /\ filled_text v.
Proof.
  unfold encode. intros H id record k v Hrec Hkv.
  apply bind_returned in H. destruct H as (t1 & f1 & t2 & H1 & H & _).
  apply bind_returned in H. destruct H as (t3 & f2 & t4 & H2 & H & _).
  apply bind_returned in H. destruct H as (t5 & f3 & t6 & H3 & H & _).
  rewrite format_index_total, bind_ret_l in H.
  unfold ret in H. inversion H as [[Ht Hev]]. clear H Ht.
  destruct (encoded_settled _ _ _ _ _ _ _ H1 H2 H3) as [Hcols Hcells].
  subst evidence. unfold records in Hrec.
  apply dict_of_In, in_combine_r in Hrec.
  apply in_map_iff in Hrec. destruct Hrec as ([id' d] & <- & Hd).
  cbn [snd] in Hkv. apply record_of_In in Hkv. destruct Hkv as [Hkv Hne].
  cbn [snd] in Hne.
  unfold to_dict_index in Hd. apply dict_of_In in Hd.
  apply in_map_iff in Hd. destruct Hd as ([id2 cells] & E & Hd).
  inversion E; subst id' d. clear E.
  unfold blank_missing in Hd. cbn [i_rows i_columns] in *.
  apply in_map_iff in Hd. destruct Hd as ([id3 cells0] & E & Hd).
  inversion E; subst id2 cells. clear E.
  apply in_map_iff in Hd. destruct Hd as (r & E & Hr).
  inversion E; subst id3 cells0. clear E.
  apply dict_of_In in Hkv. rewrite Hcols in Hkv.
  apply combine_nth_error in Hkv. destruct Hkv as (j & Hj & Hv).
  split; [eapply nth_error_In; exact Hj|].
  rewrite nth_error_map in Hv.
  destruct (nth_error (snd r) j) as [c|] eqn:Ec; [|discriminate].
  simpl in Hv. inversion Hv; subst v. clear Hv.
  assert (Hjin : In j [6; 4; 3; 2; 1; 5; 0]%nat).
  { assert (j < List.length bn_n)%nat.
    { apply nth_error_Some. rewrite Hj. discriminate. }
    simpl in *. lia. }
  pose proof (Hcells r Hr j c Hjin Ec) as Hn.
  destruct c as [|q|s]; simpl in *; [congruence | contradiction|].
  exists s. split; [reflexivity | congruence].
Qed.



End EvidenceValues.

Module EvidenceRun.
Import Py PyFacts Pandas Socios BnEvidence Examples EncoderKeys Silence
  EvidenceWords EvidenceValues Formatting.

(** *** The serialization of the evidence *)

Lemma mapM_returns {A B} (f : A -> M B) xs :
  (forall x, In x xs -> exists y, f x = ret y) ->
  exists ys, mapM f xs = ret ys.
Proof.
  induction xs as [|x xs IH]; intros H; simpl; [eexists; reflexivity|].
  destruct (H x (or_introl eq_refl)) as [y Hy].
  destruct IH as [ys Hys]; [intros; apply H; right; assumption|].
  rewrite Hy, Hys. eexists. reflexivity.
Qed.

Lemma dumps_returns evidence :
  (forall id record k v,
     In (id, record) evidence -> In (k, v) record -> filled_text v) ->
  exists text, Json.dumps evidence = ret text.
Proof.
  intros H. unfold Json.dumps.
  destruct (mapM_returns
              (fun kv => bind (Json.dump_record (snd kv))
                              (fun v => ret (fst kv, v))) evidence)
    as [vs Hvs].
  - intros [id record] Hin. cbn [fst snd]. unfold Json.dump_record.
    destruct (mapM_returns
                (fun kv => bind (Json.dump_cell (snd kv))
                                (fun v => ret (fst kv, v))) record)
      as [ws Hws].
    + intros [k v] Hkv. cbn [fst snd].
      destruct (H id record k v Hin Hkv) as (s & -> & _).
      eexists. reflexivity.
    + rewrite Hws. eexists. reflexivity.
  - rewrite Hvs. eexists. reflexivity.
Qed.

(** X23.  The evidence that [encode] returns can always be serialized:
    every value of a record is text by then, so [json.dump] does not
    raise on it. *)
Theorem evidence_serializable (f : Frame) tr evidence :
  encode f = (tr, Returned evidence) ->
  exists text, Json.dumps evidence = ret text.
Proof.
  intros He. apply dumps_returns. intros id record k v H1 H2.
  exact (proj2 (encode_records _ _ _ He id record k v H1 H2)).
Qed.

Lemma evidence_serializable_witness :
  exists tr evidence,
    encode assembled = (tr, Returned evidence) /\
    exists text, Json.dumps evidence = ret text.
Proof.
  do 2 eexists. split; [vm_compute; reflexivity|].
  eapply (evidence_serializable assembled). vm_compute. reflexivity.
Defined.

(** X24.  A failure of the assembler, of the encoding of its frame, or
    of the opening of the file ends the run of [evidence2000] with that
    exception: the events of the run are those of the assembler, and no
    file is written and no line printed after them. *)
Theorem evidence2000_stops_at_failure
    (bff : list string -> pyyear -> M (Frame * list FeatureQ))
    (dir : string) (can_write : string -> bool) (year : pyyear) tr e :
  bff searchlist year = (tr, Raised e) \/
  (exists data tr', bff searchlist year = (tr, Returned data) /\
                    encode (fst data) = (tr', Raised e)) \/
  (exists data tr' evidence,
     bff searchlist year = (tr, Returned data) /\
     encode (fst data) = (tr', Returned evidence) /\
     can_write (os_path_join (output_dir dir)
                  ("bn_evidence_" +++ year_str year +++ ".txt")) = false /\
     e = OSError) ->
  evidence2000 bff dir can_write year = (tr, Raised e).
Proof.
  intros [Hb|[(data & tr' & Hb & He)|(data & tr' & ev & Hb & He & Hw & ->)]];
    unfold evidence2000; rewrite Hb; [reflexivity| |];
    pose proof (silent_encode (fst data)) as Hs; unfold silent in Hs;
    rewrite He in Hs; simpl in Hs; subst tr'; unfold bind, open_w;
    rewrite He; rewrite ?Hw; simpl; rewrite app_nil_r; reflexivity.
Qed.

Lemma evidence2000_stops_at_failure_witness :
  (exists data tr' evidence,
     assembler searchlist (YInt 2014) = ([], Returned data) /\
     encode (fst data) = (tr', Returned evidence) /\
     no_file (os_path_join (output_dir "/srv/dlr")
                ("bn_evidence_" +++ year_str (YInt 2014) +++ ".txt"))
     = false /\
     OSError = OSError) /\
  evidence2000 assembler "/srv/dlr" no_file (YInt 2014)
  = ([], Raised OSError).
Proof.
  assert (H : exists data tr' evidence,
     assembler searchlist (YInt 2014) = ([], Returned data) /\
     encode (fst data) = (tr', Returned evidence) /\
     no_file (os_path_join (output_dir "/srv/dlr")
                ("bn_evidence_" +++ year_str (YInt 2014) +++ ".txt"))
     = false /\
     OSError = OSError).
  { do 3 eexists. split; [vm_compute; reflexivity|].
    split; [vm_compute; reflexivity|]. split; reflexivity. }
  split; [exact H|].
  exact (evidence2000_stops_at_failure assembler "/srv/dlr" no_file
           (YInt 2014) [] OSError (or_intror (or_intror H))).
Defined.

(** *** One record for each respondent *)

Lemma format_id_text (i : Z) : format_0f_text (inject_Z i) = str_int i.
Proof.
  destruct (Z.ltb_spec i 0) as [Hneg|Hpos]; [|apply format_0f_id; exact Hpos].
  unfold format_0f_text, round_half_even, inject_Z. cbn [Qnum Qden Qopp].
  destruct (Z.ltb_spec i 0); [|lia].
  rewrite Z.div_1_r, Z.mod_1_r. cbn [Z.mul Z.ltb Z.compare].
  destruct i as [|p|p]; try lia. reflexivity.
Qed.

Lemma str_int_inj a b : str_int a = str_int b -> a = b.
Proof.
  unfold str_int. intros H.
  assert (Hn : forall z, Z.to_int z <> Decimal.Pos Decimal.Nil /\
                         Z.to_int z <> Decimal.Neg Decimal.Nil).
  { intros [|p|p]; simpl; split; try discriminate;
      intros E; inversion E as [E'];
      exact (DecimalPos.Unsigned.to_uint_nonnil p E'). }
  assert (E : Some (Z.to_int a) = Some (Z.to_int b)).
  { rewrite <- (NilZero.isi (Z.to_int a)) by apply Hn.
    rewrite <- (NilZero.isi (Z.to_int b)) by apply Hn.
    rewrite H. reflexivity. }
  inversion E as [E'].
  rewrite <- (DecimalZ.of_to a), <- (DecimalZ.of_to b), E'. reflexivity.
Qed.

Lemma NoDup_map_inj {A B} (f : A -> B) l :
  (forall x y, f x = f y -> x = y) -> NoDup l -> NoDup (map f l).
Proof.
  intros Hf H. induction H as [|x l Hx _ IH]; simpl; constructor; [|exact IH].
  intros Hin. apply in_map_iff in Hin. destruct Hin as (y & E & Hy).
  apply Hf in E. subst. contradiction.
Qed.

Lemma dict_set_fresh {V} k (v : V) d :
  ~ In k (map fst d) -> dict_set k v d = d ++ [(k, v)].
Proof.
  induction d as [|[k' v'] d IH]; simpl; intros H; [reflexivity|].
  destruct (String.eqb_spec k k') as [->|N]; [exfalso; auto|].
  rewrite IH by tauto. reflexivity.
Qed.

(** With distinct keys, a dict built from items is the items in order. *)
Lemma dict_of_NoDup {V} (items : list (string * V)) :
  NoDup (map fst items) -> dict_of items = items.
Proof.
  unfold dict_of.
  assert (G : forall d, NoDup (map fst d ++ map fst items) ->
    fold_left (fun d kv => dict_set (fst kv) (snd kv) d) items d = d ++ items).
  { induction items as [|[k v] items IH]; intros d H; simpl.
    - now rewrite app_nil_r.
    - simpl in H. rewrite dict_set_fresh.
      + rewrite IH; [now rewrite <- app_assoc|].
        rewrite map_app. simpl. rewrite <- app_assoc. exact H.
      + apply NoDup_remove_2 in H. intros Hin. apply H.
        apply in_or_app. left. exact Hin. }
  intros H. apply (G []). exact H.
Qed.

(** Beyond 53 bits the format loses the low bits of an identifier: two
    respondents can come under one key. *)
Lemma format_index_collision :
  format_0f_text (inject_Z (float_of_int (2 ^ 53 + 1)))
  = format_0f_text (inject_Z (float_of_int (2 ^ 53))).
Proof. vm_compute. reflexivity. Qed.

(** X25.  For a frame without a repeated identifier, and with identifiers
    of at most 53 bits (which a float holds exactly), the evidence that
    [encode] returns has one record for each row, in the order of the
    rows, under the decimal text of the identifier; different respondents
    have different keys. *)
Theorem evidence_one_record_each (f : Frame) tr evidence :
  encode f = (tr, Returned evidence) ->
  NoDup (keys f) ->
  (forall k, In k (keys f) -> Z.abs k <= 2 ^ 53) ->
  map fst evidence = map str_int (keys f) /\ NoDup (map fst evidence).
Proof.
  unfold encode. intros H Hnd Hsmall.
  apply bind_returned in H. destruct H as (t1 & f1 & t2 & H1 & H & _).
  apply bind_returned in H. destruct H as (t3 & f2 & t4 & H2 & H & _).
  apply bind_returned in H. destruct H as (t5 & f3 & t6 & H3 & H & _).
  rewrite format_index_total, bind_ret_l in H.
  unfold ret in H. inversion H as [[Ht Hev]]. clear H Ht.
  apply derive_nodes_keys in H1. apply bin_columns_keys in H2.
  apply format_columns_keys in H3.
  assert (Hk : keys f3 = keys f) by congruence. clear H1 H2 H3.
  assert (Hs : NoDup (map str_int (keys f))).
  { apply NoDup_map_inj; [apply str_int_inj | exact Hnd]. }
  subst evidence. unfold records, to_dict_index, blank_missing.
  cbn [i_rows i_columns].
  set (items := map (fun r => (fst r, dict_of (combine (columns f3) (snd r))))
                    (map (fun r => (fst r, map (replace_nan (Str EmptyString))
                                               (snd r)))
                         (map (fun r =>
                                 (format_0f_text
                                    (inject_Z (float_of_int (fst r))),
                                  snd r)) (rows f3)))).
  assert (Hi : map fst items = map str_int (keys f)).
  { unfold items. rewrite !map_map. cbn [fst]. rewrite <- Hk in *.
    unfold keys. rewrite map_map. apply map_ext_in. intros r Hr.
    rewrite float_of_int_exact; [apply format_id_text|].
    apply Hsmall. unfold keys. apply in_map. exact Hr. }
  rewrite (dict_of_NoDup items) by (rewrite Hi; exact Hs).
  assert (Hc : map fst (combine (map fst items)
                          (map (fun kv => record_of (snd kv)) items))
               = map fst items).
  { apply map_fst_combine. now rewrite !length_map. }
  rewrite dict_of_NoDup by (rewrite Hc, Hi; exact Hs).
  rewrite Hc, Hi. split; [reflexivity | exact Hs].
Qed.

Lemma evidence_one_record_each_witness :
  exists tr evidence,
    encode assembled = (tr, Returned evidence) /\
    NoDup (keys assembled) /\
    (forall k, In k (keys assembled) -> Z.abs k <= 2 ^ 53) /\
    map fst evidence = map str_int (keys assembled) /\
    NoDup (map fst evidence).
Proof.
  assert (Hn : NoDup (keys assembled)).
  { unfold keys. simpl.
    repeat (constructor; [simpl; intuition discriminate|]). constructor. }
  assert (Hs : forall k, In k (keys assembled) -> Z.abs k <= 2 ^ 53).
  { intros k Hk. simpl in Hk. destruct Hk as [<-|[<-|[]]]; simpl; lia. }
  do 2 eexists. split; [vm_compute; reflexivity|]. split; [exact Hn|].
  split; [exact Hs|].
  refine (evidence_one_record_each assembled _ _ _ Hn Hs).
  vm_compute. reflexivity.
Defined.

End EvidenceRun.

Module YearText.
Import Py PyFacts Pandas PandasFacts Socios Examples SociosQueries
  FeatureAssembler CheckAnswerFacts.

(** *** [int(str(y))] *)

Lemma digit_not_space c : is_digit c = true -> is_space c = false.
Proof.
  destruct c as [[] [] [] [] [] [] [] []]; intros H; try discriminate H;
    reflexivity.
Qed.

Lemma lstrip_digits l : Forall (fun c => is_digit c = true) l -> lstrip l = l.
Proof.
  intros H. destruct H as [|c l Hc _]; [reflexivity|].
  simpl. now rewrite (digit_not_space c Hc).
Qed.

Lemma strip_digits l : Forall (fun c => is_digit c = true) l -> strip l = l.
Proof.
  intros H. unfold strip. rewrite (lstrip_digits l H).
  rewrite lstrip_digits; [apply rev_involutive|].
  apply Forall_rev. exact H.
Qed.

(** The value of a numeral read from the left, after [acc]. *)
Lemma uint_chars (u : Decimal.uint) :
  Forall (fun c => is_digit c = true)
         (list_ascii_of_string (NilEmpty.string_of_uint u)).
Proof. induction u; simpl; constructor; auto. Qed.

Lemma int_digits_acc (u : Decimal.uint) : forall acc,
  int_digits (Z.pos acc) true
             (list_ascii_of_string (NilEmpty.string_of_uint u))
  = Some (Z.pos (Pos.of_uint_acc u acc)).
Proof.
  induction u as [|u IH|u IH|u IH|u IH|u IH|u IH|u IH|u IH|u IH|u IH];
    intros acc; [reflexivity|..];
    cbn [NilEmpty.string_of_uint list_ascii_of_string int_digits
         Pos.of_uint_acc];
    match goal with
    | |- context [is_digit ?c] =>
        change (is_digit c) with true; cbv iota;
        let v := eval vm_compute in (digit_value c) in
        change (digit_value c) with v
    end;
    rewrite <- IH; f_equal; lia.
Qed.

Lemma int_digits_zero (u : Decimal.uint) : forall b p,
  Pos.of_uint u = N.pos p ->
  int_digits 0 b (list_ascii_of_string (NilEmpty.string_of_uint u))
  = Some (Z.pos p).
Proof.
  induction u as [|u IH|u IH|u IH|u IH|u IH|u IH|u IH|u IH|u IH|u IH];
    intros b p H; [discriminate H|..];
    cbn [NilEmpty.string_of_uint list_ascii_of_string int_digits
         Pos.of_uint] in *;
    match goal with
    | |- context [is_digit ?c] =>
        change (is_digit c) with true; cbv iota;
        let v := eval vm_compute in (10 * 0 + digit_value c) in
        change (10 * 0 + digit_value c) with v
    end;
    [ apply IH; exact H
    | injection H as <-; apply int_digits_acc .. ].
Qed.

(** Reading back the decimal text of a positive number gives the number. *)
Lemma py_int_str_int (y : Z) : 0 < y -> py_int (str_int y) = ret y.
Proof.
  intros Hy. destruct y as [|p|p]; try lia.
  unfold py_int, str_int. cbn [Z.to_int NilZero.string_of_int].
  assert (Hn : Pos.to_uint p <> Decimal.Nil).
  { intros E. pose proof (DecimalPos.Unsigned.of_to p) as H.
    rewrite E in H. discriminate H. }
  assert (Hs : NilZero.string_of_uint (Pos.to_uint p)
               = NilEmpty.string_of_uint (Pos.to_uint p)).
  { destruct (Pos.to_uint p); [congruence | reflexivity ..]. }
  rewrite Hs. rewrite (strip_digits _ (uint_chars _)).
  pose proof (uint_chars (Pos.to_uint p)) as Hd.
  pose proof (int_digits_zero (Pos.to_uint p) false p
                (DecimalPos.Unsigned.of_to p)) as Hv.
  destruct (list_ascii_of_string (NilEmpty.string_of_uint (Pos.to_uint p)))
    as [|c r] eqn:E.
  - discriminate Hv.
  - assert (Hc : is_digit c = true) by now inversion Hd.
    clear Hd E.
    destruct c as [[] [] [] [] [] [] [] []]; try discriminate Hc;
      cbv iota; rewrite Hv; reflexivity.
Qed.

Lemma filter_at_first {A} (p : A -> bool) pre x post :
  (forall y, In y pre -> p y = false) -> p x = true ->
  filter p (pre ++ x :: post) = x :: filter p post.
Proof.
  intros Hpre Hx. rewrite filter_app. rewrite (filter_nil p pre Hpre).
  simpl. rewrite Hx. reflexivity.
Qed.

(** X14.  [checkAnswer] finds a respondent of a dated survey: when the
    first link row of a non-zero respondent names a non-zero group, the
    first group of that id carries its year as plain decimal text, and the
    feature frame of that year can be assembled, the call returns without
    printing, and the frame it returns has the columns of the feature
    frame and at least one row, all rows being rows of the respondent. *)
Theorem checkAnswer_finds_respondent (T : Tables) (answerid : Z)
    (features : list string) (y : Z) l g before_l after_l before_g after_g
    data fq tr :
  answerid <> 0 ->
  links T = before_l ++ l :: after_l ->
  (forall l', In l' before_l -> l_AnswerID l' <> answerid) ->
  l_AnswerID l = answerid ->
  l_GroupID l <> 0 ->
  groups T = before_g ++ g :: after_g ->
  (forall g', In g' before_g -> g_GroupID g' <> l_GroupID l) ->
  g_GroupID g = l_GroupID l ->
  0 < y ->
  g_Year g = str_int y ->
  featureFrame T features (YInt y) = (tr, Returned (data, fq)) ->
  exists res,
    checkAnswer T answerid features = ret res /\
    columns res = columns data /\
    rows res <> [] /\
    forall r, In r (rows res) -> In r (rows data) /\ fst r = answerid.
Proof.
  intros Ha Hl Hbl Hl1 Hgl Hg Hbg Hg1 Hy Hyear Hf.
  pose proof (AssemblerMore.featureFrame_returned_silent _ _ _ _ _ _ Hf).
  subst tr.
  exists (mkFrame (columns data)
                  (filter (fun r => fst r =? answerid) (rows data))).
  split; [|split; [reflexivity|split]].
  - unfold checkAnswer. rewrite Hl.
    rewrite filter_at_first;
      [| intros l' Hl'; apply Z.eqb_neq, Hbl, Hl'
       | apply Z.eqb_eq; exact Hl1].
    rewrite Hg.
    rewrite filter_at_first;
      [| intros g' Hg'; apply Z.eqb_neq, Hbg, Hg'
       | apply Z.eqb_eq; exact Hg1].
    rewrite Hyear, (py_int_str_int y Hy). rewrite bind_ret_l.
    rewrite Hf. unfold ret. simpl. rewrite loc_mask_self. reflexivity.
  - assert (Hk : In answerid (keys data)).
    { apply featureFrame_start in Hf. destruct Hf as (ids & tr' & Hid & H).
      apply featureFrame_loop_inv in H. destruct H as (_ & HK & _).
      apply HK. rewrite keys_start.
      unfold loadID in Hid. simpl in Hid. unfold ret in Hid.
      inversion Hid; subst ids. clear Hid.
      apply unique_In. rewrite <- Hl1. apply in_map.
      apply filter_In. split.
      - apply filter_In. split.
        + rewrite Hl. apply in_or_app. right. left. reflexivity.
        + apply andb_true_iff. split; apply negb_true_iff, Z.eqb_neq;
            congruence.
      - apply mem_In. rewrite <- Hg1. apply in_map. apply filter_In. split.
        + rewrite Hg. apply in_or_app. right. left. reflexivity.
        + apply String.eqb_eq. exact Hyear. }
    unfold keys in Hk. apply in_map_iff in Hk. destruct Hk as (r & Hr & Hin).
    simpl. intros E.
    assert (Hin' : In r (filter (fun r => fst r =? answerid) (rows data))).
    { apply filter_In. split; [exact Hin | apply Z.eqb_eq; exact Hr]. }
    rewrite E in Hin'. destruct Hin'.
  - simpl. intros r Hr. apply filter_In in Hr. destruct Hr as [Hr He].
    split; [exact Hr | apply Z.eqb_eq; exact He].
Qed.

Lemma checkAnswer_finds_respondent_witness :
  exists l g after_l after_g,
    links store = [] ++ l :: after_l /\
    groups store = [] ++ g :: after_g /\
    featureFrame store ["roof"; "wall"] (YInt 2014)
      = ([], Returned (assembled_2014, featureqs_2014)) /\
    exists res,
      checkAnswer store 10 ["roof"; "wall"] = ret res /\
      columns res = columns assembled_2014 /\
      rows res <> [] /\
      forall r, In r (rows res) -> In r (rows assembled_2014) /\ fst r = 10.
Proof.
  exists (mkLink 1 10 100), (mkGroup 1 "2014" "1 Site A").
  exists [mkLink 1 11 101; mkLink 1 10 100; mkLink 0 12 102;
          mkLink 2 20 200; mkLink 1 0 103].
  exists [mkGroup 2 "1998" "2 Site B"].
  split; [reflexivity|]. split; [reflexivity|].
  split; [vm_compute; reflexivity|].
  apply (checkAnswer_finds_respondent store 10 ["roof"; "wall"] 2014
           (mkLink 1 10 100) (mkGroup 1 "2014" "1 Site A")
           []
           [mkLink 1 11 101; mkLink 1 10 100; mkLink 0 12 102;
            mkLink 2 20 200; mkLink 1 0 103]
           [] [mkGroup 2 "1998" "2 Site B"]
           assembled_2014 featureqs_2014 []).
  - discriminate.
  - reflexivity.
  - intros l' [].
  - reflexivity.
  - discriminate.
  - reflexivity.
  - intros g' [].
  - reflexivity.
  - lia.
  - reflexivity.
  - vm_compute. reflexivity.
Defined.

End YearText.

Module FrameColumns.
Import Py PyFacts Pandas Socios BnEvidence Examples EncoderKeys
  EvidenceWords.

(** *** One column of a frame under the node names *)

Lemma mapM_pointwise {A B} (f : A -> M B) xs :
  (forall x, In x xs -> exists y, f x = ret y) ->
  exists ys, mapM f xs = ret ys /\ Forall2 (fun x y => f x = ret y) xs ys.
Proof.
  induction xs as [|x xs IH]; intros H.
  - exists []. split; [reflexivity | constructor].
  - destruct (H x (or_introl eq_refl)) as [y Hy].
    destruct IH as (ys & Hys & HF); [intros; apply H; right; assumption|].
    exists (y :: ys). split; [|constructor; assumption].
    cbn [mapM]. rewrite Hy, bind_ret_l, Hys, bind_ret_l. reflexivity.
Qed.

Lemma map_snd_combine {A B} (l1 : list A) (l2 : list B) :
  List.length l1 = List.length l2 -> map snd (combine l1 l2) = l2.
Proof.
  revert l2. induction l1 as [|a l1 IH]; intros [|b l2] H; simpl in *;
    try discriminate; [reflexivity|].
  f_equal. apply IH. congruence.
Qed.

Lemma set_nth_length {A} i (v : A) l :
  List.length (set_nth i v l) = List.length l.
Proof.
  revert i. induction l as [|x l IH]; intros [|i]; simpl; auto.
Qed.

Lemma nth_set_nth_same {A} i (v d : A) l :
  (i < List.length l)%nat -> nth i (set_nth i v l) d = v.
Proof.
  revert i. induction l as [|x l IH]; intros [|i] H; simpl in *;
    try lia; [reflexivity|]. apply IH. lia.
Qed.

Lemma nth_set_nth_other {A} i j (v d : A) l :
  i <> j -> nth j (set_nth i v l) d = nth j l d.
Proof.
  revert i j. induction l as [|x l IH]; intros [|i] [|j] H; simpl;
    try reflexivity; try congruence. apply IH. congruence.
Qed.

Lemma get_col_at name f i :
  positions_of name (columns f) 0 = [i] ->
  get_col name f = ret (column_at i f).
Proof. intros H. unfold get_col. rewrite H. reflexivity. Qed.

(** Replacing the column at position [i] of a frame of seven columns:
    the new frame has the new cells there and the old ones elsewhere. *)
Lemma update_col_exact name g f i ys :
  seven_wide f ->
  positions_of name bn_n 0 = [i] ->
  (i < 7)%nat ->
  g (column_at i f) = ret ys ->
  List.length ys = List.length (rows f) ->
  exists f',
    update_col name g f = ret f' /\
    seven_wide f' /\
    keys f' = keys f /\
    column_at i f' = ys /\
    forall j, j <> i -> column_at j f' = column_at j f.
Proof.
  intros [Hc Hw] Hp Hi Hg Hl.
  assert (Hp' : positions_of name (columns f) 0 = [i]) by now rewrite Hc.
  exists (set_col name ys f).
  split.
  { unfold update_col. rewrite (get_col_at _ _ _ Hp'), bind_ret_l.
    rewrite Hg, bind_ret_l. reflexivity. }
  split; [|split; [apply set_col_keys; exact Hl|]].
  - unfold set_col. rewrite Hp'. split; [exact Hc|].
    cbn [rows]. intros r Hr. apply in_map_iff in Hr.
    destruct Hr as ([r0 y] & <- & Hin). cbn [fst snd].
    rewrite set_nth_length. apply Hw. eapply in_combine_l. exact Hin.
  - unfold set_col, column_at. rewrite Hp'. cbn [rows].
    rewrite map_map. cbn [fst snd]. split.
    + transitivity (map snd (combine (rows f) ys));
        [|apply map_snd_combine; congruence].
      apply map_ext_in. intros [r y] Hin. cbn [fst snd].
      apply nth_set_nth_same. rewrite (Hw r); [exact Hi|].
      eapply in_combine_l. exact Hin.
    + intros j Hj. rewrite map_map. cbn [fst snd].
      transitivity (map (fun r => nth j (snd r) NaN)
                        (map fst (combine (rows f) ys))).
      * rewrite (map_map fst). apply map_ext. intros [r y]. cbn [fst snd].
        apply nth_set_nth_other. congruence.
      * rewrite map_fst_combine by congruence. reflexivity.
Qed.

(** *** [pd.cut] on a column, value by value *)

Lemma cut_one x bins labels r il y :
  cut [x] bins labels r il = ret [y] -> cut_value bins labels r il x = ret y.
Proof.
  unfold cut. destruct (negb _); [discriminate|].
  destruct (negb _); [discriminate|].
  cbn [mapM]. destruct (cut_value bins labels r il x) as [t [y'|e]];
    simpl; intros H; inversion H as [[Ht Hy]].
  rewrite app_nil_r in Ht. subst. reflexivity.
Qed.

Lemma cut_pointwise xs bins labels r il :
  increasing bins = true ->
  (List.length labels =? List.length bins - 1)%nat = true ->
  (forall x, In x xs -> exists y, cut [x] bins labels r il = ret [y]) ->
  exists ys,
    cut xs bins labels r il = ret ys /\
    Forall2 (fun x y => cut [x] bins labels r il = ret [y]) xs ys.
Proof.
  intros Hi Hl H.
  destruct (mapM_pointwise (cut_value bins labels r il) xs) as (ys & E & HF).
  { intros x Hx. destruct (H x Hx) as [y Hy]. exists y.
    apply cut_one. exact Hy. }
  exists ys. split.
  - unfold cut. rewrite Hi, Hl. exact E.
  - clear E H. induction HF as [|x y xs ys Hxy _ IH]; constructor; auto.
    unfold cut. rewrite Hi, Hl. cbn [negb mapM].
    rewrite Hxy, bind_ret_l. reflexivity.
Qed.

Lemma income_cut_total c :
  not_text c ->
  exists y, cut [c] income_bins income_labels false true = ret [y].
Proof.
  destruct c as [|x|s]; intros H; [| |contradiction].
  - exists NaN. reflexivity.
  - destruct (Binning.income_cut x) as (_&_&_&_&_&_&_&_&_&_& y & Hy & _).
    exists y. exact Hy.
Qed.

Lemma floor_area_cut_total c :
  not_text c ->
  exists y, cut [c] floorarea_bins floorarea_labels true false = ret [y].
Proof.
  destruct c as [|x|s]; intros H; [| |contradiction].
  - exists NaN. reflexivity.
  - destruct (FloorArea.floor_area_cut x) as (B1 & B2 & B3 & B4 & B5 & B6 & _).
    destruct (Qlt_le_dec 0 x) as [?|?]; [|eexists; apply B6; auto].
    destruct (Qlt_le_dec 50 x) as [?|?]; [|eexists; apply B1; auto].
    destruct (Qlt_le_dec 80 x) as [?|?]; [|eexists; apply B2; auto].
    destruct (Qlt_le_dec 150 x) as [?|?]; [|eexists; apply B3; auto].
    destruct (Qlt_le_dec 250 x) as [?|?]; [|eexists; apply B4; auto].
    destruct (Qlt_le_dec 500 x) as [?|?]; [|eexists; apply B5; auto].
    eexists; apply B6; auto.
Qed.

(** Lines 44 and 45 on a frame of the seven nodes whose income and floor
    area are numbers or missing: the two columns are cut value by value,
    and the other five are left as they are. *)
Lemma bin_columns_exact f :
  seven_wide f ->
  Forall not_text (column_at 0 f) ->
  Forall not_text (column_at 5 f) ->
  exists f',
    bin_columns f = ret f' /\
    seven_wide f' /\
    keys f' = keys f /\
    Forall2 (fun x y => cut [x] income_bins income_labels false true
                        = ret [y])
            (column_at 0 f) (column_at 0 f') /\
    Forall2 (fun x y => cut [x] floorarea_bins floorarea_labels true false
                        = ret [y])
            (column_at 5 f) (column_at 5 f') /\
    forall j, j <> 0%nat -> j <> 5%nat -> column_at j f' = column_at j f.
Proof.
  intros Hw H0 H5.
  destruct (cut_pointwise (column_at 0 f) income_bins income_labels
              false true eq_refl eq_refl) as (ys & Ey & Fy).
  { intros x Hx. apply income_cut_total.
    rewrite Forall_forall in H0. apply H0. exact Hx. }
  destruct (update_col_exact "monthly_income"
              (fun xs => cut xs income_bins income_labels false true)
              f 0%nat ys Hw eq_refl ltac:(lia) Ey)
    as (f1 & E1 & Hw1 & Hk1 & Hc1 & Ho1).
  { rewrite <- (Forall2_length Fy). unfold column_at. apply length_map. }
  destruct (cut_pointwise (column_at 5 f1) floorarea_bins floorarea_labels
              true false eq_refl eq_refl) as (zs & Ez & Fz).
  { intros x Hx. apply floor_area_cut_total.
    rewrite Ho1 in Hx by lia.
    rewrite Forall_forall in H5. apply H5. exact Hx. }
  destruct (update_col_exact "floor_area"
              (fun xs => cut xs floorarea_bins floorarea_labels true false)
              f1 5%nat zs Hw1 eq_refl ltac:(lia) Ez)
    as (f2 & E2 & Hw2 & Hk2 & Hc2 & Ho2).
  { rewrite <- (Forall2_length Fz). unfold column_at. apply length_map. }
  exists f2. split.
  { unfold bin_columns. rewrite E1, bind_ret_l. exact E2. }
  split; [exact Hw2|]. split; [congruence|].
  split; [rewrite Ho2, Hc1 by lia; exact Fy|].
  split; [rewrite Hc2; rewrite Ho1 in Fz by lia; exact Fz|].
  intros j J0 J5. rewrite Ho2, Ho1 by lia. reflexivity.
Qed.

(** *** The format on a column *)

Lemma format_col_exact name i f :
  seven_wide f ->
  positions_of name bn_n 0 = [i] ->
  (i < 7)%nat ->
  Forall not_text (column_at i f) ->
  exists f',
    update_col name (series_map format_0f NaNone) f = ret f' /\
    seven_wide f' /\
    keys f' = keys f /\
    Forall2 (fun x y => match x with
                        | NaN => y = Str "nan"
                        | Num q => y = Str (format_0f_text q)
                        | Str _ => False
                        end) (column_at i f) (column_at i f') /\
    forall j, j <> i -> column_at j f' = column_at j f.
Proof.
  intros Hw Hp Hi Hn.
  destruct (mapM_pointwise format_0f (column_at i f)) as (ys & E & _).
  { intros x Hx. rewrite Forall_forall in Hn. specialize (Hn x Hx).
    destruct x as [|q|s]; [eexists; reflexivity.. | contradiction]. }
  assert (E' : series_map format_0f NaNone (column_at i f) = ret ys).
  { unfold series_map. exact E. }
  pose proof (series_map_format_cells _ _ _ E') as HF.
  destruct (update_col_exact name (series_map format_0f NaNone) f i ys
              Hw Hp Hi E') as (f' & E1 & Hw1 & Hk1 & Hc1 & Ho1).
  { rewrite <- (Forall2_length HF). unfold column_at. apply length_map. }
  exists f'. split; [exact E1|]. split; [exact Hw1|]. split; [exact Hk1|].
  split; [rewrite Hc1; exact HF | exact Ho1].
Qed.

(** Lines 47 to 51 on a frame of the seven nodes whose five code columns
    are numbers or missing: each of them is formatted cell by cell, and
    income and floor area are left as they are. *)
Lemma format_columns_exact f :
  seven_wide f ->
  (forall i, In i [1; 2; 3; 4; 6]%nat -> Forall not_text (column_at i f)) ->
  exists f',
    format_columns f = ret f' /\
    seven_wide f' /\
    keys f' = keys f /\
    (forall i, In i [1; 2; 3; 4; 6]%nat ->
       Forall2 (fun x y => match x with
                           | NaN => y = Str "nan"
                           | Num q => y = Str (format_0f_text q)
                           | Str _ => False
                           end) (column_at i f) (column_at i f')) /\
    column_at 0 f' = column_at 0 f /\
    column_at 5 f' = column_at 5 f.
Proof.
  intros Hw Hn.
  destruct (format_col_exact "water_access" 1 f Hw eq_refl ltac:(lia))
    as (f1 & E1 & Hw1 & Hk1 & F1 & O1); [apply Hn; simpl; auto|].
  destruct (format_col_exact "roof_material" 2 f1 Hw1 eq_refl ltac:(lia))
    as (f2 & E2 & Hw2 & Hk2 & F2 & O2).
  { rewrite O1 by lia. apply Hn; simpl; auto. }
  destruct (format_col_exact "wall_material" 3 f2 Hw2 eq_refl ltac:(lia))
    as (f3 & E3 & Hw3 & Hk3 & F3 & O3).
  { rewrite O2, O1 by lia. apply Hn; simpl; auto. }
  destruct (format_col_exact "cb_size" 4 f3 Hw3 eq_refl ltac:(lia))
    as (f4 & E4 & Hw4 & Hk4 & F4 & O4).
  { rewrite O3, O2, O1 by lia. apply Hn; simpl; auto. }
  destruct (format_col_exact "geyser_nr" 6 f4 Hw4 eq_refl ltac:(lia))
    as (f5 & E5 & Hw5 & Hk5 & F5 & O5).
  { rewrite O4, O3, O2, O1 by lia. apply Hn; simpl; auto 6. }
  exists f5. split.
  { unfold format_columns. cbv zeta.
    rewrite E1, bind_ret_l, E2, bind_ret_l, E3, bind_ret_l, E4, bind_ret_l.
    exact E5. }
  split; [exact Hw5|]. split; [congruence|].
  split; [|split; rewrite O5, O4, O3, O2, O1 by lia; reflexivity].
  intros i [<-|[<-|[<-|[<-|[<-|[]]]]]].
  - rewrite O5, O4, O3, O2 by lia. exact F1.
  - rewrite O5, O4, O3 by lia. rewrite O1 in F2 by lia. exact F2.
  - rewrite O5, O4 by lia. rewrite O2, O1 in F3 by lia. exact F3.
  - rewrite O5 by lia. rewrite O3, O2, O1 in F4 by lia. exact F4.
  - rewrite O4, O3, O2, O1 in F5 by lia. exact F5.
Qed.

End FrameColumns.

Module BinnedColumns.
Import Py PyFacts Pandas Socios BnEvidence Examples MoreExamples EncoderKeys
  EvidenceWords FrameColumns.

Lemma ret_inj {A} (a b : A) : @ret A a = ret b -> a = b.
Proof. unfold ret. intros H. inversion H. reflexivity. Qed.

Lemma cut_same x bins labels r il y z :
  cut [x] bins labels r il = ret [y] ->
  cut [x] bins labels r il = ret [z] -> z = y.
Proof. intros H1 H2. rewrite H1 in H2. apply ret_inj in H2. congruence. Qed.

(** C4.  Lines 44 and 45 bin the column [monthly_income] of the frame
    value by value, and never raise on a frame of the seven nodes whose
    income and floor area are numbers or missing: every income falls into
    the bin whose lower edge it reaches and whose upper edge it stays
    under, and gets that bin's label; an income under 0 or from 500000 on
    becomes missing, and a missing one stays missing. *)
Theorem income_binning (f : Frame) (incomes areas : list cell) :
  seven_wide f ->
  get_col "monthly_income" f = ret incomes ->
  get_col "floor_area" f = ret areas ->
  Forall not_text incomes ->
  Forall not_text areas ->
  exists f' incomes',
    bin_columns f = ret f' /\
    keys f' = keys f /\
    get_col "monthly_income" f' = ret incomes' /\
    Forall2 (fun c c' =>
               match c with
               | Num x =>
                   ((0 <= x < 1800)%Q -> c' = Str "R0-R1799") /\
                   ((1800 <= x < 3200)%Q -> c' = Str "R1800-R3199") /\
                   ((3200 <= x < 7800)%Q -> c' = Str "R3200-R7799") /\
                   ((7800 <= x < 11600)%Q -> c' = Str "R7800-R11599") /\
                   ((11600 <= x < 19116)%Q -> c' = Str "R11600-R19115") /\
                   ((19116 <= x < 24500)%Q -> c' = Str "R19116-R24499") /\
                   ((24500 <= x < 65600)%Q -> c' = Str "R24500-R65499") /\
                   ((65600 <= x < 500000)%Q -> c' = Str "+R65500") /\
                   ((x < 0 \/ 500000 <= x)%Q -> c' = NaN)
               | _ => c' = NaN
               end) incomes incomes'.
Proof.
  intros Hw Hi Ha Hni Hna.
  pose proof Hw as [Hc _].
  rewrite (get_col_at "monthly_income" f 0) in Hi by (rewrite Hc; reflexivity).
  rewrite (get_col_at "floor_area" f 5) in Ha by (rewrite Hc; reflexivity).
  apply ret_inj in Hi, Ha. subst incomes areas.
  destruct (bin_columns_exact f Hw Hni Hna)
    as (f' & E & Hw' & Hk & F0 & _ & _).
  exists f', (column_at 0 f'). split; [exact E|]. split; [exact Hk|].
  split.
  { apply get_col_at. destruct Hw' as [-> _]. reflexivity. }
  clear - F0 Hni.
  induction F0 as [|x y xs ys Hxy _ IH]; constructor.
  - destruct x as [|v|s].
    + apply (cut_same NaN income_bins income_labels false true NaN y);
        [reflexivity | exact Hxy].
    + destruct (Binning.income_cut v)
        as (B1 & B2 & B3 & B4 & B5 & B6 & B7 & B8 & B9 & _).
      repeat split; intros Hv;
        [ apply B1 in Hv | apply B2 in Hv | apply B3 in Hv | apply B4 in Hv
        | apply B5 in Hv | apply B6 in Hv | apply B7 in Hv | apply B8 in Hv
        | apply B9 in Hv ];
        exact (cut_same _ _ _ _ _ _ _ Hv Hxy).
    + inversion Hni; contradiction.
  - apply IH. inversion Hni; assumption.
Qed.

(** The frame of the example, after the derivation of the nodes. *)
Lemma derived_from_assembled : derive_nodes assembled = ret derived.
Proof. vm_compute. reflexivity. Qed.

Lemma binned_from_derived : bin_columns derived = ret binned.
Proof. vm_compute. reflexivity. Qed.

Lemma seven_wide_derived : seven_wide derived.
Proof. split; [reflexivity|]. intros r [<-|[<-|[]]]; reflexivity. Qed.

Lemma income_binning_witness :
  seven_wide derived /\
  get_col "monthly_income" derived = ret [n 5000; NaN] /\
  get_col "floor_area" derived = ret [n 90; n 45] /\
  Forall not_text [n 5000; NaN] /\
  Forall not_text [n 90; n 45] /\
  exists f' incomes',
    bin_columns derived = ret f' /\
    keys f' = keys derived /\
    get_col "monthly_income" f' = ret incomes' /\
    Forall2 (fun c c' =>
               match c with
               | Num x =>
                   ((0 <= x < 1800)%Q -> c' = Str "R0-R1799") /\
                   ((1800 <= x < 3200)%Q -> c' = Str "R1800-R3199") /\
                   ((3200 <= x < 7800)%Q -> c' = Str "R3200-R7799") /\
                   ((7800 <= x < 11600)%Q -> c' = Str "R7800-R11599") /\
                   ((11600 <= x < 19116)%Q -> c' = Str "R11600-R19115") /\
                   ((19116 <= x < 24500)%Q -> c' = Str "R19116-R24499") /\
                   ((24500 <= x < 65600)%Q -> c' = Str "R24500-R65499") /\
                   ((65600 <= x < 500000)%Q -> c' = Str "+R65500") /\
                   ((x < 0 \/ 500000 <= x)%Q -> c' = NaN)
               | _ => c' = NaN
               end) [n 5000; NaN] incomes'.
Proof.
  assert (H1 : get_col "monthly_income" derived = ret [n 5000; NaN])
    by reflexivity.
  assert (H2 : get_col "floor_area" derived = ret [n 90; n 45])
    by reflexivity.
  assert (H3 : Forall not_text [n 5000; NaN]) by (repeat constructor).
  assert (H4 : Forall not_text [n 90; n 45]) by (repeat constructor).
  split; [exact seven_wide_derived|]. split; [exact H1|].
  split; [exact H2|]. split; [exact H3|]. split; [exact H4|].
  exact (income_binning derived [n 5000; NaN] [n 90; n 45]
           seven_wide_derived H1 H2 H3 H4).
Defined.

(** X19.  Line 45 bins the column [floor_area] of the frame value by
    value, into ranges that are open on the left and closed on the
    right: an area above an edge and up to the next gets the label of
    the two; an area of 0 or less, or above 500, becomes missing, and a
    missing one stays missing.  The five code columns come out of the
    binning as they went in. *)
Theorem floor_area_binning (f : Frame) (incomes areas : list cell) :
  seven_wide f ->
  get_col "monthly_income" f = ret incomes ->
  get_col "floor_area" f = ret areas ->
  Forall not_text incomes ->
  Forall not_text areas ->
  exists f' areas',
    bin_columns f = ret f' /\
    get_col "floor_area" f' = ret areas' /\
    Forall2 (fun c c' =>
               match c with
               | Num x =>
                   ((0 < x <= 50)%Q -> c' = Str "0-50") /\
                   ((50 < x <= 80)%Q -> c' = Str "50-80") /\
                   ((80 < x <= 150)%Q -> c' = Str "80-150") /\
                   ((150 < x <= 250)%Q -> c' = Str "150-250") /\
                   ((250 < x <= 500)%Q -> c' = Str "250-500") /\
                   ((x <= 0 \/ 500 < x)%Q -> c' = NaN)
               | _ => c' = NaN
               end) areas areas' /\
    forall name, In name code_nodes -> get_col name f' = get_col name f.
Proof.
  intros Hw Hi Ha Hni Hna.
  pose proof Hw as [Hc _].
  rewrite (get_col_at "monthly_income" f 0) in Hi by (rewrite Hc; reflexivity).
  rewrite (get_col_at "floor_area" f 5) in Ha by (rewrite Hc; reflexivity).
  apply ret_inj in Hi, Ha. subst incomes areas.
  destruct (bin_columns_exact f Hw Hni Hna)
    as (f' & E & Hw' & Hk & _ & F5 & Ho).
  exists f', (column_at 5 f'). split; [exact E|].
  split.
  { apply get_col_at. destruct Hw' as [-> _]. reflexivity. }
  split.
  - clear - F5 Hna.
    induction F5 as [|x y xs ys Hxy _ IH]; constructor.
    + destruct x as [|v|s].
      * apply (cut_same NaN floorarea_bins floorarea_labels true false
                 NaN y); [reflexivity | exact Hxy].
      * destruct (FloorArea.floor_area_cut v)
          as (B1 & B2 & B3 & B4 & B5 & B6 & _).
        repeat split; intros Hv;
          [ apply B1 in Hv | apply B2 in Hv | apply B3 in Hv
          | apply B4 in Hv | apply B5 in Hv | apply B6 in Hv ];
          exact (cut_same _ _ _ _ _ _ _ Hv Hxy).
      * inversion Hna; contradiction.
    + apply IH. inversion Hna; assumption.
  - destruct Hw' as [Hc' _].
    intros name [<-|[<-|[<-|[<-|[<-|[]]]]]];
      match goal with
      | |- get_col ?name _ = _ =>
          let i := eval vm_compute in (hd 0%nat (positions_of name bn_n 0)) in
          rewrite (get_col_at name f' i), (get_col_at name f i)
            by (rewrite ?Hc, ?Hc'; reflexivity);
          rewrite (Ho i) by lia; reflexivity
      end.
Qed.

Lemma floor_area_binning_witness :
  seven_wide derived /\
  get_col "monthly_income" derived = ret [n 5000; NaN] /\
  get_col "floor_area" derived = ret [n 90; n 45] /\
  Forall not_text [n 5000; NaN] /\
  Forall not_text [n 90; n 45] /\
  exists f' areas',
    bin_columns derived = ret f' /\
    get_col "floor_area" f' = ret areas' /\
    Forall2 (fun c c' =>
               match c with
               | Num x =>
                   ((0 < x <= 50)%Q -> c' = Str "0-50") /\
                   ((50 < x <= 80)%Q -> c' = Str "50-80") /\
                   ((80 < x <= 150)%Q -> c' = Str "80-150") /\
                   ((150 < x <= 250)%Q -> c' = Str "150-250") /\
                   ((250 < x <= 500)%Q -> c' = Str "250-500") /\
                   ((x <= 0 \/ 500 < x)%Q -> c' = NaN)
               | _ => c' = NaN
               end) [n 90; n 45] areas' /\
    forall name, In name code_nodes ->
                 get_col name f' = get_col name derived.
Proof.
  assert (H1 : get_col "monthly_income" derived = ret [n 5000; NaN])
    by reflexivity.
  assert (H2 : get_col "floor_area" derived = ret [n 90; n 45])
    by reflexivity.
  assert (H3 : Forall not_text [n 5000; NaN]) by (repeat constructor).
  assert (H4 : Forall not_text [n 90; n 45]) by (repeat constructor).
  split; [exact seven_wide_derived|]. split; [exact H1|].
  split; [exact H2|]. split; [exact H3|]. split; [exact H4|].
  exact (floor_area_binning derived [n 5000; NaN] [n 90; n 45]
           seven_wide_derived H1 H2 H3 H4).
Defined.

End BinnedColumns.

Module FormattedColumns.
Import Py PyFacts Pandas Socios BnEvidence Examples MoreExamples EncoderKeys
  EvidenceWords FrameColumns Formatting.

(** X26.  Lines 47 to 51 format the five code columns of the frame cell
    by cell, and do not raise on a frame of the seven nodes whose codes
    are numbers or missing.  A missing code becomes the text [nan]; a
    number becomes an integer numeral, the digits of a nearest integer to
    its magnitude after a minus sign when it is negative, with no point
    and no exponent.  Income and floor area are left as they are. *)
Theorem format_columns_codes (f : Frame) :
  seven_wide f ->
  (forall name xs, In name code_nodes -> get_col name f = ret xs ->
                   Forall not_text xs) ->
  exists f',
    format_columns f = ret f' /\
    keys f' = keys f /\
    (forall name xs, In name code_nodes -> get_col name f = ret xs ->
       exists ys,
         get_col name f' = ret ys /\
         Forall2 (fun c c' =>
                    match c with
                    | NaN => c' = Str "nan"
                    | Num q =>
                        exists r : Z,
                          0 <= r /\
                          c' = Str ((if Qnum q <? 0 then "-"
                                     else EmptyString) +++ str_int r) /\
                          all_digits (str_int r) = true /\
                          (2 * r - 1) * Zpos (Qden q)
                          <= 2 * Z.abs (Qnum q)
                          <= (2 * r + 1) * Zpos (Qden q)
                    | Str _ => False
                    end) xs ys) /\
    get_col "monthly_income" f' = get_col "monthly_income" f /\
    get_col "floor_area" f' = get_col "floor_area" f.
Proof.
  intros Hw Hn. pose proof Hw as [Hc _].
  assert (Hpos : forall name, In name code_nodes ->
            exists i, In i [1; 2; 3; 4; 6]%nat /\
                      forall g, columns g = bn_n ->
                                get_col name g = ret (column_at i g)).
  { intros name [<-|[<-|[<-|[<-|[<-|[]]]]]];
      eexists; (split; [|intros g Hg; apply get_col_at; rewrite Hg;
                         reflexivity]); simpl; auto 6. }
  destruct (format_columns_exact f Hw)
    as (f' & E & [Hc' Hw'] & Hk & HF & H0 & H5).
  { intros i [<-|[<-|[<-|[<-|[<-|[]]]]]];
      [ apply (Hn "water_access") | apply (Hn "roof_material")
      | apply (Hn "wall_material") | apply (Hn "cb_size")
      | apply (Hn "geyser_nr") ];
      try (apply get_col_at; rewrite Hc; reflexivity); simpl; auto 6. }
  exists f'. split; [exact E|]. split; [exact Hk|]. split; [|split].
  - intros name xs Hin Hx.
    destruct (Hpos name Hin) as (i & Hi & Hg).
    rewrite (Hg f Hc) in Hx. unfold ret in Hx. inversion Hx; subst xs.
    exists (column_at i f'). split; [apply Hg; exact Hc'|].
    specialize (HF i Hi). clear - HF.
    induction HF as [|x y xs ys Hxy _ IH]; constructor; [|exact IH].
    destruct x as [|q|s]; [exact Hxy | | exact Hxy].
    destruct (format_0f_present q) as (r & Hr & Et & Hd & Hnear).
    exists r. split; [exact Hr|]. split; [rewrite Hxy, Et; reflexivity|].
    split; [exact Hd | exact Hnear].
  - rewrite (get_col_at "monthly_income" f' 0),
      (get_col_at "monthly_income" f 0) by (rewrite ?Hc, ?Hc'; reflexivity).
    rewrite H0. reflexivity.
  - rewrite (get_col_at "floor_area" f' 5),
      (get_col_at "floor_area" f 5) by (rewrite ?Hc, ?Hc'; reflexivity).
    rewrite H5. reflexivity.
Qed.

Lemma seven_wide_binned : seven_wide binned.
Proof. split; [reflexivity|]. intros r [<-|[<-|[]]]; reflexivity. Qed.

Lemma format_columns_codes_witness :
  seven_wide binned /\
  (forall name xs, In name code_nodes -> get_col name binned = ret xs ->
                   Forall not_text xs) /\
  exists f',
    format_columns binned = ret f' /\
    keys f' = keys binned /\
    (forall name xs, In name code_nodes -> get_col name binned = ret xs ->
       exists ys,
         get_col name f' = ret ys /\
         Forall2 (fun c c' =>
                    match c with
                    | NaN => c' = Str "nan"
                    | Num q =>
                        exists r : Z,
                          0 <= r /\
                          c' = Str ((if Qnum q <? 0 then "-"
                                     else EmptyString) +++ str_int r) /\
                          all_digits (str_int r) = true /\
                          (2 * r - 1) * Zpos (Qden q)
                          <= 2 * Z.abs (Qnum q)
                          <= (2 * r + 1) * Zpos (Qden q)
                    | Str _ => False
                    end) xs ys) /\
    get_col "monthly_income" f' = get_col "monthly_income" binned /\
    get_col "floor_area" f' = get_col "floor_area" binned.
Proof.
  assert (H : forall name xs, In name code_nodes ->
                get_col name binned = ret xs -> Forall not_text xs).
  { intros name xs [<-|[<-|[<-|[<-|[<-|[]]]]]] Hx;
      vm_compute in Hx; inversion Hx; repeat constructor. }
  split; [exact seven_wide_binned|]. split; [exact H|].
  exact (format_columns_codes binned seven_wide_binned H).
Defined.

End FormattedColumns.
